(** * Fee ledger and class membership of the student controller

    A shallow embedding of [src/controllers/student.controller.js]
    (handlers [REGISTER_STUDENT], [UPDATE_STUDENT], [MARK_FEE_PAYMENT_STATUS]
    and [IMPOSE_LATE_FINE]) together with the part of the document store they
    touch.

    Conventions of the embedding.
    - A JavaScript property that may be [undefined] is an [option]; [null]
      is not told apart from [undefined].
    - Amounts are integers ([Z]); [NaN] and fractions are not modelled.
    - Object ids and month labels are strings.
    - Every [await] on the store may raise: the environment carries an oracle
      [fault] that is asked once per store operation, in program order.
      It stands for whatever the driver or the ODM can raise there (network
      failure, write conflict, duplicate key, cast or validation error).
    - A session with a transaction in progress works on a private copy of
      the database; committing publishes the copy, aborting drops it.  The
      commit is a store operation like any other and may raise; the session
      then counts as committed although nothing was published. *)

From stdpp Require Import gmap strings list fin_maps.

Local Open Scope string_scope.
Local Open Scope Z_scope.

(** ** JavaScript operators on optional numbers *)

(** Truthiness of a number that may be missing: [undefined] and [0] are falsy. *)
Definition truthy (v : option Z) : bool :=
  match v with
  | Some x => negb (x =? 0)
  | None => false
  end.

(** [v || d] on numbers. *)
Definition js_or (v : option Z) (d : Z) : Z :=
  match v with
  | Some x => if x =? 0 then d else x
  | None => d
  end.

(** [v ?? d]. *)
Definition js_nullish (v : option Z) (d : Z) : Z :=
  match v with
  | Some x => x
  | None => d
  end.

(** Truthiness of a string that may be missing: [undefined] and the empty
    string are falsy. *)
Definition truthy_str (v : option string) : bool :=
  match v with
  | Some s => negb (String.eqb s "")
  | None => false
  end.

(** Left-biased merge of two optional values: the patch wins when present. *)
Definition patched {A} (p d : option A) : option A :=
  match p with
  | Some x => Some x
  | None => d
  end.

(** ** Documents *)

Module ClassDoc.
Record t := mk {
  fee : option Z;
  lateFineAmount : option Z;
  students : list string
}.
End ClassDoc.

Module SubjectDoc.
Record t := mk {
  students : list string
}.
End SubjectDoc.

(** The student schema ([studentSchema]).  The scalar profile fields the
    handlers only copy (gender, dob, aadharId, ...) are kept in [profile]. *)
Module StudentDoc.
Record t := mk {
  name : option string;
  profilePhoto : option string;
  email : option string;
  password : option string;
  studentClass : option string;
  rollNumber : option string;
  grade : option string;
  subjects : list string;
  parentContact : option string;
  parentName : option string;
  role : option string;
  profile : gmap string string
}.
End StudentDoc.

(** Modelled from the spec: [models/feepayment.model.js] is not among the
    sources.  The fields are those the controller reads and writes, and which
    section 3 of the specification lists for a FeePayment; a document and an
    update patch ([$set], [$setOnInsert]) have the same shape, every field
    optional. *)
Module FeeDoc.
Record t := mk {
  student : option string;
  month : option string;
  status : option string;
  baseAmount : option Z;
  lateFineAmount : option Z;
  lateFine : option bool;
  finePaid : option bool;
  isAdvancePayment : option bool;
  paymentDate : option Z
}.

Definition empty : t := mk None None None None None None None None None.

(** [overlay p d]: the fields present in [p] replace those of [d]. *)
Definition overlay (p d : t) : t :=
  mk (patched (student p) (student d))
     (patched (month p) (month d))
     (patched (status p) (status d))
     (patched (baseAmount p) (baseAmount d))
     (patched (lateFineAmount p) (lateFineAmount d))
     (patched (lateFine p) (lateFine d))
     (patched (finePaid p) (finePaid d))
     (patched (isAdvancePayment p) (isAdvancePayment d))
     (patched (paymentDate p) (paymentDate d)).

Definition with_lateFineAmount (v : option Z) (d : t) : t :=
  mk (student d) (month d) (status d) (baseAmount d) v (lateFine d)
     (finePaid d) (isAdvancePayment d) (paymentDate d).
End FeeDoc.

(** ** The database

    Modelled from the spec: the FeePayment collection is uniquely keyed by
    (student, month) (sections 3 and 6), hence a finite map on that pair. *)
Record Db := mkDb {
  Students : gmap string StudentDoc.t;
  Classes : gmap string ClassDoc.t;
  Subjects : gmap string SubjectDoc.t;
  FeePayments : gmap (string * string) FeeDoc.t
}.

Definition with_Students (f : gmap string StudentDoc.t -> gmap string StudentDoc.t) (d : Db) : Db :=
  mkDb (f (Students d)) (Classes d) (Subjects d) (FeePayments d).
Definition with_Classes (f : gmap string ClassDoc.t -> gmap string ClassDoc.t) (d : Db) : Db :=
  mkDb (Students d) (f (Classes d)) (Subjects d) (FeePayments d).
Definition with_Subjects (f : gmap string SubjectDoc.t -> gmap string SubjectDoc.t) (d : Db) : Db :=
  mkDb (Students d) (Classes d) (f (Subjects d)) (FeePayments d).
Definition with_FeePayments (f : gmap (string * string) FeeDoc.t -> gmap (string * string) FeeDoc.t) (d : Db) : Db :=
  mkDb (Students d) (Classes d) (Subjects d) (f (FeePayments d)).

(** ** Errors and responses *)

(** What a handler can see thrown.  [DriverError] is anything raised by the
    store; a duplicate key is [DriverError (Some 11000) _ (Some fields)]. *)
Inductive JsError :=
| ApiError (statusCode : Z) (message : string)
| ReferenceError (message : string)
| TypeError (message : string)
| HeadersSentError (message : string)
| DriverError (code : option Z) (message : string) (keyValue : option (list string)).

(** Modelled from the spec: [utils/ApiError.js] is not among the sources.
    Section 6 gives an error a numeric status code and a message; every
    [catch] of the controller reads them as [error.code] and
    [error.message]. *)
Definition error_code (e : JsError) : option Z :=
  match e with
  | ApiError c _ => Some c
  | DriverError c _ _ => c
  | ReferenceError _ | TypeError _ | HeadersSentError _ => None
  end.

Definition error_message (e : JsError) : string :=
  match e with
  | ApiError _ m | ReferenceError m | TypeError m | HeadersSentError m
  | DriverError _ m _ => m
  end.

Definition error_keyValue (e : JsError) : option (list string) :=
  match e with
  | DriverError _ _ kv => kv
  | _ => None
  end.

(** Result of [bulkWrite]: how many operations inserted and how many matched. *)
Record BulkWriteResult := mkBulk {
  upsertedCount : nat;
  matchedCount : nat
}.

Inductive Payload :=
| FeeData (d : FeeDoc.t)
| FeeWithStudent (d : option FeeDoc.t) (studentName : option string)
| BulkData (r : BulkWriteResult)
| StudentData (s : StudentDoc.t) (cls : option ClassDoc.t) (subs : list SubjectDoc.t).

Inductive Body :=
| Failure (message : string)
| ApiResponse (statusCode : Z) (data : Payload) (message : string).

Record Response := mkResponse {
  res_status : Z;
  res_body : Body
}.

(** ** Environment of a request *)
Record Env := mkEnv {
  (** the exception, if any, raised by the n-th store operation *)
  fault : nat -> option JsError;
  (** [new Date()] *)
  currentDate : Z;
  (** whether the first day of the month with this label, in the current
      year, is after [currentDate] *)
  startsInFuture : string -> bool;
  (** the defaults the FeePayment schema gives a newly inserted document
      (the schema is not among the sources) *)
  feeDefaults : FeeDoc.t;
  (** the id the driver generates for a created document *)
  newObjectId : string;
  (** [bcrypt.hash(password, 10)] *)
  bcryptHash : string -> string
}.

Definition no_fault : nat -> option JsError := fun _ => None.

(** ** Sessions and the handler monad *)

(** The transaction state of a driver session.  [InProgress d] carries the
    transaction's private copy of the database. *)
Inductive TxnState :=
| NoTransaction
| InProgress (d : Db)
| Committed
| Aborted.

(** The state a handler runs in: the committed database, the state of the
    request's session, the number of store operations issued so far, the
    response sent on [res] (if any) and the error handed to [next] (if
    any). *)
Record World := mkWorld {
  committed : Db;
  session : TxnState;
  opCount : nat;
  response : option Response;
  forwarded : option JsError
}.

(** A request arrives: nothing sent, a fresh session. *)
Definition idle (db : Db) : World := mkWorld db NoTransaction 0 None None.

Inductive Outcome (A : Type) :=
| Ok (a : A)
| Throw (e : JsError).
Arguments Ok {A} a.
Arguments Throw {A} e.

Definition M (A : Type) : Type := World -> Outcome A * World.

Definition ret {A} (a : A) : M A := fun w => (Ok a, w).

Definition throw {A} (e : JsError) : M A := fun w => (Throw e, w).

Definition bind {A B} (m : M A) (k : A -> M B) : M B := fun w =>
  match m w with
  | (Ok a, w') => k a w'
  | (Throw e, w') => (Throw e, w')
  end.

Notation "x <- m ;; k" := (bind m (fun x => k))
  (at level 100, m at next level, right associativity).
Notation "m ;;; k" := (bind m (fun _ => k))
  (at level 100, right associativity).

(** [try body catch (error) handler]. *)
Definition try_catch {A} (body : M A) (handler : JsError -> M A) : M A := fun w =>
  match body w with
  | (Ok a, w') => (Ok a, w')
  | (Throw e, w') => handler e w'
  end.

(** [session.startTransaction()] on the fresh session of the request. *)
Definition startTransaction : M unit := fun w =>
  (Ok tt, mkWorld (committed w) (InProgress (committed w)) (opCount w)
            (response w) (forwarded w)).

(** [session.inTransaction()]. *)
Definition inTransaction : M bool := fun w =>
  (Ok (match session w with InProgress _ => true | _ => false end), w).

(** What the driver raises when a session is asked for a transition its
    state does not allow. *)
Definition MongoTransactionError (message : string) : JsError :=
  DriverError None message None.

(** [await session.commitTransaction()].  Whether the commit command
    succeeds or raises, the session is in the committed state afterwards.
    (No handler commits twice; a second commit is taken to do nothing.) *)
Definition commitTransaction (E : Env) : M unit := fun w =>
  match session w with
  | InProgress d =>
      match fault E (opCount w) with
      | Some e =>
          (Throw e, mkWorld (committed w) Committed (S (opCount w))
                      (response w) (forwarded w))
      | None =>
          (Ok tt, mkWorld d Committed (S (opCount w)) (response w) (forwarded w))
      end
  | NoTransaction => (Throw (MongoTransactionError "No transaction started"), w)
  | Committed => (Ok tt, w)
  | Aborted =>
      (Throw (MongoTransactionError
                "Cannot call commitTransaction after calling abortTransaction"), w)
  end.

(** [await session.abortTransaction()].  The driver ignores a failure of the
    abort command itself. *)
Definition abortTransaction : M unit := fun w =>
  match session w with
  | InProgress _ =>
      (Ok tt, mkWorld (committed w) Aborted (opCount w) (response w) (forwarded w))
  | NoTransaction => (Throw (MongoTransactionError "No transaction started"), w)
  | Committed =>
      (Throw (MongoTransactionError
                "Cannot call abortTransaction after calling commitTransaction"), w)
  | Aborted =>
      (Throw (MongoTransactionError "Cannot call abortTransaction twice"), w)
  end.

(** A store operation.  With [inSession] it runs on the transaction's copy
    (when one is in progress); without, directly on the committed database. *)
Definition dbOp {A} (E : Env) (inSession : bool) (f : Db -> A * Db) : M A := fun w =>
  match fault E (opCount w) with
  | Some e =>
      (Throw e, mkWorld (committed w) (session w) (S (opCount w))
                  (response w) (forwarded w))
  | None =>
      match (if inSession then session w else NoTransaction) with
      | InProgress d =>
          let '(a, d') := f d in
          (Ok a, mkWorld (committed w) (InProgress d') (S (opCount w))
                   (response w) (forwarded w))
      | _ =>
          let '(a, c') := f (committed w) in
          (Ok a, mkWorld c' (session w) (S (opCount w))
                   (response w) (forwarded w))
      end
  end.

Definition dbRead {A} (E : Env) (inSession : bool) (f : Db -> A) : M A :=
  dbOp E inSession (fun d => (f d, d)).

(** [res.status(s).json(b)]: the first call sends the response, a later one
    raises because the headers are already sent.  The status is recorded as
    given; how the HTTP layer treats a number that is not an HTTP status is
    outside the model. *)
Definition res_json (s : Z) (b : Body) : M unit := fun w =>
  match response w with
  | None =>
      (Ok tt, mkWorld (committed w) (session w) (opCount w)
                (Some (mkResponse s b)) (forwarded w))
  | Some _ =>
      (Throw (HeadersSentError
                "Cannot set headers after they are sent to the client"), w)
  end.

(** [next(error)]. *)
Definition next (e : JsError) : M unit := fun w =>
  (Ok tt, mkWorld (committed w) (session w) (opCount w) (response w) (Some e)).

(** ** Update operators on fee documents *)

(** An update object: [$set], [$setOnInsert] and [$inc] on [lateFineAmount]
    (the only field the controller increments). *)
Record UpdateObj := mkUpdate {
  upd_set : FeeDoc.t;
  upd_setOnInsert : FeeDoc.t;
  upd_inc_lateFineAmount : option Z
}.

(** The update applied to a document that matched the filter:
    [$setOnInsert] is ignored, [$inc] adds to the stored number (a missing
    field counts as 0). *)
Definition applyUpdate (u : UpdateObj) (d : FeeDoc.t) : FeeDoc.t :=
  let d1 := FeeDoc.overlay (upd_set u) d in
  match upd_inc_lateFineAmount u with
  | Some k =>
      FeeDoc.with_lateFineAmount
        (Some (js_nullish (FeeDoc.lateFineAmount d) 0 + k)) d1
  | None => d1
  end.

(** The document an upsert inserts when nothing matched: the equality fields
    of the filter, then [$setOnInsert] and [$set]; a field that no operator
    mentions takes the schema default; an incremented field starts from the
    increment. *)
Definition insertedDoc (E : Env) (s m : string) (u : UpdateObj) : FeeDoc.t :=
  let filter :=
    FeeDoc.mk (Some s) (Some m) None None None None None None None in
  let d1 :=
    FeeDoc.overlay (upd_set u)
      (FeeDoc.overlay (upd_setOnInsert u)
         (FeeDoc.overlay filter (feeDefaults E))) in
  match upd_inc_lateFineAmount u with
  | Some k => FeeDoc.with_lateFineAmount (Some k) d1
  | None => d1
  end.

Definition upsertedDoc (E : Env) (s m : string) (u : UpdateObj)
    (existing : option FeeDoc.t) : FeeDoc.t :=
  match existing with
  | Some d => applyUpdate u d
  | None => insertedDoc E s m u
  end.

(** [FeePayment.findOneAndUpdate({student, month}, update,
    {upsert: true, new: true})]: returns the document after the update. *)
Definition findOneAndUpdate (E : Env) (s m : string) (u : UpdateObj)
    (d : Db) : FeeDoc.t * Db :=
  let doc := upsertedDoc E s m u (FeePayments d !! (s, m)) in
  (doc, with_FeePayments (insert (s, m) doc) d).

(** One [updateOne] entry of a bulk write, always with [upsert: true]. *)
Record UpdateOne := mkUpdateOne {
  filter_student : string;
  filter_month : string;
  update : UpdateObj
}.

(** [FeePayment.bulkWrite(ops)]: the operations are applied in order. *)
Fixpoint bulkWrite (E : Env) (ops : list UpdateOne) (d : Db) : BulkWriteResult * Db :=
  match ops with
  | [] => (mkBulk 0 0, d)
  | op :: rest =>
      let existed :=
        bool_decide (is_Some (FeePayments d !! (filter_student op, filter_month op))) in
      let '(_, d1) :=
        findOneAndUpdate E (filter_student op) (filter_month op) (update op) d in
      let '(r, d2) := bulkWrite E rest d1 in
      (if existed then mkBulk (upsertedCount r) (S (matchedCount r))
       else mkBulk (S (upsertedCount r)) (matchedCount r), d2)
  end.

(** ** The shared [catch] block of the fee and registration handlers *)

(** The message built for a duplicate-key error. *)
Definition duplicateKeyMessage (e : JsError) : string :=
  match error_keyValue e with
  | Some keys =>
      let field := match keys with k :: _ => k | [] => "undefined" end in
      "Duplicate key error: A student with this " ++ field ++ " already exists"
  | None => "Duplicate key error"
  end.

(** [catch (error)] of [REGISTER_STUDENT], [MARK_FEE_PAYMENT_STATUS] and
    [IMPOSE_LATE_FINE]: abort if a transaction is open, answer 409 to a
    duplicate key, then (without returning) answer [error.code || 500]. *)
Definition catch_with_conflict (e : JsError) : M unit :=
  open <- inTransaction ;;
  (if open then abortTransaction else ret tt) ;;;
  (if bool_decide (error_code e = Some 11000)
   then res_json 409 (Failure (duplicateKeyMessage e))
   else ret tt) ;;;
  res_json (js_or (error_code e) 500) (Failure (error_message e)).

(** ** Marking fee payments *)

(** [req.body.months]: an array of labels, one label, or anything else. *)
Inductive Months :=
| MonthList (ms : list string)
| MonthLabel (m : string)
| MonthsOther.

(** The update object built per month in bulk mode. *)
Definition bulkUpdateObj (E : Env) (student month : string)
    (status : option string) (isAdvancePayment : bool) (baseFeeAmount : Z) : UpdateObj :=
  mkUpdate
    (FeeDoc.mk None None status None None
       (Some false)
       (Some true)
       (if isAdvancePayment then Some true else None)
       (Some (currentDate E)))
    (FeeDoc.mk (Some student) (Some month) None (Some baseFeeAmount)
       None None None None None)
    None.

(** The operations pushed on [bulkUpdateOps], one upsert per listed month. *)
Definition bulkUpdateOps (E : Env) (student : string) (status : option string)
    (isAdvancePayment : bool) (baseFeeAmount : Z) (months : list string) : list UpdateOne :=
  map (fun month =>
         mkUpdateOne student month
           (bulkUpdateObj E student month status isAdvancePayment baseFeeAmount))
    months.

(** The update object built in single-month mode. *)
Definition singleUpdateObj (E : Env) (student month : string)
    (status : option string) (isAdvancePayment : bool) (baseFeeAmount : Z) : UpdateObj :=
  let isFutureMonth := isAdvancePayment || startsInFuture E month in
  mkUpdate
    (FeeDoc.mk None None status None None
       (Some false)
       (if bool_decide (status = Some "paid") then Some true else None)
       (if isFutureMonth then Some true else None)
       (Some (currentDate E)))
    (FeeDoc.mk (Some student) (Some month) None (Some baseFeeAmount)
       None None None None None)
    None.

(** The [try] block of [MARK_FEE_PAYMENT_STATUS].  ([lateFineAmount] is
    computed and never used, as in the source.) *)
Definition mark_try (E : Env) (student : string) (months : Months)
    (status : option string) (isAdvancePayment : bool) : M unit :=
  studentExists <- dbRead E true (fun d => Students d !! student) ;;
  match studentExists with
  | None => throw (ApiError 404 "Student not found.")
  | Some st =>
      studentClass <-
        dbRead E true (fun d =>
          match StudentDoc.studentClass st with
          | Some c => Classes d !! c
          | None => None
          end) ;;
      match studentClass with
      | None => throw (ApiError 404 "Student class not found.")
      | Some cls =>
          let baseFeeAmount := js_or (ClassDoc.fee cls) 0 in
          let lateFineAmount := js_or (ClassDoc.lateFineAmount cls) 0 in
          match months with
          | MonthList ms =>
              let ops :=
                bulkUpdateOps E student status isAdvancePayment baseFeeAmount ms in
              bulkWriteResults <- dbOp E true (bulkWrite E ops) ;;
              commitTransaction E ;;;
              res_json 200
                (ApiResponse 200 (BulkData bulkWriteResults)
                   "Bulk fee payment status updated sucessfully")
          | MonthLabel month =>
              let updateObj :=
                singleUpdateObj E student month status isAdvancePayment
                  baseFeeAmount in
              feePayment <- dbOp E true (findOneAndUpdate E student month updateObj) ;;
              commitTransaction E ;;;
              res_json 200
                (ApiResponse 200 (FeeData feePayment)
                   "Fee payment status updated successfully.")
          | MonthsOther =>
              throw (ApiError 400 "Months must be a string or an array")
          end
      end
  end.

Definition MARK_FEE_PAYMENT_STATUS (E : Env) (student : string) (months : Months)
    (status : option string) (isAdvancePayment : bool) : M unit :=
  startTransaction ;;;
  try_catch (mark_try E student months status isAdvancePayment)
    catch_with_conflict.

(** ** Imposing a late fine *)

(** The update object of [IMPOSE_LATE_FINE]. *)
Definition fineUpdateObj (studentId month : string) (classFee lateFine : Z)
    (existingPayment : option FeeDoc.t) : UpdateObj :=
  let existingAmount :=
    match existingPayment with
    | Some p => FeeDoc.lateFineAmount p
    | None => None
    end in
  let setFinePaid :=
    match existingPayment with
    | None => true
    | Some p => negb (bool_decide (FeeDoc.finePaid p = Some false))
    end in
  mkUpdate
    (FeeDoc.mk None None None None None
       (Some true)
       (if setFinePaid then Some false else None)
       None None)
    (FeeDoc.mk (Some studentId) (Some month) (Some "not paid") (Some classFee)
       None None None (Some false) None)
    (Some (if truthy existingAmount then 0 else lateFine)).

(** [existingPayment?.status === "paid"]. *)
Definition isPaid (existingPayment : option FeeDoc.t) : bool :=
  match existingPayment with
  | Some p => bool_decide (FeeDoc.status p = Some "paid")
  | None => false
  end.

(** The [try] block of [IMPOSE_LATE_FINE].  After the [??] defaults
    [classFee] and [lateFine] are numbers, so the test
    [classFee === undefined || lateFine === undefined] never fires. *)
Definition impose_try (E : Env) (studentId month : string) : M unit :=
  student <-
    dbRead E true (fun d =>
      match Students d !! studentId with
      | Some st =>
          Some (st,
                match StudentDoc.studentClass st with
                | Some c =>
                    match Classes d !! c with
                    | Some _ => Some c
                    | None => None
                    end
                | None => None
                end)
      | None => None
      end) ;;
  match student with
  | None | Some (_, None) =>
      throw (ApiError 404 "Student or associated class not found")
  | Some (st, Some classId) =>
      studentClass <- dbRead E true (fun d => Classes d !! classId) ;;
      let classFee :=
        js_nullish (match studentClass with
                    | Some c => ClassDoc.fee c
                    | None => None
                    end) 1000 in
      let lateFine :=
        js_nullish (match studentClass with
                    | Some c => ClassDoc.lateFineAmount c
                    | None => None
                    end) 500 in
      existingPayment <-
        dbRead E true (fun d => FeePayments d !! (studentId, month)) ;;
      if isPaid existingPayment
      then throw (ApiError 400 "Cannot impose fine on already paid fee")
      else
        let updateObj :=
          fineUpdateObj studentId month classFee lateFine existingPayment in
        payment <- dbOp E true (findOneAndUpdate E studentId month updateObj) ;;
        createdPayment <-
          dbRead E true (fun d =>
            (FeePayments d !! (studentId, month),
             match Students d !! studentId with
             | Some s => StudentDoc.name s
             | None => None
             end)) ;;
        commitTransaction E ;;;
        res_json 200
          (ApiResponse 200
             (FeeWithStudent (fst createdPayment) (snd createdPayment))
             "Fine imposed Successfully")
  end.

(** [studentId] and [month] are strings here; a missing body field behaves
    as the empty string (both are falsy). *)
Definition IMPOSE_LATE_FINE (E : Env) (studentId month : string) : M unit :=
  if String.eqb studentId "" || String.eqb month ""
  then next (ApiError 400 "Student ID and month are required")
  else
    startTransaction ;;;
    try_catch (impose_try E studentId month) catch_with_conflict.

(** ** Membership arrays *)

(** [$pull]: every occurrence of the id is removed. *)
Definition pull (id : string) (l : list string) : list string :=
  filter (fun x => x ≠ id) l.

(** [$addToSet]: the id is appended unless it is already there. *)
Definition addToSet (id : string) (l : list string) : list string :=
  if bool_decide (id ∈ l) then l else l ++ [id].

(** [Subject.updateMany({_id: {$in: ids}}, update)] on the [students] array. *)
Definition updateManySubjects (ids : list string)
    (f : list string -> list string) (d : Db) : unit * Db :=
  (tt,
   with_Subjects
     (map_imap (fun k sub =>
        Some (if bool_decide (k ∈ ids)
              then SubjectDoc.mk (f (SubjectDoc.students sub))
              else sub))) d).

(** [.populate("studentClass subjects")] on a student. *)
Definition populated (d : Db) (s : StudentDoc.t) : Payload :=
  StudentData s
    (match StudentDoc.studentClass s with
     | Some c => Classes d !! c
     | None => None
     end)
    (omap (fun k => Subjects d !! k) (StudentDoc.subjects s)).

(** ** Updating a student *)

Module UpdateBody.
Record t := mk {
  name : option string;
  studentClass : option string;
  section : option string;
  grade : option string;
  subjects : option (list string);
  parentContact : option string;
  parentName : option string
}.
End UpdateBody.

(** [Student.findByIdAndUpdate(studentId, {$set: {...}}, {new: true, ...})].
    Keys whose value is [undefined] are not written; [section] is not a path
    of the schema and is dropped. *)
Definition setStudentFields (studentId : string) (b : UpdateBody.t)
    (d : Db) : option Payload * Db :=
  match Students d !! studentId with
  | None => (None, d)
  | Some s =>
      let s' :=
        StudentDoc.mk
          (patched (UpdateBody.name b) (StudentDoc.name s))
          (StudentDoc.profilePhoto s)
          (StudentDoc.email s)
          (StudentDoc.password s)
          (patched (UpdateBody.studentClass b) (StudentDoc.studentClass s))
          (StudentDoc.rollNumber s)
          (patched (UpdateBody.grade b) (StudentDoc.grade s))
          (match UpdateBody.subjects b with
           | Some l => l
           | None => StudentDoc.subjects s
           end)
          (patched (UpdateBody.parentContact b) (StudentDoc.parentContact s))
          (patched (UpdateBody.parentName b) (StudentDoc.parentName s))
          (StudentDoc.role s)
          (StudentDoc.profile s) in
      let d' := with_Students (insert studentId s') d in
      (Some (populated d' s'), d')
  end.

(** The class part of [UPDATE_STUDENT].  The identifier [Class] is neither
    imported nor declared in the module (the class model is imported as
    [StudentAcademicClass]), so evaluating either [Class.findByIdAndUpdate]
    raises a ReferenceError before any update is issued. *)
Definition handleClassUpdate (studentClass : option string)
    (existingStudent : StudentDoc.t) : M unit :=
  if truthy_str studentClass then
    match StudentDoc.studentClass existingStudent with
    | None =>
        throw (TypeError "Cannot read properties of undefined (reading 'toString')")
    | Some current =>
        if bool_decide (studentClass ≠ Some current)
        then throw (ReferenceError "Class is not defined")
        else ret tt
    end
  else ret tt.

(** The subjects part of [UPDATE_STUDENT]. *)
Definition handleSubjectsUpdate (E : Env) (studentId : string)
    (subjects : option (list string)) (existingStudent : StudentDoc.t) : M unit :=
  match subjects with
  | None => ret tt
  | Some newSubjects =>
      let existingSubjects := StudentDoc.subjects existingStudent in
      let subjectsToAdd :=
        filter (fun sub => sub ∉ existingSubjects) newSubjects in
      let subjectsToRemove :=
        filter (fun sub => sub ∉ newSubjects) existingSubjects in
      (match subjectsToAdd with
       | [] => ret tt
       | _ => dbOp E true (updateManySubjects subjectsToAdd (addToSet studentId))
       end) ;;;
      (match subjectsToRemove with
       | [] => ret tt
       | _ => dbOp E true (updateManySubjects subjectsToRemove (pull studentId))
       end)
  end.

(** The [try] block of [UPDATE_STUDENT]. *)
Definition update_try (E : Env) (studentId : string) (b : UpdateBody.t) : M unit :=
  if negb (truthy_str (UpdateBody.name b))
     && negb (truthy_str (UpdateBody.studentClass b))
     && negb (truthy_str (UpdateBody.section b))
     && negb (truthy_str (UpdateBody.grade b))
     && negb (bool_decide (is_Some (UpdateBody.subjects b)))
     && negb (truthy_str (UpdateBody.parentContact b))
     && negb (truthy_str (UpdateBody.parentName b))
  then throw (ApiError 400 "No fields to update")
  else
    existingStudent <- dbRead E true (fun d => Students d !! studentId) ;;
    match existingStudent with
    | None => throw (ApiError 404 "Student not found.")
    | Some existing =>
        handleClassUpdate (UpdateBody.studentClass b) existing ;;;
        handleSubjectsUpdate E studentId (UpdateBody.subjects b) existing ;;;
        updatedStudent <- dbOp E true (setStudentFields studentId b) ;;
        match updatedStudent with
        | None => throw (ApiError 404 "Student not found.")
        | Some data =>
            commitTransaction E ;;;
            res_json 200
              (ApiResponse 200 data "Student details updated successfully.")
        end
    end.

(** [UPDATE_STUDENT]: its [catch] aborts unconditionally and answers
    [error.code || 500]. *)
Definition UPDATE_STUDENT (E : Env) (studentId : string) (b : UpdateBody.t) : M unit :=
  startTransaction ;;;
  try_catch (update_try E studentId b)
    (fun error =>
       abortTransaction ;;;
       res_json (js_or (error_code error) 500) (Failure (error_message error))).

(** ** Registering a student *)

Module RegisterBody.
Record t := mk {
  name : option string;
  email : option string;
  password : option string;
  studentClass : option string;
  rollNumber : option string;
  grade : option string;
  parentContact : option string;
  parentName : option string;
  profile : gmap string string
}.
End RegisterBody.

(** [Student.findOne({ email })], used only for its truthiness. *)
Definition emailTaken (email : option string) (d : Db) : bool :=
  bool_decide (Exists (fun kv => StudentDoc.email kv.2 = email)
                 (map_to_list (Students d))).

(** [Student.create([...], { session })]: the pre-save hook stores the hash
    of the password; [subjects] and [role] take their schema defaults. *)
Definition createStudent (E : Env) (b : RegisterBody.t)
    (profilePhotoUrl : option string) (d : Db) : string * Db :=
  let doc :=
    StudentDoc.mk (RegisterBody.name b) profilePhotoUrl (RegisterBody.email b)
      (bcryptHash E <$> RegisterBody.password b)
      (RegisterBody.studentClass b) (RegisterBody.rollNumber b)
      (RegisterBody.grade b) [] (RegisterBody.parentContact b)
      (RegisterBody.parentName b) (Some "student") (RegisterBody.profile b) in
  (newObjectId E, with_Students (insert (newObjectId E) doc) d).

(** [classExists.students.push(id); classExists.save({ session })]. *)
Definition pushStudent (classId id : string) (d : Db) : unit * Db :=
  (tt,
   with_Classes
     (alter (fun c =>
        ClassDoc.mk (ClassDoc.fee c) (ClassDoc.lateFineAmount c)
          (ClassDoc.students c ++ [id])) classId) d).

(** The [try] block of [REGISTER_STUDENT].  [profilePhotoUrl] is the outcome
    of the optional upload, which does not touch the store. *)
Definition register_try (E : Env) (b : RegisterBody.t)
    (profilePhotoUrl : option string) : M unit :=
  existingStudent <- dbRead E false (emailTaken (RegisterBody.email b)) ;;
  if existingStudent then throw (ApiError 400 "Student already exists")
  else
    classExists <-
      dbRead E false (fun d =>
        match RegisterBody.studentClass b with
        | Some c =>
            match Classes d !! c with
            | Some _ => Some c
            | None => None
            end
        | None => None
        end) ;;
    match classExists with
    | None => throw (ApiError 400 "Invalid class assigned to student")
    | Some classId =>
        newStudent <- dbOp E true (createStudent E b profilePhotoUrl) ;;
        createdStudent <-
          dbRead E true (fun d =>
            match Students d !! newStudent with
            | Some s => Some (populated d s)
            | None => None
            end) ;;
        match createdStudent with
        | None => throw (ApiError 500 "Uh oh! Student registration failed")
        | Some data =>
            dbOp E true (pushStudent classId newStudent) ;;;
            commitTransaction E ;;;
            res_json 201 (ApiResponse 200 data "Student Registered Successfully")
        end
    end.

Definition REGISTER_STUDENT (E : Env) (b : RegisterBody.t)
    (profilePhotoUrl : option string) : M unit :=
  startTransaction ;;;
  try_catch (register_try E b profilePhotoUrl) catch_with_conflict.

(** ** Sample data *)

Definition sampleEnv : Env :=
  mkEnv no_fault 1700000000 (fun m => String.eqb m "December") FeeDoc.empty
    "s9" (fun p => "hash:" ++ p).

Definition sampleStudent (cls : option string) : StudentDoc.t :=
  StudentDoc.mk (Some "Asha") None (Some "asha@example.org") (Some "hash:secret")
    cls None None [] None None (Some "student") ∅.

(** Class [cA] charges 500 with a late fine of 100; class [cB] has neither
    amount set; student [s3] points at a class that does not exist. *)
Definition sampleDb : Db :=
  mkDb
    (<["s1" := sampleStudent (Some "cA")]>
       (<["s2" := sampleStudent (Some "cB")]>
          (<["s3" := sampleStudent (Some "cZ")]> ∅)))
    (<["cA" := ClassDoc.mk (Some 500) (Some 100) ["s1"]]>
       (<["cB" := ClassDoc.mk None None ["s2"]]> ∅))
    ∅
    ∅.

Definition paidMarch : FeeDoc.t :=
  FeeDoc.mk (Some "s1") (Some "March") (Some "paid") (Some 500) None
    (Some false) (Some true) None (Some 1600000000).

Definition sampleDbPaid : Db :=
  with_FeePayments (insert ("s1", "March") paidMarch) sampleDb.

(** The committed fee record of a student for a month after running a handler
    on an idle database. *)
Definition feeAfter (h : M unit) (db : Db) (s m : string) : option FeeDoc.t :=
  FeePayments (committed (h (idle db)).2) !! (s, m).

(** The committed database after running a handler on an idle database. *)
Definition dbAfter (h : M unit) (db : Db) : Db := committed (h (idle db)).2.

(** ** Notions used in the statements *)

(** No store operation raises. *)
Definition faultless (E : Env) : Prop := forall n, fault E n = None.

(** The world right after [session.startTransaction()] on an idle database. *)
Definition started (db : Db) : World := mkWorld db (InProgress db) 0 None None.

(** The student exists and its [studentClass] resolves to a class document. *)
Definition hasClass (db : Db) (s : string) (cls : ClassDoc.t) : Prop :=
  exists st c,
    Students db !! s = Some st /\
    StudentDoc.studentClass st = Some c /\
    Classes db !! c = Some cls.

(** A computation is confined to the transaction: run while one is in
    progress, it keeps it in progress and touches neither the committed
    database, nor the response, nor [next]. *)
Definition confined {A} (m : M A) : Prop :=
  forall w d, session w = InProgress d ->
    (exists d', session (m w).2 = InProgress d') /\
    committed (m w).2 = committed w /\
    response (m w).2 = response w /\
    forwarded (m w).2 = forwarded w.

(** The session is past its transaction without having published it: still
    in progress, or committed in name only because the commit raised. *)
Definition unpublished (t : TxnState) : Prop :=
  (exists d, t = InProgress d) \/ t = Committed.

(** A computation fails unpublished: whenever it throws, nothing was
    committed and nothing was answered, and the transaction is either still
    in progress or its commit has just failed. *)
Definition fails_unpublished {A} (m : M A) : Prop :=
  forall w d e w', session w = InProgress d -> response w = None ->
    m w = (Throw e, w') ->
    unpublished (session w') /\
    committed w' = committed w /\
    response w' = None /\
    forwarded w' = forwarded w.

(** The answer the shared [catch] block sends for an error. *)
Definition conflictAwareResponse (e : JsError) : Response :=
  if bool_decide (error_code e = Some 11000)
  then mkResponse 409 (Failure (duplicateKeyMessage e))
  else mkResponse (js_or (error_code e) 500) (Failure (error_message e)).

(** The answer the [catch] block of [UPDATE_STUDENT] sends for an error. *)
Definition plainResponse (e : JsError) : Response :=
  mkResponse (js_or (error_code e) 500) (Failure (error_message e)).

(** Two fee records agree on every field but [finePaid]. *)
Definition sameExceptFinePaid (a b : FeeDoc.t) : Prop :=
  FeeDoc.student a = FeeDoc.student b /\
  FeeDoc.month a = FeeDoc.month b /\
  FeeDoc.status a = FeeDoc.status b /\
  FeeDoc.baseAmount a = FeeDoc.baseAmount b /\
  FeeDoc.lateFineAmount a = FeeDoc.lateFineAmount b /\
  FeeDoc.lateFine a = FeeDoc.lateFine b /\
  FeeDoc.isAdvancePayment a = FeeDoc.isAdvancePayment b /\
  FeeDoc.paymentDate a = FeeDoc.paymentDate b.

(** Two fee records agree on every field but [finePaid] and
    [isAdvancePayment]. *)
Definition sameExceptFinePaidAdvance (a b : FeeDoc.t) : Prop :=
  FeeDoc.student a = FeeDoc.student b /\
  FeeDoc.month a = FeeDoc.month b /\
  FeeDoc.status a = FeeDoc.status b /\
  FeeDoc.baseAmount a = FeeDoc.baseAmount b /\
  FeeDoc.lateFineAmount a = FeeDoc.lateFineAmount b /\
  FeeDoc.lateFine a = FeeDoc.lateFine b /\
  FeeDoc.paymentDate a = FeeDoc.paymentDate b.

(** The values an update leaves in the fields it does not set: those of the
    matched document, or the schema defaults when it inserts. *)
Definition priorDoc (E : Env) (existing : option FeeDoc.t) : FeeDoc.t :=
  match existing with
  | Some d => d
  | None => feeDefaults E
  end.

(** Marking the months of a list one request after the other. *)
Definition markSequentially (E : Env) (student : string) (ms : list string)
    (status : option string) (isAdvancePayment : bool) (db : Db) : Db :=
  foldl (fun d m =>
           dbAfter (MARK_FEE_PAYMENT_STATUS E student (MonthLabel m) status
                      isAdvancePayment) d)
    db ms.

(** The request that moves a student to another class. *)
Definition reassignTo (cls : string) : UpdateBody.t :=
  UpdateBody.mk None (Some cls) None None None None None.

(** The four mutating workflows and their inputs. *)
Inductive Workflow :=
| Registration (b : RegisterBody.t) (profilePhotoUrl : option string)
| StudentUpdate (studentId : string) (b : UpdateBody.t)
| FeeMarking (student : string) (months : Months) (status : option string)
    (isAdvancePayment : bool)
| FineImposition (studentId month : string).

Definition handler (E : Env) (wf : Workflow) : M unit :=
  match wf with
  | Registration b photo => REGISTER_STUDENT E b photo
  | StudentUpdate id b => UPDATE_STUDENT E id b
  | FeeMarking s months status adv => MARK_FEE_PAYMENT_STATUS E s months status adv
  | FineImposition s m => IMPOSE_LATE_FINE E s m
  end.

(** The [try] block of each handler. *)
Definition tryBlock (E : Env) (wf : Workflow) : M unit :=
  match wf with
  | Registration b photo => register_try E b photo
  | StudentUpdate id b => update_try E id b
  | FeeMarking s months status adv => mark_try E s months status adv
  | FineImposition s m => impose_try E s m
  end.

(** The [catch] block of each handler. *)
Definition catchBlock (wf : Workflow) (error : JsError) : M unit :=
  match wf with
  | StudentUpdate _ _ =>
      abortTransaction ;;;
      res_json (js_or (error_code error) 500) (Failure (error_message error))
  | _ => catch_with_conflict error
  end.

(** Whether the handler gets as far as its [try] block: only
    [IMPOSE_LATE_FINE] validates its input before opening a transaction. *)
Definition entersTry (wf : Workflow) : bool :=
  match wf with
  | FineImposition s m => negb (String.eqb s "" || String.eqb m "")
  | _ => true
  end.

(** The failure each handler answers with. *)
Definition errorAnswer (wf : Workflow) (e : JsError) : Response :=
  match wf with
  | StudentUpdate _ _ => plainResponse e
  | _ => conflictAwareResponse e
  end.

(** An environment whose store fails once: operation number [n] raises
    [e]. *)
Definition failingAt (n : nat) (e : JsError) : Env :=
  mkEnv (fun k => if Nat.eqb k n then Some e else None)
    1700000000 (fun m => String.eqb m "December") FeeDoc.empty "s9"
    (fun p => "hash:" ++ p).

(** A duplicate-key error on the (student, month) index. *)
Definition duplicateKey : JsError :=
  DriverError (Some 11000) "E11000 duplicate key error" (Some ["student"]).

(** The connection is lost. *)
Definition connectionLost : JsError :=
  DriverError None "connection closed" None.

(** A request that only changes the grade of a student. *)
Definition regrade (g : string) : UpdateBody.t :=
  UpdateBody.mk None None None (Some g) None None None.

(** Two databases with the same students and classes whose fee records agree
    on every field but [finePaid] and [isAdvancePayment]. *)
Definition feesAgree (d1 d2 : Db) : Prop :=
  Students d1 = Students d2 /\
  Classes d1 = Classes d2 /\
  forall k,
    option_Forall2 sameExceptFinePaidAdvance
      (FeePayments d1 !! k) (FeePayments d2 !! k).

(** An unpaid record written some time ago, with a base amount that is not
    the current class fee. *)
Definition unpaidMarch : FeeDoc.t :=
  FeeDoc.mk (Some "s1") (Some "March") (Some "not paid") (Some 450) None
    None (Some true) (Some true) (Some 1600000000).

(** Whether the [catch] block of the handler asks [session.inTransaction()]
    before it aborts: [UPDATE_STUDENT] alone does not. *)
Definition guardedAbort (wf : Workflow) : bool :=
  match wf with
  | StudentUpdate _ _ => false
  | _ => true
  end.

(** The state in which a [catch] block leaves a session it found
    unpublished. *)
Definition closed (t : TxnState) : Prop := t = Aborted \/ t = Committed.

(** ** Further notions: the fee ledger *)

(** Whether a month is among those a marking request names. *)
Definition listed (months : Months) (m : string) : Prop :=
  match months with
  | MonthList ms => m ∈ ms
  | MonthLabel m' => m = m'
  | MonthsOther => False
  end.

(** The response and the committed database a handler leaves on an idle
    database. *)
Definition responseAfter (h : M unit) (db : Db) : option Response :=
  response (h (idle db)).2.

(** A class with fee 500 and fine 100 whose student [s1] was fined for March
    and has not paid. *)
Definition sampleDbFined : Db :=
  dbAfter (IMPOSE_LATE_FINE sampleEnv "s1" "March") sampleDb.

(** Every fee record of [db] is still there in [after], related to its old
    self by [R]. *)
Definition evolves (R : FeeDoc.t -> FeeDoc.t -> Prop) (db after : Db) : Prop :=
  forall k r,
    FeePayments db !! k = Some r ->
    exists r', FeePayments after !! k = Some r' /\ R r r'.

(** The fine amount of a record is the same in both. *)
Definition sameFineAmount (r r' : FeeDoc.t) : Prop :=
  FeeDoc.lateFineAmount r' = FeeDoc.lateFineAmount r.

(** A record keeps its identity (student, month, base amount) and, once
    flagged as an advance payment, stays flagged. *)
Definition sameIdentity (r r' : FeeDoc.t) : Prop :=
  FeeDoc.student r' = FeeDoc.student r /\
  FeeDoc.month r' = FeeDoc.month r /\
  FeeDoc.baseAmount r' = FeeDoc.baseAmount r /\
  (FeeDoc.isAdvancePayment r = Some true ->
   FeeDoc.isAdvancePayment r' = Some true).

(** ** Further notions: membership *)

(** The database after the subject part of [UPDATE_STUDENT]: the student is
    added to the subjects that are new to it and pulled from those it
    drops; an [updateMany] is issued only for a non-empty list. *)
Definition subjectsAfterUpdate (studentId : string)
    (subjects : option (list string)) (existing : StudentDoc.t) (d : Db) : Db :=
  match subjects with
  | None => d
  | Some newSubjects =>
      let existingSubjects := StudentDoc.subjects existing in
      let subjectsToAdd :=
        filter (fun sub => sub ∉ existingSubjects) newSubjects in
      let subjectsToRemove :=
        filter (fun sub => sub ∉ newSubjects) existingSubjects in
      let d1 :=
        match subjectsToAdd with
        | [] => d
        | _ => (updateManySubjects subjectsToAdd (addToSet studentId) d).2
        end in
      match subjectsToRemove with
      | [] => d1
      | _ => (updateManySubjects subjectsToRemove (pull studentId) d1).2
      end
  end.

(** The database a successful [UPDATE_STUDENT] commits. *)
Definition updatedDb (studentId : string) (b : UpdateBody.t)
    (existing : StudentDoc.t) (d : Db) : Db :=
  (setStudentFields studentId b
     (subjectsAfterUpdate studentId (UpdateBody.subjects b) existing d)).2.

(** The database a successful [REGISTER_STUDENT] commits. *)
Definition registeredDb (E : Env) (b : RegisterBody.t)
    (profilePhotoUrl : option string) (classId : string) (d : Db) : Db :=
  (pushStudent classId (newObjectId E) (createStudent E b profilePhotoUrl d).2).2.

(** Whether an update request leaves the class alone: it names no class, or
    the one the student is in. *)
Definition keepsClass (b : UpdateBody.t) (existing : StudentDoc.t) : Prop :=
  truthy_str (UpdateBody.studentClass b) = false \/
  UpdateBody.studentClass b = StudentDoc.studentClass existing.

(** Class back-references are consistent: every class lists, without
    repetition, exactly the students whose [studentClass] it is. *)
Definition classLinked (d : Db) : Prop :=
  forall c cls,
    Classes d !! c = Some cls ->
    NoDup (ClassDoc.students cls) /\
    forall id,
      id ∈ ClassDoc.students cls <->
      exists st, Students d !! id = Some st /\ StudentDoc.studentClass st = Some c.

(** Subject back-references are consistent: every subject lists, without
    repetition, exactly the students whose [subjects] name it. *)
Definition subjectLinked (d : Db) : Prop :=
  forall k sub,
    Subjects d !! k = Some sub ->
    NoDup (SubjectDoc.students sub) /\
    forall id,
      id ∈ SubjectDoc.students sub <->
      exists st, Students d !! id = Some st /\ k ∈ StudentDoc.subjects st.

(** The id the driver would generate is not in use. *)
Definition freshId (E : Env) (d : Db) : Prop :=
  Students d !! newObjectId E = None.

(** A registration form for the sample database. *)
Definition sampleForm (email cls : string) : RegisterBody.t :=
  RegisterBody.mk (Some "Bela") (Some email) (Some "secret") (Some cls)
    None None None None ∅.

(** A database with two subjects; student [s1] takes [maths]. *)
Definition sampleDbSubjects : Db :=
  mkDb
    (<["s1" :=
         StudentDoc.mk (Some "Asha") None (Some "asha@example.org")
           (Some "hash:secret") (Some "cA") None None ["maths"] None None
           (Some "student") ∅]>
       (<["s2" := sampleStudent (Some "cB")]> ∅))
    (<["cA" := ClassDoc.mk (Some 500) (Some 100) ["s1"]]>
       (<["cB" := ClassDoc.mk None None ["s2"]]> ∅))
    (<["maths" := SubjectDoc.mk ["s1"]]>
       (<["art" := SubjectDoc.mk []]> ∅))
    ∅.

(** A request that replaces the subjects of a student. *)
Definition resubject (subs : list string) : UpdateBody.t :=
  UpdateBody.mk None None None None (Some subs) None None.

(** The test that opens [UPDATE_STUDENT]: no field of the body is truthy
    (an empty string counts as missing, an array, even empty, does not). *)
Definition noFields (b : UpdateBody.t) : bool :=
  negb (truthy_str (UpdateBody.name b))
  && negb (truthy_str (UpdateBody.studentClass b))
  && negb (truthy_str (UpdateBody.section b))
  && negb (truthy_str (UpdateBody.grade b))
  && negb (bool_decide (is_Some (UpdateBody.subjects b)))
  && negb (truthy_str (UpdateBody.parentContact b))
  && negb (truthy_str (UpdateBody.parentName b)).

(** What the membership invariants ask of a request: a registration needs
    an unused id from the driver, an update must not carry an empty class
    name (an empty string is falsy, so it skips the class check, and it is
    still among the fields of the [$set]). *)
Definition wellPosed (E : Env) (db : Db) (wf : Workflow) : Prop :=
  match wf with
  | Registration _ _ => freshId E db
  | StudentUpdate _ b => UpdateBody.studentClass b <> Some ""
  | FeeMarking _ _ _ _ => True
  | FineImposition _ _ => True
  end.

(** Both kinds of back-references are consistent. *)
Definition linked (d : Db) : Prop := classLinked d /\ subjectLinked d.

(** * Handlers without a transaction

    [GET_FEE_PAYMENT_STATUS_BY_CLASS], [GET_FEE_PAYMENT_HISTORY_BY_STUDENT],
    [LOGIN_STUDENT], [CHANGE_STUDENT_PASSWORD], [GET_ALL_STUDENT_COUNT],
    [GET_ALL_STUDENTS] and [GET_STUDENT_BY_CLASS_ID] open no transaction.
    Their [try] block is run in the handler monad on an idle world; what
    reaches the client is a [Reply].  The store lists a collection in the
    order of [map_to_list]. *)

(** What a handler leaves on [res]: the success envelope
    [res.status(status).json(new ApiResponse(statusCode, data, message))]
    with the cookies set before it, the error body
    [{ success: false, message }], or nothing at all when an exception
    leaves the handler. *)
Inductive Reply (A : Type) :=
| Answered (status statusCode : Z) (cookies : list (string * string)) (data : A)
    (message : string)
| Refused (status : Z) (message : string)
| Unanswered (e : JsError).
Arguments Answered {A} status statusCode cookies data message.
Arguments Refused {A} status message.
Arguments Unanswered {A} e.

(** The two tokens of a login. *)
Inductive TokenKind := AccessToken | RefreshToken.

(** Library functions these handlers call and whose code is not among the
    sources. *)
Record Lib := mkLib {
  (** [mongoose.isValidObjectId] *)
  isValidObjectId : string -> bool;
  (** [payment.totalAmount] of a lean fee record (the FeePayment schema is
      not among the sources) *)
  totalAmountOf : FeeDoc.t -> option Z;
  (** [field.trim() === ""] *)
  blank : string -> bool;
  (** [bcrypt.compare(candidate, hash)] *)
  bcryptCompare : string -> string -> bool;
  (** [jwt.sign({ id, role }, secret, { expiresIn })] with the secret and the
      expiry the process environment holds for this kind of token; [None]
      when the call throws *)
  jwtSign : TokenKind -> string -> option string -> option string;
  (** what the store raises for a query that skips a negative number of
      documents *)
  negativeSkip : JsError
}.

(** [try { ... return res.status(200).json(new ApiResponse(200, data, message)) }
    catch (error) { ... }] for a handler whose [try] block ends with the
    response. *)
Definition respond {A} (body : M A) (message : string)
    (catch : JsError -> Reply A) (db : Db) : Reply A :=
  match (body (idle db)).1 with
  | Ok data => Answered 200 200 [] data message
  | Throw e => catch e
  end.

(** The [catch] most handlers share:
    [res.status(error.code || 500).json({ success: false, message })]. *)
Definition refuse {A} (error : JsError) : Reply A :=
  Refused (js_or (error_code error) 500) (error_message error).

(** [v > 0] on a number that may be missing. *)
Definition positive (v : option Z) : bool :=
  match v with
  | Some x => 0 <? x
  | None => false
  end.

(** [v || d] on strings. *)
Definition js_or_str (v : option string) (d : string) : string :=
  match v with
  | Some s => if String.eqb s "" then d else s
  | None => d
  end.

Module FeeStatus.
Record Details := mkDetails {
  baseAmount : option Z;
  lateFineAmount : option Z;
  totalAmount : option Z;
  isLateFeeApplied : bool
}.

Record Row := mkRow {
  student_id : string;
  student_name : option string;
  status : string;
  details : option Details
}.

Record Summary := mkSummary {
  totalStudents : Z;
  paidCount : Z;
  unpaidCount : Z;
  lateFeeCount : Z
}.

Record t := mk {
  summary : Summary;
  students : list Row
}.
End FeeStatus.

(** [Student.find({ studentClass: classId }).select("_id name").lean()], in
    the order the store lists the collection. *)
Definition findStudentsOfClass (classId : string) (d : Db)
    : list (string * option string) :=
  map (fun kv => (kv.1, StudentDoc.name kv.2))
    (filter (fun kv => StudentDoc.studentClass kv.2 = Some classId)
       (map_to_list (Students d))).

(** [FeePayment.find({ student: { $in: ids }, month }).lean()]: the records
    with their key. *)
Definition findFeePayments (ids : list string) (month : string) (d : Db)
    : list ((string * string) * FeeDoc.t) :=
  filter (fun kv => kv.1.1 ∈ ids /\ kv.1.2 = month)
    (map_to_list (FeePayments d)).

(** [new Map(feePayments.map((payment) => [payment.student.toString(), payment]))]:
    of two entries with the same key the later one stays. *)
Definition paymentMap (feePayments : list ((string * string) * FeeDoc.t))
    : gmap string FeeDoc.t :=
  list_to_map (reverse (map (fun kv => (kv.1.1, kv.2)) feePayments)).

(** One element of [response]. *)
Definition feeStatusRow (L : Lib) (payments : gmap string FeeDoc.t)
    (student : string * option string) : FeeStatus.Row :=
  let payment := payments !! student.1 in
  FeeStatus.mkRow student.1 student.2
    (js_or_str (payment ≫= FeeDoc.status) "not paid")
    ((fun p =>
        FeeStatus.mkDetails (FeeDoc.baseAmount p) (FeeDoc.lateFineAmount p)
          (totalAmountOf L p) (positive (FeeDoc.lateFineAmount p)))
       <$> payment).

(** The [try] block of [GET_FEE_PAYMENT_STATUS_BY_CLASS], up to the data of
    its response. *)
Definition fee_status_try (E : Env) (L : Lib) (classId : string)
    (month : option string) : M FeeStatus.t :=
  match month with
  | Some m =>
      if String.eqb m "" then throw (ApiError 400 "Month is required")
      else if negb (isValidObjectId L classId)
      then throw (ApiError 400 "Invalid class ID")
      else
        students <- dbRead E false (findStudentsOfClass classId) ;;
        feePayments <- dbRead E false (findFeePayments (map fst students) m) ;;
        let payments := paymentMap feePayments in
        let response := map (feeStatusRow L payments) students in
        let summary :=
          FeeStatus.mkSummary
            (Z.of_nat (length students))
            (Z.of_nat (length feePayments))
            (Z.of_nat (length students) - Z.of_nat (length feePayments))
            (Z.of_nat
               (length (filter (fun kv => positive (FeeDoc.lateFineAmount kv.2) = true)
                          feePayments))) in
        ret (FeeStatus.mk summary response)
  | None => throw (ApiError 400 "Month is required")
  end.

(** [GET_FEE_PAYMENT_STATUS_BY_CLASS].  Its [catch] starts with
    [logger.error(...)], and the module neither imports nor declares
    [logger]: evaluating the identifier raises a ReferenceError inside the
    [catch], which leaves the handler before anything is sent. *)
Definition GET_FEE_PAYMENT_STATUS_BY_CLASS (E : Env) (L : Lib)
    (classId : string) (month : option string) : Db -> Reply FeeStatus.t :=
  respond (fee_status_try E L classId month) "Fee status fetched"
    (fun error => Unanswered (ReferenceError "logger is not defined")).

(** [FeePayment.find(filter)] with [filter = { student }] or
    [{ student, month }]. *)
Definition findHistory (studentId : string) (month : option string) (d : Db)
    : list FeeDoc.t :=
  map snd
    (filter (fun kv => kv.1.1 = studentId /\
                       (truthy_str month = true -> Some kv.1.2 = month))
       (map_to_list (FeePayments d))).

(** The [try] block of [GET_FEE_PAYMENT_HISTORY_BY_STUDENT]. *)
Definition fee_history_try (E : Env) (studentId : string)
    (month : option string) : M (list FeeDoc.t) :=
  student <- dbRead E false (fun d => Students d !! studentId) ;;
  match student with
  | None => throw (ApiError 404 "Student not found.")
  | Some _ => dbRead E false (findHistory studentId month)
  end.

Definition GET_FEE_PAYMENT_HISTORY_BY_STUDENT (E : Env) (studentId : string)
    (month : option string) : Db -> Reply (list FeeDoc.t) :=
  respond (fee_history_try E studentId month)
    "Fee payment history fetched successfully." refuse.

(** The sample library: every id is well formed, no record has a total,
    only the empty string is blank, a hash is the password behind a tag, and
    a token is the id behind the kind. *)
Definition sampleLib : Lib :=
  mkLib (fun _ => true) (fun _ => None)
    (fun s => String.eqb s "")
    (fun candidate hash => String.eqb hash ("hash:" ++ candidate))
    (fun kind id _ =>
       Some (match kind with
             | AccessToken => "access:" ++ id
             | RefreshToken => "refresh:" ++ id
             end))
    (DriverError (Some 2) "Skip value must be non-negative" None).

(** Whether the row of a report has a record behind it. *)
Definition hasRecord (row : FeeStatus.Row) : bool :=
  bool_decide (is_Some (FeeStatus.details row)).

(** Whether the record behind a row carries a fine amount above zero. *)
Definition hasLateFee (row : FeeStatus.Row) : bool :=
  match FeeStatus.details row with
  | Some det => FeeStatus.isLateFeeApplied det
  | None => false
  end.

(** ** Passwords and tokens (student model) *)

(** An [Error] raised by a library: it carries no [code]. *)
Definition LibraryError (message : string) : JsError :=
  DriverError None message None.

(** [studentSchema.methods.comparePassword]: [bcrypt.compare] rejects when
    the document has no password. *)
Definition comparePassword (L : Lib) (student : StudentDoc.t)
    (candidatePassword : string) : M bool :=
  match StudentDoc.password student with
  | Some hash => ret (bcryptCompare L candidatePassword hash)
  | None => throw (LibraryError "data and hash arguments required")
  end.

(** [studentSchema.methods.generateAccessToken] and
    [generateRefreshToken]: a token over the id and the role. *)
Definition generateToken (L : Lib) (kind : TokenKind) (id : string)
    (student : StudentDoc.t) : M string :=
  match jwtSign L kind id (StudentDoc.role student) with
  | Some token => ret token
  | None => throw (LibraryError "secretOrPrivateKey must have a value")
  end.

(** [generateAccessToken_RefreshToken]: whatever goes wrong inside is
    replaced by one ApiError. *)
Definition generateAccessToken_RefreshToken (E : Env) (L : Lib)
    (userId : string) : M (string * string) :=
  try_catch
    (student <- dbRead E false (fun d => Students d !! userId) ;;
     match student with
     | None =>
         throw (TypeError
                  "Cannot read properties of null (reading 'generateAccessToken')")
     | Some st =>
         accessToken <- generateToken L AccessToken userId st ;;
         refreshToken <- generateToken L RefreshToken userId st ;;
         ret (accessToken, refreshToken)
     end)
    (fun error =>
       throw (ApiError 500
                "Something went wrong while generating referesh and access token")).

(** [.select("-password -refreshToken")]; the schema has no [refreshToken]. *)
Definition withoutPassword (s : StudentDoc.t) : StudentDoc.t :=
  StudentDoc.mk (StudentDoc.name s) (StudentDoc.profilePhoto s)
    (StudentDoc.email s) None (StudentDoc.studentClass s)
    (StudentDoc.rollNumber s) (StudentDoc.grade s) (StudentDoc.subjects s)
    (StudentDoc.parentContact s) (StudentDoc.parentName s) (StudentDoc.role s)
    (StudentDoc.profile s).

(** The pre-save hook on a document whose [password] was assigned
    [newPassword]: the path counts as modified only if the value differs
    from the stored one; a modified password is replaced by its hash. *)
Definition preSave (E : Env) (stored : StudentDoc.t) (newPassword : string)
    : StudentDoc.t :=
  if bool_decide (StudentDoc.password stored = Some newPassword) then stored
  else
    StudentDoc.mk (StudentDoc.name stored) (StudentDoc.profilePhoto stored)
      (StudentDoc.email stored) (Some (bcryptHash E newPassword))
      (StudentDoc.studentClass stored) (StudentDoc.rollNumber stored)
      (StudentDoc.grade stored) (StudentDoc.subjects stored)
      (StudentDoc.parentContact stored) (StudentDoc.parentName stored)
      (StudentDoc.role stored) (StudentDoc.profile stored).

(** [student.password = newPassword; student.save({ validateBeforeSave: false })]. *)
Definition savePassword (E : Env) (studentId newPassword : string) (d : Db)
    : unit * Db :=
  (tt, with_Students
         (alter (fun stored => preSave E stored newPassword) studentId) d).

(** ** Logging in *)

Module LoginBody.
Record t := mk {
  studentId : option string;
  password : option string
}.
End LoginBody.

Module LoginData.
Record t := mk {
  user : option StudentDoc.t;
  accessToken : string
}.
End LoginData.

(** The [try] block of [LOGIN_STUDENT], up to the cookies and the data of
    its response. *)
Definition login_try (E : Env) (L : Lib) (b : LoginBody.t)
    : M (list (string * string) * LoginData.t) :=
  let studentId := default "" (LoginBody.studentId b) in
  let password := default "" (LoginBody.password b) in
  if blank L studentId || blank L password
  then throw (ApiError 400 "All fields are required")
  else
    student <- dbRead E false (fun d => Students d !! studentId) ;;
    match student with
    | None => throw (ApiError 404 "Student not found")
    | Some st =>
        isPasswordValid <- comparePassword L st password ;;
        if negb isPasswordValid then throw (ApiError 401 "Invalid credentials")
        else
          tokens <- generateAccessToken_RefreshToken E L studentId ;;
          loggedInStudent <-
            dbRead E false (fun d => withoutPassword <$> Students d !! studentId) ;;
          ret ([("accessToken", tokens.1); ("refreshToken", tokens.2)],
               LoginData.mk loggedInStudent tokens.1)
    end.

Definition LOGIN_STUDENT (E : Env) (L : Lib) (b : LoginBody.t) (db : Db)
    : Reply LoginData.t :=
  match (login_try E L b (idle db)).1 with
  | Ok (cookies, data) =>
      Answered 200 200 cookies data "You are logged in successfully!"
  | Throw error => refuse error
  end.

(** ** Changing the password *)

Module PasswordBody.
Record t := mk {
  oldPassword : option string;
  newPassword : option string
}.
End PasswordBody.

(** The [try] block of [CHANGE_STUDENT_PASSWORD]; [studentId] is
    [req.user._id]. *)
Definition change_password_try (E : Env) (L : Lib) (studentId : option string)
    (b : PasswordBody.t) : M unit :=
  let oldPassword := default "" (PasswordBody.oldPassword b) in
  let newPassword := default "" (PasswordBody.newPassword b) in
  match studentId with
  | Some id =>
      if String.eqb id ""
      then throw (ApiError 401 "Unauthorized: Student not authenticated")
      else if blank L oldPassword || blank L newPassword
      then throw (ApiError 400 "Old password and new password are required")
      else if String.eqb oldPassword newPassword
      then throw (ApiError 400
                    "New password must be different from the old password")
      else
        student <- dbRead E false (fun d => Students d !! id) ;;
        match student with
        | None => throw (ApiError 404 "Student not found")
        | Some st =>
            isPasswordValid <- comparePassword L st oldPassword ;;
            if negb isPasswordValid
            then throw (ApiError 401 "Old password is incorrect")
            else dbOp E false (savePassword E id newPassword)
        end
  | None => throw (ApiError 401 "Unauthorized: Student not authenticated")
  end.

(** [CHANGE_STUDENT_PASSWORD]: the reply and the database it leaves.
    [user] is [req.user]; it is destructured before the [try], so a request
    without it ends with a TypeError that nothing catches. *)
Definition CHANGE_STUDENT_PASSWORD (E : Env) (L : Lib)
    (user : option (option string)) (b : PasswordBody.t) (db : Db)
    : Reply unit * Db :=
  match user with
  | None =>
      (Unanswered
         (TypeError
            "Cannot destructure property '_id' of 'req.user' as it is undefined."),
       db)
  | Some studentId =>
      match change_password_try E L studentId b (idle db) with
      | (Ok _, w) => (Answered 200 200 [] tt "Password changed successfully",
                      committed w)
      | (Throw error, w) => (refuse error, committed w)
      end
  end.

(** Students differ at most in their password. *)
Definition samePerson (s s' : StudentDoc.t) : Prop :=
  withoutPassword s' = withoutPassword s.

(** A request to change the password of the sample student [s1]. *)
Definition samplePasswords : PasswordBody.t :=
  PasswordBody.mk (Some "secret") (Some "better").

(** ** Counting students *)


(** ** Listing students

    The two listings answer with student documents whose references are
    populated from the class, teacher and subject collections.  Those
    schemas are not among the sources; a listed student is given here by
    its id and its own fields, as stored, without the password. *)

(** [.select("-password -refreshToken")] on every document of a result. *)
Definition listed_students (l : list (string * StudentDoc.t))
    : list (string * StudentDoc.t) :=
  map (fun kv => (kv.1, withoutPassword kv.2)) l.

Module Pagination.
Record t := mk {
  currentPage : Z;
  totalPages : Z;
  totalItems : Z
}.
End Pagination.

Module StudentPage.
Record t := mk {
  students : list (string * StudentDoc.t);
  pagination : Pagination.t
}.
End StudentPage.

(** [Math.ceil(total / limit)] on non-negative integers. *)
Definition ceil_div (total limit : Z) : Z := (total + limit - 1) / limit.

(** [Student.find()...skip(skip).limit(limit)]: [None] when the store
    refuses the query. *)
Definition findPage (skip limit : Z) (d : Db)
    : option (list (string * StudentDoc.t)) :=
  if skip <? 0 then None
  else Some (listed_students
               (take (Z.to_nat limit)
                  (drop (Z.to_nat skip) (map_to_list (Students d))))).

(** The [try] block of [GET_ALL_STUDENTS]; [page] is the value of
    [parseInt(req.query.page)], [None] standing for [NaN]. *)
Definition all_students_try (E : Env) (L : Lib) (page : option Z)
    : M StudentPage.t :=
  let page := js_or page 1 in
  let limit := 10 in
  let skip := (page - 1) * limit in
  found <- dbRead E false (findPage skip limit) ;;
  match found with
  | None => throw (negativeSkip L)
  | Some students =>
      totalStudents <- dbRead E false (fun d => Z.of_nat (size (Students d))) ;;
      let totalPages := ceil_div totalStudents limit in
      ret (StudentPage.mk students
             (Pagination.mk page totalPages totalStudents))
  end.

Definition GET_ALL_STUDENTS (E : Env) (L : Lib) (page : option Z)
    : Db -> Reply StudentPage.t :=
  respond (all_students_try E L page) "All students retrieved successfully"
    refuse.

(** The students on the page a reply carries. *)
Definition pageStudents (r : Reply StudentPage.t)
    : list (string * StudentDoc.t) :=
  match r with
  | Answered _ _ _ data _ => StudentPage.students data
  | _ => []
  end.

(** The [try] block of [GET_STUDENT_BY_CLASS_ID]. *)
Definition students_by_class_try (E : Env) (classId : string)
    : M (list (string * StudentDoc.t)) :=
  students <-
    dbRead E false (fun d =>
      listed_students
        (filter (fun kv => StudentDoc.studentClass kv.2 = Some classId)
           (map_to_list (Students d)))) ;;
  match students with
  | [] => throw (ApiError 404 ("No students found for class with id " ++ classId))
  | _ => ret students
  end.

Definition GET_STUDENT_BY_CLASS_ID (E : Env) (classId : string)
    : Db -> Reply (list (string * StudentDoc.t)) :=
  respond (students_by_class_try E classId)
    ("Students for class with id " ++ classId ++ " retrieved successfully")
    refuse.

(** * Properties *)

(** ** Transactions: what a failing handler leaves behind *)

Create HintDb txn.

Section Confinement.
Context (E : Env).

Lemma confined_ret {A} (a : A) : confined (ret a).
Proof. intros w d Hd. simpl. eauto. Qed.

Lemma confined_throw {A} (e : JsError) : confined (@throw A e).
Proof. intros w d Hd. simpl. eauto. Qed.

Lemma confined_dbOp {A} (f : Db -> A * Db) : confined (dbOp E true f).
Proof.
  intros w d Hd. unfold dbOp. destruct (fault E (opCount w)); simpl.
  - eauto.
  - rewrite Hd. destruct (f d). simpl. eauto.
Qed.

Lemma confined_dbRead {A} (inSession : bool) (f : Db -> A) :
  confined (dbRead E inSession f).
Proof.
  intros w d Hd. unfold dbRead, dbOp.
  destruct (fault E (opCount w)); simpl; [eauto|].
  destruct inSession; simpl; rewrite ?Hd; simpl; eauto.
Qed.

Lemma confined_bind {A B} (m : M A) (k : A -> M B) :
  confined m -> (forall a, confined (k a)) -> confined (bind m k).
Proof.
  intros Hm Hk w d Hd. unfold bind.
  destruct (Hm w d Hd) as ([d1 Hd1] & Hc & Hr & Hf).
  destruct (m w) as [[a|e] w1]; simpl in *.
  - destruct (Hk a w1 d1 Hd1) as (? & ? & ? & ?).
    repeat split; eauto; congruence.
  - eauto.
Qed.

Lemma confined_fails {A} (m : M A) : confined m -> fails_unpublished m.
Proof.
  intros Hm w d e w' Hd Hr Hrun.
  destruct (Hm w d Hd) as (Hs & ? & ? & ?). rewrite Hrun in *. simpl in *.
  repeat split; [left; exact Hs|congruence..].
Qed.

Lemma fails_throw {A} (e : JsError) : fails_unpublished (@throw A e).
Proof.
  intros w d e' w' Hd Hr Hrun. inversion Hrun; subst.
  repeat split; auto. left. eauto.
Qed.

Lemma fails_bind {A B} (m : M A) (k : A -> M B) :
  confined m -> (forall a, fails_unpublished (k a)) ->
  fails_unpublished (bind m k).
Proof.
  intros Hm Hk w d e w' Hd Hr. unfold bind.
  destruct (Hm w d Hd) as ([d1 Hd1] & Hc & Hr1 & Hf).
  destruct (m w) as [[a|e1] w1]; simpl in *.
  - intros Hrun.
    destruct (Hk a w1 d1 e w' Hd1 ltac:(congruence) Hrun) as (? & ? & ? & ?).
    repeat split; eauto; congruence.
  - intros Hrun. inversion Hrun; subst.
    repeat split; [left; eauto|congruence..].
Qed.

(** Committing and then answering, in a transaction that has not answered
    yet, throws only if the commit does, and then nothing is published. *)
Lemma fails_commit_answer (s : Z) (b : Body) :
  fails_unpublished (commitTransaction E ;;; res_json s b).
Proof.
  intros w d e w' Hd Hr. unfold bind, commitTransaction, res_json.
  rewrite Hd. destruct (fault E (opCount w)); simpl.
  - intros Hrun. inversion Hrun; subst. simpl.
    repeat split; auto. right. reflexivity.
  - rewrite Hr. discriminate.
Qed.

#[local] Hint Resolve confined_ret confined_throw confined_dbOp
  confined_dbRead fails_throw fails_commit_answer : txn.

Lemma fails_mark_try student months status isAdvancePayment :
  fails_unpublished (mark_try E student months status isAdvancePayment).
Proof.
  unfold mark_try.
  apply fails_bind; [auto with txn|]. intros [st|]; [|auto with txn].
  apply fails_bind; [auto with txn|]. intros [cls|]; [|auto with txn].
  destruct months as [ms|m|].
  - apply fails_bind; [auto with txn|]. intros r. auto with txn.
  - apply fails_bind; [auto with txn|]. intros r. auto with txn.
  - auto with txn.
Qed.

Lemma fails_impose_try studentId month :
  fails_unpublished (impose_try E studentId month).
Proof.
  unfold impose_try.
  apply fails_bind; [auto with txn|].
  intros [[st [classId|]]|]; auto with txn.
  apply fails_bind; [auto with txn|]. intros studentClass.
  apply fails_bind; [auto with txn|]. intros existingPayment.
  destruct (isPaid existingPayment); [auto with txn|].
  apply fails_bind; [auto with txn|]. intros payment.
  apply fails_bind; [auto with txn|]. intros created.
  auto with txn.
Qed.

Lemma confined_handleSubjectsUpdate studentId subjects existing :
  confined (handleSubjectsUpdate E studentId subjects existing).
Proof.
  unfold handleSubjectsUpdate. destruct subjects as [newSubjects|];
    [|auto with txn].
  apply confined_bind.
  - destruct (filter _ newSubjects); auto with txn.
  - intros _. destruct (filter _ (StudentDoc.subjects existing)); auto with txn.
Qed.

Lemma confined_handleClassUpdate studentClass existing :
  confined (handleClassUpdate studentClass existing).
Proof.
  unfold handleClassUpdate.
  destruct (truthy_str studentClass); [|auto with txn].
  destruct (StudentDoc.studentClass existing); [|auto with txn].
  case_bool_decide; auto with txn.
Qed.

Lemma fails_update_try studentId b :
  fails_unpublished (update_try E studentId b).
Proof.
  unfold update_try.
  match goal with |- context [if ?c then _ else _] => destruct c end;
    [auto with txn|].
  apply fails_bind; [auto with txn|].
  intros [existing|]; [|auto with txn].
  apply fails_bind; [apply confined_handleClassUpdate|]. intros _.
  apply fails_bind; [apply confined_handleSubjectsUpdate|]. intros _.
  apply fails_bind; [auto with txn|].
  intros [data|]; auto with txn.
Qed.

Lemma fails_register_try b profilePhotoUrl :
  fails_unpublished (register_try E b profilePhotoUrl).
Proof.
  unfold register_try.
  apply fails_bind; [auto with txn|].
  intros [|]; [auto with txn|].
  apply fails_bind; [auto with txn|].
  intros [classId|]; [|auto with txn].
  apply fails_bind; [auto with txn|]. intros newStudent.
  apply fails_bind; [auto with txn|].
  intros [data|]; [|auto with txn].
  apply fails_bind; [auto with txn|]. intros _.
  auto with txn.
Qed.

Lemma fails_tryBlock wf : fails_unpublished (tryBlock E wf).
Proof.
  destruct wf; simpl.
  - apply fails_register_try.
  - apply fails_update_try.
  - apply fails_mark_try.
  - apply fails_impose_try.
Qed.
End Confinement.

(** The shared [catch] block, entered with nothing published and nothing
    answered, closes the session and sends exactly one failure. *)
Lemma catch_with_conflict_run (e : JsError) (w : World) :
  unpublished (session w) -> response w = None ->
  let w1 := (catch_with_conflict e w).2 in
  committed w1 = committed w /\ closed (session w1) /\
  response w1 = Some (conflictAwareResponse e) /\ forwarded w1 = forwarded w.
Proof.
  intros Hs Hr. unfold catch_with_conflict, conflictAwareResponse, bind,
    inTransaction, abortTransaction, res_json, closed.
  destruct Hs as [[d Hd]|Hd]; rewrite Hd; simpl; rewrite ?Hd; simpl;
    case_bool_decide; simpl; rewrite Hr; simpl; auto.
Qed.

(** The [catch] block of [UPDATE_STUDENT] does the same as long as the
    transaction is still in progress. *)
Lemma catch_update_run (e : JsError) (w : World) (d : Db) :
  session w = InProgress d -> response w = None ->
  let w1 := ((abortTransaction ;;;
              res_json (js_or (error_code e) 500) (Failure (error_message e))) w).2 in
  committed w1 = committed w /\ closed (session w1) /\
  response w1 = Some (plainResponse e) /\ forwarded w1 = forwarded w.
Proof.
  intros Hd Hr. unfold bind, abortTransaction, res_json, plainResponse, closed.
  rewrite Hd. simpl. rewrite Hr. simpl. auto.
Qed.

(** After a commit that raised, the unconditional abort of [UPDATE_STUDENT]
    raises in turn and the [catch] block answers nothing. *)
Lemma catch_update_after_commit (e : JsError) (w : World) :
  session w = Committed ->
  (abortTransaction ;;;
   res_json (js_or (error_code e) 500) (Failure (error_message e))) w =
  (Throw (MongoTransactionError
            "Cannot call abortTransaction after calling commitTransaction"), w).
Proof.
  intros Hs. unfold bind, abortTransaction. rewrite Hs. reflexivity.
Qed.

(** A handler whose [try] block throws runs its [catch] block in a world
    where nothing is published.  The block closes the session and answers
    with the error, provided it guards its abort or the transaction is
    still in progress. *)
Lemma handler_catches (E : Env) (db : Db) (wf : Workflow)
    (e : JsError) (w' : World) :
  entersTry wf = true ->
  tryBlock E wf (started db) = (Throw e, w') ->
  guardedAbort wf = true \/ (exists d, session w' = InProgress d) ->
  let w := (handler E wf (idle db)).2 in
  committed w = db /\ closed (session w) /\
  response w = Some (errorAnswer wf e).
Proof.
  intros Henter Hthrow Hguard.
  destruct (fails_tryBlock E wf (started db) db e w' eq_refl eq_refl Hthrow)
    as (Hs & Hc & Hr & Hf).
  assert (Hrun : handler E wf (idle db) = catchBlock wf e w').
  { destruct wf; simpl in *;
      [| | |apply negb_true_iff in Henter];
      unfold REGISTER_STUDENT, UPDATE_STUDENT, MARK_FEE_PAYMENT_STATUS,
        IMPOSE_LATE_FINE; rewrite ?Henter;
      unfold bind at 1, try_catch; simpl; fold (started db);
      rewrite Hthrow; reflexivity. }
  simpl. rewrite Hrun. simpl in Hc.
  destruct wf; simpl.
  - destruct (catch_with_conflict_run e w' Hs Hr) as (? & ? & ? & ?).
    repeat split; auto; congruence.
  - destruct Hguard as [Hguard|[d' Hd']]; [discriminate Hguard|].
    destruct (catch_update_run e w' d' Hd' Hr) as (? & ? & ? & ?).
    repeat split; auto; congruence.
  - destruct (catch_with_conflict_run e w' Hs Hr) as (? & ? & ? & ?).
    repeat split; auto; congruence.
  - destruct (catch_with_conflict_run e w' Hs Hr) as (? & ? & ? & ?).
    repeat split; auto; congruence.
Qed.

(** [UPDATE_STUDENT] when its commit raises: the abort raises as well, the
    handler ends in that error and no response is sent. *)
Lemma update_unanswered_after_failed_commit (E : Env) (db : Db)
    (studentId : string) (b : UpdateBody.t) (e : JsError) (w' : World) :
  update_try E studentId b (started db) = (Throw e, w') ->
  session w' = Committed ->
  UPDATE_STUDENT E studentId b (idle db) =
    (Throw (MongoTransactionError
              "Cannot call abortTransaction after calling commitTransaction"), w') /\
  response w' = None /\ committed w' = db.
Proof.
  intros Hthrow Hs.
  destruct (fails_update_try E studentId b (started db) db e w' eq_refl eq_refl
              Hthrow) as (_ & Hc & Hr & _).
  split; [|auto].
  unfold UPDATE_STUDENT. unfold bind at 1, try_catch. simpl. fold (started db).
  rewrite Hthrow. apply catch_update_after_commit, Hs.
Qed.

(** ** What the fee handlers do to the committed database *)

Ltac on_fault E :=
  match goal with
  | |- context [fault E ?n] => destruct (fault E n) eqn:?; simpl; try discriminate
  end.

(** A successful fine imposition publishes exactly one upsert. *)
Lemma impose_try_ok (E : Env) (db : Db) (s m : string) (w' : World) :
  impose_try E s m (started db) = (Ok tt, w') ->
  exists cls,
    hasClass db s cls /\
    isPaid (FeePayments db !! (s, m)) = false /\
    committed w' =
      with_FeePayments
        (insert (s, m)
           (upsertedDoc E s m
              (fineUpdateObj s m (js_nullish (ClassDoc.fee cls) 1000)
                 (js_nullish (ClassDoc.lateFineAmount cls) 500)
                 (FeePayments db !! (s, m)))
              (FeePayments db !! (s, m)))) db.
Proof.
  unfold impose_try, bind, dbRead, dbOp, started, commitTransaction, res_json.
  simpl. on_fault E.
  destruct (Students db !! s) as [st|] eqn:Hst; simpl; [|discriminate].
  destruct (StudentDoc.studentClass st) as [c|] eqn:Hc; simpl; [|discriminate].
  destruct (Classes db !! c) as [cls|] eqn:Hcls; simpl; [|discriminate].
  on_fault E. rewrite Hcls. on_fault E.
  destruct (isPaid (FeePayments db !! (s, m))) eqn:Hpaid; simpl; [discriminate|].
  on_fault E. on_fault E. on_fault E.
  intros Hrun. inversion Hrun; subst; simpl.
  exists cls. split; [exists st, c; auto|]. auto.
Qed.

(** Whatever the store does, a fine imposition either leaves the committed
    database as it was or publishes that one upsert. *)
Lemma impose_outcome (E : Env) (db : Db) (s m : string) :
  dbAfter (IMPOSE_LATE_FINE E s m) db = db \/
  exists cls,
    hasClass db s cls /\
    isPaid (FeePayments db !! (s, m)) = false /\
    dbAfter (IMPOSE_LATE_FINE E s m) db =
      with_FeePayments
        (insert (s, m)
           (upsertedDoc E s m
              (fineUpdateObj s m (js_nullish (ClassDoc.fee cls) 1000)
                 (js_nullish (ClassDoc.lateFineAmount cls) 500)
                 (FeePayments db !! (s, m)))
              (FeePayments db !! (s, m)))) db.
Proof.
  destruct (entersTry (FineImposition s m)) eqn:Henter.
  - destruct (impose_try E s m (started db)) as [[[]|e] w'] eqn:Hrun.
    + right. destruct (impose_try_ok E db s m w' Hrun) as (cls & Hcls & Hp & Hw).
      exists cls. repeat split; auto. rewrite <- Hw.
      simpl in Henter. apply negb_true_iff in Henter.
      unfold dbAfter, IMPOSE_LATE_FINE. rewrite Henter.
      unfold bind at 1, try_catch. simpl. fold (started db). rewrite Hrun.
      reflexivity.
    + left.
      apply (handler_catches E db (FineImposition s m) e w' Henter Hrun).
      left. reflexivity.
  - left. simpl in Henter. apply negb_false_iff in Henter.
    unfold dbAfter, IMPOSE_LATE_FINE. rewrite Henter. reflexivity.
Qed.

(** A successful fee marking publishes one upsert (single-month mode) or one
    bulk write (array mode). *)
Lemma mark_try_ok (E : Env) (db : Db) (s : string) (months : Months)
    (status : option string) (adv : bool) (w' : World) :
  mark_try E s months status adv (started db) = (Ok tt, w') ->
  exists cls,
    hasClass db s cls /\
    match months with
    | MonthLabel m =>
        committed w' =
          with_FeePayments
            (insert (s, m)
               (upsertedDoc E s m
                  (singleUpdateObj E s m status adv (js_or (ClassDoc.fee cls) 0))
                  (FeePayments db !! (s, m)))) db
    | MonthList ms =>
        committed w' =
          (bulkWrite E
             (bulkUpdateOps E s status adv (js_or (ClassDoc.fee cls) 0) ms) db).2
    | MonthsOther => False
    end.
Proof.
  unfold mark_try, bind, dbRead, dbOp, started, commitTransaction, res_json.
  simpl. on_fault E.
  destruct (Students db !! s) as [st|] eqn:Hst; simpl; [|discriminate].
  on_fault E.
  destruct (StudentDoc.studentClass st) as [c|] eqn:Hc; simpl; [|discriminate].
  destruct (Classes db !! c) as [cls|] eqn:Hcls; simpl; [|discriminate].
  destruct months as [ms|m|]; simpl; [| |discriminate].
  - on_fault E.
    destruct (bulkWrite E _ db) as [r d2] eqn:Hb. simpl. on_fault E.
    intros Hrun. inversion Hrun; subst; simpl.
    exists cls. split; [exists st, c; auto|]. rewrite Hb. reflexivity.
  - on_fault E. on_fault E.
    intros Hrun. inversion Hrun; subst; simpl.
    exists cls. split; [exists st, c; auto|]. reflexivity.
Qed.

Lemma mark_outcome (E : Env) (db : Db) (s : string) (months : Months)
    (status : option string) (adv : bool) :
  let after := dbAfter (MARK_FEE_PAYMENT_STATUS E s months status adv) db in
  after = db \/
  exists cls,
    hasClass db s cls /\
    match months with
    | MonthLabel m =>
        after =
          with_FeePayments
            (insert (s, m)
               (upsertedDoc E s m
                  (singleUpdateObj E s m status adv (js_or (ClassDoc.fee cls) 0))
                  (FeePayments db !! (s, m)))) db
    | MonthList ms =>
        after =
          (bulkWrite E
             (bulkUpdateOps E s status adv (js_or (ClassDoc.fee cls) 0) ms) db).2
    | MonthsOther => False
    end.
Proof.
  intros after.
  assert (Hh : MARK_FEE_PAYMENT_STATUS E s months status adv (idle db) =
               try_catch (mark_try E s months status adv) catch_with_conflict
                 (started db)) by reflexivity.
  destruct (mark_try E s months status adv (started db)) as [[[]|e] w'] eqn:Hrun.
  - right. destruct (mark_try_ok E db s months status adv w' Hrun) as (cls & Hcls & Hw).
    exists cls. split; auto.
    assert (Ha : after = committed w').
    { unfold after, dbAfter. rewrite Hh. unfold try_catch. rewrite Hrun.
      reflexivity. }
    rewrite Ha. exact Hw.
  - left.
    apply (handler_catches E db (FeeMarking s months status adv) e w' eq_refl Hrun).
    left. reflexivity.
Qed.

(** ** Runs on a store that does not fail *)

Section Faultless.
Context (E : Env) (Hnf : faultless E).

Ltac run :=
  unfold MARK_FEE_PAYMENT_STATUS, mark_try, IMPOSE_LATE_FINE, impose_try,
    UPDATE_STUDENT, update_try, catch_with_conflict, bind, try_catch,
    startTransaction, commitTransaction, abortTransaction, inTransaction,
    res_json, dbRead, dbOp, throw, ret, idle;
  simpl; repeat (rewrite ?Hnf; simpl).

Lemma mark_single_succeeds db s m status adv cls :
  hasClass db s cls ->
  let doc :=
    upsertedDoc E s m
      (singleUpdateObj E s m status adv (js_or (ClassDoc.fee cls) 0))
      (FeePayments db !! (s, m)) in
  MARK_FEE_PAYMENT_STATUS E s (MonthLabel m) status adv (idle db) =
  (Ok tt,
   mkWorld (with_FeePayments (insert (s, m) doc) db) Committed 4
     (Some (mkResponse 200
              (ApiResponse 200 (FeeData doc)
                 "Fee payment status updated successfully."))) None).
Proof.
  intros (st & c & Hst & Hc & Hcls) doc. run.
  rewrite Hst. run. rewrite Hc, Hcls. run. reflexivity.
Qed.

Lemma mark_bulk_succeeds db s ms status adv cls :
  hasClass db s cls ->
  let ops := bulkUpdateOps E s status adv (js_or (ClassDoc.fee cls) 0) ms in
  MARK_FEE_PAYMENT_STATUS E s (MonthList ms) status adv (idle db) =
  (Ok tt,
   mkWorld (bulkWrite E ops db).2 Committed 4
     (Some (mkResponse 200
              (ApiResponse 200 (BulkData (bulkWrite E ops db).1)
                 "Bulk fee payment status updated sucessfully"))) None).
Proof.
  intros (st & c & Hst & Hc & Hcls) ops. run.
  rewrite Hst. run. rewrite Hc, Hcls. run.
  fold ops. destruct (bulkWrite E ops db) as [r d2]. run. reflexivity.
Qed.

(** The student exists but its class does not resolve: 404 before any write. *)
Lemma mark_without_class db s months status adv st :
  Students db !! s = Some st ->
  match StudentDoc.studentClass st with
  | Some c => Classes db !! c
  | None => None
  end = None ->
  mark_try E s months status adv (started db) =
    (Throw (ApiError 404 "Student class not found."),
     mkWorld db (InProgress db) 2 None None) /\
  MARK_FEE_PAYMENT_STATUS E s months status adv (idle db) =
    (Ok tt,
     mkWorld db Aborted 2
       (Some (mkResponse 404 (Failure "Student class not found."))) None).
Proof.
  intros Hst Hcls. unfold started. split; run; rewrite Hst; run; rewrite Hcls; run;
    reflexivity.
Qed.

Lemma impose_succeeds db s m cls :
  s <> "" -> m <> "" ->
  hasClass db s cls ->
  isPaid (FeePayments db !! (s, m)) = false ->
  let doc :=
    upsertedDoc E s m
      (fineUpdateObj s m (js_nullish (ClassDoc.fee cls) 1000)
         (js_nullish (ClassDoc.lateFineAmount cls) 500)
         (FeePayments db !! (s, m)))
      (FeePayments db !! (s, m)) in
  dbAfter (IMPOSE_LATE_FINE E s m) db = with_FeePayments (insert (s, m) doc) db /\
  exists name,
    response (IMPOSE_LATE_FINE E s m (idle db)).2 =
      Some (mkResponse 200
              (ApiResponse 200 (FeeWithStudent (Some doc) name)
                 "Fine imposed Successfully")).
Proof.
  intros Hs Hm (st & c & Hst & Hc & Hcls) Hpaid doc.
  apply String.eqb_neq in Hs, Hm.
  unfold dbAfter. run. rewrite Hs, Hm. run.
  rewrite Hst. run. rewrite Hc, Hcls. run. rewrite Hcls. run.
  rewrite Hpaid. run. rewrite lookup_insert_eq. rewrite Hst.
  split; [reflexivity|]. eexists. reflexivity.
Qed.

(** A settled month: the fine is refused with status 400 and nothing is
    written, neither in the transaction nor in the committed database. *)
Lemma impose_on_paid db s m cls :
  s <> "" -> m <> "" ->
  hasClass db s cls ->
  isPaid (FeePayments db !! (s, m)) = true ->
  impose_try E s m (started db) =
    (Throw (ApiError 400 "Cannot impose fine on already paid fee"),
     mkWorld db (InProgress db) 3 None None) /\
  IMPOSE_LATE_FINE E s m (idle db) =
    (Ok tt,
     mkWorld db Aborted 3
       (Some (mkResponse 400 (Failure "Cannot impose fine on already paid fee")))
       None).
Proof.
  intros Hs Hm (st & c & Hst & Hc & Hcls) Hpaid.
  apply String.eqb_neq in Hs, Hm. unfold started.
  split; run; rewrite ?Hs, ?Hm; run; rewrite Hst; run; rewrite Hc, Hcls; run;
    rewrite Hcls; run; rewrite Hpaid; run; reflexivity.
Qed.

End Faultless.

(** ** Fine imposition *)

Lemma feeAfter_dbAfter (h : M unit) (db : Db) (s m : string) :
  feeAfter h db s m = FeePayments (dbAfter h db) !! (s, m).
Proof. reflexivity. Qed.

Lemma hasClass_functional (db db' : Db) (s : string) (c1 c2 : ClassDoc.t) :
  Students db' = Students db -> Classes db' = Classes db ->
  hasClass db s c1 -> hasClass db' s c2 -> c1 = c2.
Proof.
  intros HS HC (st & c & Hst & Hc & Hcls) (st' & c' & Hst' & Hc' & Hcls').
  rewrite HS in Hst'. rewrite HC in Hcls'. congruence.
Qed.

(** C5.  A class with fee 500 and late fine 100: imposing a fine for a month
    that has no fee record creates the record with [baseAmount = 500],
    [lateFineAmount = 100], [lateFine = true], [finePaid = false],
    [status = "not paid"] and [isAdvancePayment = false]. *)
Theorem impose_creates_fined_record (E : Env) (db : Db) (s m : string)
    (cls : ClassDoc.t) :
  faultless E -> s <> "" -> m <> "" ->
  hasClass db s cls ->
  ClassDoc.fee cls = Some 500 ->
  ClassDoc.lateFineAmount cls = Some 100 ->
  FeePayments db !! (s, m) = None ->
  exists r,
    feeAfter (IMPOSE_LATE_FINE E s m) db s m = Some r /\
    FeeDoc.student r = Some s /\
    FeeDoc.month r = Some m /\
    FeeDoc.baseAmount r = Some 500 /\
    FeeDoc.lateFineAmount r = Some 100 /\
    FeeDoc.lateFine r = Some true /\
    FeeDoc.finePaid r = Some false /\
    FeeDoc.status r = Some "not paid" /\
    FeeDoc.isAdvancePayment r = Some false.
Proof.
  intros Hnf Hs Hm Hcls Hfee Hfine Hnone.
  destruct (impose_succeeds E Hnf db s m cls Hs Hm Hcls) as [Hdb _].
  { rewrite Hnone. reflexivity. }
  eexists. rewrite feeAfter_dbAfter, Hdb. simpl. rewrite lookup_insert_eq.
  split; [reflexivity|]. rewrite Hnone, Hfee, Hfine. simpl.
  repeat split; reflexivity.
Qed.

Lemma impose_creates_fined_record_witness :
  exists r,
    feeAfter (IMPOSE_LATE_FINE sampleEnv "s1" "March") sampleDb "s1" "March" = Some r /\
    FeeDoc.student r = Some "s1" /\
    FeeDoc.month r = Some "March" /\
    FeeDoc.baseAmount r = Some 500 /\
    FeeDoc.lateFineAmount r = Some 100 /\
    FeeDoc.lateFine r = Some true /\
    FeeDoc.finePaid r = Some false /\
    FeeDoc.status r = Some "not paid" /\
    FeeDoc.isAdvancePayment r = Some false.
Proof.
  apply (impose_creates_fined_record sampleEnv sampleDb "s1" "March"
           (ClassDoc.mk (Some 500) (Some 100) ["s1"])).
  - intros n. reflexivity.
  - discriminate.
  - discriminate.
  - exists (sampleStudent (Some "cA")), "cA". repeat split; reflexivity.
  - reflexivity.
  - reflexivity.
  - reflexivity.
Defined.

(** C4.  A month whose record has status "paid" cannot be fined: the handler
    throws the 400 error "Cannot impose fine on already paid fee" (the
    invalid-state error) before any write, answers with it, and leaves the
    database as it was; whatever the store does, nothing is committed. *)
Theorem impose_on_paid_rejected (E : Env) (db : Db) (s m : string)
    (cls : ClassDoc.t) (r : FeeDoc.t) :
  faultless E -> s <> "" -> m <> "" ->
  hasClass db s cls ->
  FeePayments db !! (s, m) = Some r ->
  FeeDoc.status r = Some "paid" ->
  impose_try E s m (started db) =
    (Throw (ApiError 400 "Cannot impose fine on already paid fee"),
     mkWorld db (InProgress db) 3 None None) /\
  IMPOSE_LATE_FINE E s m (idle db) =
    (Ok tt,
     mkWorld db Aborted 3
       (Some (mkResponse 400 (Failure "Cannot impose fine on already paid fee")))
       None) /\
  forall E', dbAfter (IMPOSE_LATE_FINE E' s m) db = db.
Proof.
  intros Hnf Hs Hm Hcls Hr Hpaid.
  assert (Hp : isPaid (FeePayments db !! (s, m)) = true).
  { rewrite Hr. simpl. rewrite Hpaid. reflexivity. }
  destruct (impose_on_paid E Hnf db s m cls Hs Hm Hcls Hp) as [Htry Hrun].
  repeat split; auto.
  intros E'. destruct (impose_outcome E' db s m) as [Hsame|(cls' & _ & Hp' & _)];
    [exact Hsame|congruence].
Qed.

Lemma impose_on_paid_rejected_witness :
  impose_try sampleEnv "s1" "March" (started sampleDbPaid) =
    (Throw (ApiError 400 "Cannot impose fine on already paid fee"),
     mkWorld sampleDbPaid (InProgress sampleDbPaid) 3 None None) /\
  IMPOSE_LATE_FINE sampleEnv "s1" "March" (idle sampleDbPaid) =
    (Ok tt,
     mkWorld sampleDbPaid Aborted 3
       (Some (mkResponse 400 (Failure "Cannot impose fine on already paid fee")))
       None) /\
  forall E', dbAfter (IMPOSE_LATE_FINE E' "s1" "March") sampleDbPaid = sampleDbPaid.
Proof.
  apply (impose_on_paid_rejected sampleEnv sampleDbPaid "s1" "March"
           (ClassDoc.mk (Some 500) (Some 100) ["s1"]) paidMarch).
  - intros n. reflexivity.
  - discriminate.
  - discriminate.
  - exists (sampleStudent (Some "cA")), "cA". repeat split; reflexivity.
  - reflexivity.
  - reflexivity.
Defined.

(** C9.  Imposing a fine on a month that already has a record leaves the
    record's [status], [baseAmount], [month], [student], [isAdvancePayment]
    and [paymentDate] as they were, whatever the store does: only [lateFine],
    [finePaid] and [lateFineAmount] can change. *)
Theorem impose_frame (E : Env) (db : Db) (s m : string) (r : FeeDoc.t) :
  FeePayments db !! (s, m) = Some r ->
  exists r',
    feeAfter (IMPOSE_LATE_FINE E s m) db s m = Some r' /\
    FeeDoc.status r' = FeeDoc.status r /\
    FeeDoc.baseAmount r' = FeeDoc.baseAmount r /\
    FeeDoc.month r' = FeeDoc.month r /\
    FeeDoc.student r' = FeeDoc.student r /\
    FeeDoc.isAdvancePayment r' = FeeDoc.isAdvancePayment r /\
    FeeDoc.paymentDate r' = FeeDoc.paymentDate r.
Proof.
  intros Hr. rewrite feeAfter_dbAfter.
  destruct (impose_outcome E db s m) as [Hsame|(cls & _ & _ & Hdb)].
  - exists r. rewrite Hsame. auto 10.
  - rewrite Hdb. simpl. rewrite lookup_insert_eq, Hr. eexists.
    split; [reflexivity|]. simpl. repeat split; reflexivity.
Qed.

Lemma impose_frame_witness :
  exists r',
    feeAfter (IMPOSE_LATE_FINE sampleEnv "s1" "March")
      (with_FeePayments (insert ("s1", "March") unpaidMarch) sampleDb)
      "s1" "March" = Some r' /\
    FeeDoc.status r' = Some "not paid" /\
    FeeDoc.baseAmount r' = Some 450 /\
    FeeDoc.month r' = Some "March" /\
    FeeDoc.student r' = Some "s1" /\
    FeeDoc.isAdvancePayment r' = Some true /\
    FeeDoc.paymentDate r' = Some 1600000000.
Proof.
  apply (impose_frame sampleEnv
           (with_FeePayments (insert ("s1", "March") unpaidMarch) sampleDb)
           "s1" "March" unpaidMarch).
  reflexivity.
Defined.

(** The fine added by a repeated imposition: the second call finds the amount
    the first one left and adds nothing to it. *)
Lemma fine_amount_stable (E : Env) (s m : string) (fee fine : Z)
    (existing : option FeeDoc.t) :
  let d1 := upsertedDoc E s m (fineUpdateObj s m fee fine existing) existing in
  FeeDoc.lateFineAmount
    (upsertedDoc E s m (fineUpdateObj s m fee fine (Some d1)) (Some d1)) =
  FeeDoc.lateFineAmount d1.
Proof.
  destruct existing as [d|]; simpl;
    [destruct (FeeDoc.lateFineAmount d) as [x|]; simpl|];
    repeat (match goal with
            | |- context [?a =? ?b] => destruct (Z.eqb_spec a b); simpl
            end);
    f_equal; lia.
Qed.

(** The amount a first imposition leaves: the stored one when it is nonzero,
    otherwise the fine. *)
Lemma fine_amount_first (E : Env) (s m : string) (fee fine : Z)
    (existing : option FeeDoc.t) :
  let prior :=
    match existing with
    | Some d => FeeDoc.lateFineAmount d
    | None => None
    end in
  FeeDoc.lateFineAmount
    (upsertedDoc E s m (fineUpdateObj s m fee fine existing) existing) =
  if truthy prior then prior else Some fine.
Proof.
  destruct existing as [d|]; simpl; [|reflexivity].
  destruct (FeeDoc.lateFineAmount d) as [x|]; simpl; [|reflexivity].
  destruct (Z.eqb_spec x 0); simpl; f_equal; lia.
Qed.

(** C1.  Imposing the fine twice in a row on a month that is not paid leaves
    the record with the [lateFineAmount] a single call produces; a single
    call adds the class's fine only when the record had no nonzero
    [lateFineAmount] before. *)
Theorem impose_twice_same_fine (E : Env) (db : Db) (s m : string) :
  isPaid (FeePayments db !! (s, m)) = false ->
  let once := dbAfter (IMPOSE_LATE_FINE E s m) db in
  let twice := dbAfter (IMPOSE_LATE_FINE E s m) once in
  FeeDoc.lateFineAmount <$> FeePayments twice !! (s, m) =
    FeeDoc.lateFineAmount <$> FeePayments once !! (s, m) /\
  forall cls,
    faultless E -> s <> "" -> m <> "" -> hasClass db s cls ->
    let prior := FeePayments db !! (s, m) ≫= FeeDoc.lateFineAmount in
    FeeDoc.lateFineAmount <$> FeePayments once !! (s, m) =
      Some (if truthy prior then prior
            else Some (js_nullish (ClassDoc.lateFineAmount cls) 500)).
Proof.
  intros Hunpaid once twice. split.
  - destruct (impose_outcome E db s m) as [Hsame|(cls & Hcls & _ & Hdb)].
    + unfold twice. fold once in Hsame. rewrite Hsame. fold once.
      rewrite Hsame. reflexivity.
    + fold once in Hdb.
      destruct (impose_outcome E once s m) as [Hsame|(cls' & Hcls' & _ & Hdb')].
      * fold twice in Hsame. rewrite Hsame. reflexivity.
      * fold twice in Hdb'.
        assert (cls = cls').
        { apply (hasClass_functional db once s); auto; rewrite Hdb; reflexivity. }
        subst cls'. rewrite Hdb'. simpl. rewrite lookup_insert_eq. simpl.
        rewrite Hdb at 3. simpl. rewrite lookup_insert_eq. simpl. f_equal.
        rewrite Hdb. simpl. rewrite lookup_insert_eq.
        apply fine_amount_stable.
  - intros cls Hnf Hs Hm Hcls prior.
    destruct (impose_succeeds E Hnf db s m cls Hs Hm Hcls Hunpaid) as [Hdb _].
    fold once in Hdb. rewrite Hdb. simpl. rewrite lookup_insert_eq. simpl.
    f_equal. rewrite fine_amount_first. unfold prior.
    destruct (FeePayments db !! (s, m)); reflexivity.
Qed.

Lemma impose_twice_same_fine_witness :
  let once := dbAfter (IMPOSE_LATE_FINE sampleEnv "s1" "March") sampleDb in
  let twice := dbAfter (IMPOSE_LATE_FINE sampleEnv "s1" "March") once in
  FeeDoc.lateFineAmount <$> FeePayments twice !! ("s1", "March") = Some (Some 100) /\
  FeeDoc.lateFineAmount <$> FeePayments once !! ("s1", "March") = Some (Some 100).
Proof.
  destruct (impose_twice_same_fine sampleEnv sampleDb "s1" "March" eq_refl)
    as [Hsame Hfirst].
  specialize (Hfirst (ClassDoc.mk (Some 500) (Some 100) ["s1"])
                (fun n => eq_refl) ltac:(discriminate) ltac:(discriminate)).
  simpl in Hsame, Hfirst.
  assert (Hone :
    FeeDoc.lateFineAmount <$>
      FeePayments (dbAfter (IMPOSE_LATE_FINE sampleEnv "s1" "March") sampleDb)
        !! ("s1", "March") = Some (Some 100)).
  { apply Hfirst. exists (sampleStudent (Some "cA")), "cA".
    repeat split; reflexivity. }
  split; [rewrite Hsame|]; exact Hone.
Defined.

(** C7.  The two paths resolve a missing fee policy differently.  For a
    student whose class has no [fee], marking a payment (either mode) seeds
    [baseAmount] with 0 while imposing a fine seeds it with 1000; and when
    the class has no [lateFineAmount], imposing a fine charges 500. *)
Theorem fee_policy_defaults_diverge (E : Env) (db : Db) (s m : string)
    (status : option string) (adv : bool) (cls : ClassDoc.t) :
  faultless E -> s <> "" -> m <> "" ->
  hasClass db s cls ->
  FeePayments db !! (s, m) = None ->
  (ClassDoc.fee cls = None ->
   FeeDoc.baseAmount <$>
     feeAfter (MARK_FEE_PAYMENT_STATUS E s (MonthLabel m) status adv) db s m =
     Some (Some 0) /\
   FeeDoc.baseAmount <$>
     feeAfter (MARK_FEE_PAYMENT_STATUS E s (MonthList [m]) status adv) db s m =
     Some (Some 0) /\
   FeeDoc.baseAmount <$> feeAfter (IMPOSE_LATE_FINE E s m) db s m =
     Some (Some 1000)) /\
  (ClassDoc.lateFineAmount cls = None ->
   FeeDoc.lateFineAmount <$> feeAfter (IMPOSE_LATE_FINE E s m) db s m =
     Some (Some 500)).
Proof.
  intros Hnf Hs Hm Hcls Hnone.
  destruct (impose_succeeds E Hnf db s m cls Hs Hm Hcls) as [Hdb _].
  { rewrite Hnone. reflexivity. }
  split.
  - intros Hfee. repeat split.
    + unfold feeAfter. rewrite (mark_single_succeeds E Hnf db s m status adv cls Hcls).
      simpl. rewrite lookup_insert_eq, Hnone, Hfee. reflexivity.
    + unfold feeAfter. rewrite (mark_bulk_succeeds E Hnf db s [m] status adv cls Hcls).
      simpl. rewrite lookup_insert_eq, Hnone, Hfee. reflexivity.
    + rewrite feeAfter_dbAfter, Hdb. simpl.
      rewrite lookup_insert_eq, Hnone, Hfee. reflexivity.
  - intros Hfine. rewrite feeAfter_dbAfter, Hdb. simpl.
    rewrite lookup_insert_eq, Hnone, Hfine. reflexivity.
Qed.

Lemma fee_policy_defaults_diverge_witness :
  (FeeDoc.baseAmount <$>
     feeAfter (MARK_FEE_PAYMENT_STATUS sampleEnv "s2" (MonthLabel "March")
                 (Some "paid") false) sampleDb "s2" "March" = Some (Some 0) /\
   FeeDoc.baseAmount <$>
     feeAfter (MARK_FEE_PAYMENT_STATUS sampleEnv "s2" (MonthList ["March"])
                 (Some "paid") false) sampleDb "s2" "March" = Some (Some 0) /\
   FeeDoc.baseAmount <$>
     feeAfter (IMPOSE_LATE_FINE sampleEnv "s2" "March") sampleDb "s2" "March" =
     Some (Some 1000)) /\
  FeeDoc.lateFineAmount <$>
    feeAfter (IMPOSE_LATE_FINE sampleEnv "s2" "March") sampleDb "s2" "March" =
    Some (Some 500).
Proof.
  destruct (fee_policy_defaults_diverge sampleEnv sampleDb "s2" "March"
              (Some "paid") false (ClassDoc.mk None None ["s2"]))
    as [Hfee Hfine].
  - intros n. reflexivity.
  - discriminate.
  - discriminate.
  - exists (sampleStudent (Some "cB")), "cB". repeat split; reflexivity.
  - reflexivity.
  - split; [apply Hfee|apply Hfine]; reflexivity.
Defined.

(** ** Marking payments *)

(** C10.  A student that exists but whose [studentClass] does not resolve to
    a class document cannot be marked: the handler throws the 404 error
    "Student class not found." before any write, answers with it, and the
    database stays as it was. *)
Theorem mark_requires_resolvable_class (E : Env) (db : Db) (s : string)
    (months : Months) (status : option string) (adv : bool) (st : StudentDoc.t) :
  faultless E ->
  Students db !! s = Some st ->
  match StudentDoc.studentClass st with
  | Some c => Classes db !! c
  | None => None
  end = None ->
  mark_try E s months status adv (started db) =
    (Throw (ApiError 404 "Student class not found."),
     mkWorld db (InProgress db) 2 None None) /\
  MARK_FEE_PAYMENT_STATUS E s months status adv (idle db) =
    (Ok tt,
     mkWorld db Aborted 2
       (Some (mkResponse 404 (Failure "Student class not found."))) None).
Proof.
  intros Hnf Hst Hcls. exact (mark_without_class E Hnf db s months status adv st Hst Hcls).
Qed.

Lemma mark_requires_resolvable_class_witness :
  mark_try sampleEnv "s3" (MonthLabel "March") (Some "paid") false
    (started sampleDb) =
    (Throw (ApiError 404 "Student class not found."),
     mkWorld sampleDb (InProgress sampleDb) 2 None None) /\
  MARK_FEE_PAYMENT_STATUS sampleEnv "s3" (MonthLabel "March") (Some "paid") false
    (idle sampleDb) =
    (Ok tt,
     mkWorld sampleDb Aborted 2
       (Some (mkResponse 404 (Failure "Student class not found."))) None).
Proof.
  apply (mark_requires_resolvable_class sampleEnv sampleDb "s3"
           (MonthLabel "March") (Some "paid") false (sampleStudent (Some "cZ"))).
  - intros n. reflexivity.
  - reflexivity.
  - reflexivity.
Defined.

Lemma bulkWrite_cons (E : Env) (op : UpdateOne) (rest : list UpdateOne) (d : Db) :
  (bulkWrite E (op :: rest) d).2 =
  (bulkWrite E rest
     (findOneAndUpdate E (filter_student op) (filter_month op) (update op) d).2).2.
Proof.
  simpl. destruct (bulkWrite E rest _) as [r d2]. reflexivity.
Qed.

(** An update that does not set [baseAmount] keeps the one of the document
    it matches. *)
Lemma applyUpdate_baseAmount (u : UpdateObj) (d : FeeDoc.t) :
  FeeDoc.baseAmount (upd_set u) = None ->
  FeeDoc.baseAmount (applyUpdate u d) = FeeDoc.baseAmount d.
Proof.
  intros Hu. unfold applyUpdate.
  destruct (upd_inc_lateFineAmount u); simpl; rewrite Hu; reflexivity.
Qed.

Lemma findOneAndUpdate_keeps_baseAmount (E : Env) (s m : string) (u : UpdateObj)
    (d : Db) (k : string * string) (r : FeeDoc.t) :
  FeeDoc.baseAmount (upd_set u) = None ->
  FeePayments d !! k = Some r ->
  exists r',
    FeePayments (findOneAndUpdate E s m u d).2 !! k = Some r' /\
    FeeDoc.baseAmount r' = FeeDoc.baseAmount r.
Proof.
  intros Hu Hr. simpl. destruct (decide ((s, m) = k)) as [<-|Hne].
  - rewrite lookup_insert_eq, Hr. eexists. split; [reflexivity|].
    simpl. apply applyUpdate_baseAmount, Hu.
  - rewrite lookup_insert_ne by exact Hne. eauto.
Qed.

Lemma bulkWrite_keeps_baseAmount (E : Env) (ops : list UpdateOne) :
  Forall (fun op => FeeDoc.baseAmount (upd_set (update op)) = None) ops ->
  forall (d : Db) (k : string * string) (r : FeeDoc.t),
    FeePayments d !! k = Some r ->
    exists r',
      FeePayments (bulkWrite E ops d).2 !! k = Some r' /\
      FeeDoc.baseAmount r' = FeeDoc.baseAmount r.
Proof.
  induction 1 as [|op rest Hop _ IH]; intros d k r Hr.
  - simpl. eauto.
  - rewrite bulkWrite_cons.
    destruct (findOneAndUpdate_keeps_baseAmount E (filter_student op)
                (filter_month op) (update op) d k r Hop Hr) as (r1 & Hr1 & Hb1).
    destruct (IH _ k r1 Hr1) as (r2 & Hr2 & Hb2).
    exists r2. split; [exact Hr2|congruence].
Qed.

(** No fee marking, in either mode and whatever the store does, changes the
    [baseAmount] of a record that already exists. *)
Lemma mark_keeps_baseAmount (E : Env) (db : Db) (s : string) (months : Months)
    (status : option string) (adv : bool) (k : string * string) (r : FeeDoc.t) :
  FeePayments db !! k = Some r ->
  exists r',
    FeePayments (dbAfter (MARK_FEE_PAYMENT_STATUS E s months status adv) db) !! k
      = Some r' /\
    FeeDoc.baseAmount r' = FeeDoc.baseAmount r.
Proof.
  intros Hr.
  destruct (mark_outcome E db s months status adv) as [Hsame|(cls & _ & Hdb)].
  - rewrite Hsame. eauto.
  - destruct months as [ms|m|]; [| |contradiction]; rewrite Hdb.
    + apply bulkWrite_keeps_baseAmount; [|exact Hr].
      apply Forall_forall. intros op Hop.
      apply list_elem_of_In, in_map_iff in Hop. destruct Hop as (x & <- & _).
      reflexivity.
    + apply (findOneAndUpdate_keeps_baseAmount E s m
               (singleUpdateObj E s m status adv (js_or (ClassDoc.fee cls) 0))
               db k r eq_refl Hr).
Qed.

(** C2.  For a student with an assigned class, marking a month as paid in
    single-month mode leaves the month's record with [status = "paid"],
    [lateFine = false] and [finePaid = true]; its [baseAmount] is the class
    fee when the call creates the record and the stored one otherwise; and
    once the record exists no fee marking, whatever its arguments and
    whatever the store does, changes its [baseAmount]. *)
Theorem mark_paid_record (E : Env) (db : Db) (s m : string) (adv : bool)
    (cls : ClassDoc.t) :
  faultless E ->
  hasClass db s cls ->
  let db1 :=
    dbAfter (MARK_FEE_PAYMENT_STATUS E s (MonthLabel m) (Some "paid") adv) db in
  exists r,
    FeePayments db1 !! (s, m) = Some r /\
    FeeDoc.status r = Some "paid" /\
    FeeDoc.lateFine r = Some false /\
    FeeDoc.finePaid r = Some true /\
    FeeDoc.baseAmount r =
      match FeePayments db !! (s, m) with
      | Some old => FeeDoc.baseAmount old
      | None => Some (js_or (ClassDoc.fee cls) 0)
      end /\
    (forall fee, ClassDoc.fee cls = Some fee ->
       FeePayments db !! (s, m) = None -> FeeDoc.baseAmount r = Some fee) /\
    (forall E' db2 r2 s' months' status' adv',
       FeePayments db2 !! (s, m) = Some r2 ->
       FeeDoc.baseAmount <$>
         FeePayments
           (dbAfter (MARK_FEE_PAYMENT_STATUS E' s' months' status' adv') db2)
           !! (s, m) = Some (FeeDoc.baseAmount r2)).
Proof.
  intros Hnf Hcls db1.
  assert (Hdb1 : db1 =
    with_FeePayments
      (insert (s, m)
         (upsertedDoc E s m
            (singleUpdateObj E s m (Some "paid") adv (js_or (ClassDoc.fee cls) 0))
            (FeePayments db !! (s, m)))) db).
  { unfold db1, dbAfter.
    rewrite (mark_single_succeeds E Hnf db s m (Some "paid") adv cls Hcls).
    reflexivity. }
  eexists. split; [rewrite Hdb1; simpl; apply lookup_insert_eq|].
  assert (Hbase :
    FeeDoc.baseAmount
      (upsertedDoc E s m
         (singleUpdateObj E s m (Some "paid") adv (js_or (ClassDoc.fee cls) 0))
         (FeePayments db !! (s, m))) =
    match FeePayments db !! (s, m) with
    | Some old => FeeDoc.baseAmount old
    | None => Some (js_or (ClassDoc.fee cls) 0)
    end).
  { destruct (FeePayments db !! (s, m)); reflexivity. }
  repeat split.
  - destruct (FeePayments db !! (s, m)); reflexivity.
  - destruct (FeePayments db !! (s, m)); reflexivity.
  - destruct (FeePayments db !! (s, m)); reflexivity.
  - exact Hbase.
  - intros fee Hfee Hnone. rewrite Hbase, Hnone, Hfee. simpl.
    destruct (Z.eqb_spec fee 0); congruence.
  - intros E' db2 r2 s' months' status' adv' Hr2.
    destruct (mark_keeps_baseAmount E' db2 s' months' status' adv' (s, m) r2 Hr2)
      as (r' & Hr' & Hb').
    rewrite Hr'. simpl. congruence.
Qed.

Lemma mark_paid_record_witness :
  let db1 :=
    dbAfter (MARK_FEE_PAYMENT_STATUS sampleEnv "s1" (MonthLabel "March")
               (Some "paid") false) sampleDb in
  exists r,
    FeePayments db1 !! ("s1", "March") = Some r /\
    FeeDoc.status r = Some "paid" /\
    FeeDoc.lateFine r = Some false /\
    FeeDoc.finePaid r = Some true /\
    FeeDoc.baseAmount r = Some 500 /\
    FeeDoc.baseAmount <$>
      FeePayments
        (dbAfter (MARK_FEE_PAYMENT_STATUS sampleEnv "s2" (MonthList ["March"])
                    (Some "not paid") true) db1)
        !! ("s1", "March") = Some (Some 500).
Proof.
  destruct (mark_paid_record sampleEnv sampleDb "s1" "March" false
              (ClassDoc.mk (Some 500) (Some 100) ["s1"]))
    as (r & Hr & Hstatus & Hfine & Hpaid & _ & Hfee & Hlater).
  - intros n. reflexivity.
  - exists (sampleStudent (Some "cA")), "cA". repeat split; reflexivity.
  - exists r.
    split; [exact Hr|]. split; [exact Hstatus|]. split; [exact Hfine|].
    split; [exact Hpaid|]. split; [apply Hfee; reflexivity|].
    rewrite (Hlater sampleEnv _ r "s2" (MonthList ["March"]) (Some "not paid")
               true Hr).
    rewrite (Hfee 500); reflexivity.
Defined.

(** *** Bulk marking against sequential single-month marking *)

Lemma sameExceptFinePaidAdvance_refl (a : FeeDoc.t) :
  sameExceptFinePaidAdvance a a.
Proof. repeat split. Qed.

Lemma feesAgree_refl (d : Db) : feesAgree d d.
Proof.
  repeat split. intros k. destruct (FeePayments d !! k); constructor.
  apply sameExceptFinePaidAdvance_refl.
Qed.

(** One month, both modes: the resulting documents agree outside the two
    fields when the documents they start from do. *)
Lemma upserted_bulk_single (E : Env) (s m : string) (status : option string)
    (adv : bool) (fee : Z) (a b : option FeeDoc.t) :
  option_Forall2 sameExceptFinePaidAdvance a b ->
  sameExceptFinePaidAdvance
    (upsertedDoc E s m (bulkUpdateObj E s m status adv fee) a)
    (upsertedDoc E s m (singleUpdateObj E s m status adv fee) b).
Proof.
  intros [x y (H1 & H2 & H3 & H4 & H5 & H6 & H7)|]; simpl.
  - unfold sameExceptFinePaidAdvance; destruct status; simpl;
      repeat split; congruence.
  - repeat split.
Qed.

(** The two update objects coincide when the status is "paid" and the month
    does not start in the future, or the caller flags the payment as an
    advance. *)
Lemma bulk_single_same_update (E : Env) (s m : string) (adv : bool) (fee : Z) :
  (startsInFuture E m = true -> adv = true) ->
  bulkUpdateObj E s m (Some "paid") adv fee =
  singleUpdateObj E s m (Some "paid") adv fee.
Proof.
  intros Hadv. unfold bulkUpdateObj, singleUpdateObj.
  destruct adv; simpl; [reflexivity|].
  destruct (startsInFuture E m); [discriminate (Hadv eq_refl)|reflexivity].
Qed.

Section BulkAgainstSequential.
Context (E : Env) (Hnf : faultless E).
Context (s : string) (status : option string) (adv : bool) (cls : ClassDoc.t).

Lemma markSequentially_cons (m : string) (ms : list string) (db : Db) :
  hasClass db s cls ->
  let db1 :=
    with_FeePayments
      (insert (s, m)
         (upsertedDoc E s m
            (singleUpdateObj E s m status adv (js_or (ClassDoc.fee cls) 0))
            (FeePayments db !! (s, m)))) db in
  markSequentially E s (m :: ms) status adv db =
    markSequentially E s ms status adv db1 /\
  hasClass db1 s cls.
Proof.
  intros Hcls db1. split.
  - unfold markSequentially. simpl. f_equal. unfold dbAfter.
    rewrite (mark_single_succeeds E Hnf db s m status adv cls Hcls). reflexivity.
  - exact Hcls.
Qed.

Lemma bulk_sequential_agree (ms : list string) :
  forall d1 d2,
    feesAgree d1 d2 -> hasClass d2 s cls ->
    feesAgree (bulkWrite E (bulkUpdateOps E s status adv (js_or (ClassDoc.fee cls) 0) ms) d1).2
      (markSequentially E s ms status adv d2).
Proof.
  induction ms as [|m ms IH]; intros d1 d2 Hagree Hcls.
  - exact Hagree.
  - unfold bulkUpdateOps. simpl map. rewrite bulkWrite_cons. simpl filter_student.
    simpl filter_month. simpl update.
    destruct (markSequentially_cons m ms d2 Hcls) as [-> Hcls1].
    apply IH; [|exact Hcls1].
    destruct Hagree as (HS & HC & HF). repeat split; simpl; auto.
    intros k. destruct (decide ((s, m) = k)) as [<-|Hne].
    + rewrite !lookup_insert_eq. constructor.
      apply upserted_bulk_single, HF.
    + rewrite !lookup_insert_ne by exact Hne. apply HF.
Qed.

Lemma bulk_sequential_equal (ms : list string) :
  status = Some "paid" ->
  (forall m, m ∈ ms -> startsInFuture E m = true -> adv = true) ->
  forall d,
    hasClass d s cls ->
    (bulkWrite E (bulkUpdateOps E s status adv (js_or (ClassDoc.fee cls) 0) ms) d).2 = markSequentially E s ms status adv d.
Proof.
  intros Hpaid. induction ms as [|m ms IH]; intros Hadv d Hcls.
  - reflexivity.
  - unfold bulkUpdateOps. simpl map. rewrite bulkWrite_cons. simpl filter_student.
    simpl filter_month. simpl update.
    destruct (markSequentially_cons m ms d Hcls) as [-> Hcls1].
    rewrite Hpaid at 1.
    rewrite bulk_single_same_update by (apply Hadv; left).
    rewrite <- Hpaid.
    apply IH; [|exact Hcls1].
    intros m' Hm'. apply Hadv. right. exact Hm'.
Qed.

(** Bulk marking leaves [finePaid = true] on every listed month. *)
Lemma bulk_sets_finePaid (ms : list string) :
  forall d m,
    m ∈ ms \/
    FeeDoc.finePaid <$> FeePayments d !! (s, m) = Some (Some true) ->
    FeeDoc.finePaid <$>
      FeePayments
        (bulkWrite E
           (bulkUpdateOps E s status adv (js_or (ClassDoc.fee cls) 0) ms) d).2
        !! (s, m) = Some (Some true).
Proof.
  induction ms as [|m0 ms IH]; intros d m Hm.
  - destruct Hm as [Hm|Hm]; [|exact Hm]. inversion Hm.
  - unfold bulkUpdateOps. simpl map. rewrite bulkWrite_cons. simpl filter_student.
    simpl filter_month. simpl update. apply IH. simpl.
    destruct (decide (m0 = m)) as [->|Hne].
    + right. rewrite lookup_insert_eq.
      destruct (FeePayments d !! (s, m)); reflexivity.
    + rewrite lookup_insert_ne by congruence.
      destruct Hm as [Hm|Hm]; [|right; exact Hm].
      left. apply list_elem_of_In in Hm. apply list_elem_of_In.
      destruct Hm as [Heq|Hm]; [congruence|exact Hm].
Qed.

End BulkAgainstSequential.

(** C6, as the code has it.  Single-month mode sets [finePaid] only when the
    status is "paid", bulk mode sets it for every listed month whatever the
    status; and
    single-month mode also flags as an advance payment a month that starts
    in the future, which bulk mode does only on the caller's flag.  These
    are the only per-month differences: after bulk marking and after
    sequential single-month marking of the same months (same date), the
    records agree on every other field, and the two databases are equal when
    the status is "paid" and no listed month starts in the future unflagged. *)
Theorem bulk_single_differences (E : Env) (db : Db) (s : string)
    (status : option string) (adv : bool) (cls : ClassDoc.t) :
  faultless E ->
  hasClass db s cls ->
  (forall m,
     let existing := FeePayments db !! (s, m) in
     exists rB rS,
       feeAfter (MARK_FEE_PAYMENT_STATUS E s (MonthList [m]) status adv) db s m
         = Some rB /\
       feeAfter (MARK_FEE_PAYMENT_STATUS E s (MonthLabel m) status adv) db s m
         = Some rS /\
       FeeDoc.finePaid rB = Some true /\
       FeeDoc.finePaid rS =
         (if bool_decide (status = Some "paid") then Some true
          else FeeDoc.finePaid (priorDoc E existing)) /\
       FeeDoc.isAdvancePayment rB =
         (if adv then Some true
          else FeeDoc.isAdvancePayment (priorDoc E existing)) /\
       FeeDoc.isAdvancePayment rS =
         (if adv || startsInFuture E m then Some true
          else FeeDoc.isAdvancePayment (priorDoc E existing))) /\
  (forall ms m,
     m ∈ ms ->
     FeeDoc.finePaid <$>
       FeePayments
         (dbAfter (MARK_FEE_PAYMENT_STATUS E s (MonthList ms) status adv) db)
         !! (s, m) = Some (Some true)) /\
  (forall ms k,
     option_Forall2 sameExceptFinePaidAdvance
       (FeePayments
          (dbAfter (MARK_FEE_PAYMENT_STATUS E s (MonthList ms) status adv) db)
          !! k)
       (FeePayments (markSequentially E s ms status adv db) !! k)) /\
  (forall ms,
     status = Some "paid" ->
     (forall m, m ∈ ms -> startsInFuture E m = true -> adv = true) ->
     dbAfter (MARK_FEE_PAYMENT_STATUS E s (MonthList ms) status adv) db =
     markSequentially E s ms status adv db).
Proof.
  intros Hnf Hcls. repeat split.
  - intros m existing. unfold feeAfter.
    rewrite (mark_bulk_succeeds E Hnf db s [m] status adv cls Hcls).
    rewrite (mark_single_succeeds E Hnf db s m status adv cls Hcls).
    simpl. rewrite !lookup_insert_eq.
    eexists. eexists. split; [reflexivity|]. split; [reflexivity|].
    unfold existing.
    destruct (FeePayments db !! (s, m)); simpl;
      repeat split;
      try (case_bool_decide; reflexivity);
      try (destruct adv; reflexivity);
      try (destruct (adv || startsInFuture E m); reflexivity).
  - intros ms m Hm. unfold dbAfter.
    rewrite (mark_bulk_succeeds E Hnf db s ms status adv cls Hcls). simpl.
    apply (bulk_sets_finePaid E s status adv cls ms db m). left. exact Hm.
  - intros ms k. unfold dbAfter at 1.
    rewrite (mark_bulk_succeeds E Hnf db s ms status adv cls Hcls). simpl.
    apply (bulk_sequential_agree E Hnf s status adv cls ms db db
             (feesAgree_refl db) Hcls).
  - intros ms Hpaid Hadv. unfold dbAfter at 1.
    rewrite (mark_bulk_succeeds E Hnf db s ms status adv cls Hcls). simpl.
    apply (bulk_sequential_equal E Hnf s status adv cls ms Hpaid Hadv db Hcls).
Qed.

Lemma bulk_single_differences_witness :
  (exists rB rS,
     feeAfter (MARK_FEE_PAYMENT_STATUS sampleEnv "s1" (MonthList ["December"])
                 (Some "not paid") false) sampleDb "s1" "December" = Some rB /\
     feeAfter (MARK_FEE_PAYMENT_STATUS sampleEnv "s1" (MonthLabel "December")
                 (Some "not paid") false) sampleDb "s1" "December" = Some rS /\
     FeeDoc.finePaid rB = Some true /\
     FeeDoc.finePaid rS = None /\
     FeeDoc.isAdvancePayment rB = None /\
     FeeDoc.isAdvancePayment rS = Some true) /\
  dbAfter (MARK_FEE_PAYMENT_STATUS sampleEnv "s1" (MonthList ["January"; "March"])
             (Some "paid") false) sampleDb =
  markSequentially sampleEnv "s1" ["January"; "March"] (Some "paid") false sampleDb.
Proof.
  destruct (bulk_single_differences sampleEnv sampleDb "s1" (Some "not paid")
              false (ClassDoc.mk (Some 500) (Some 100) ["s1"]))
    as (Hmonth & _ & _).
  { intros n. reflexivity. }
  { exists (sampleStudent (Some "cA")), "cA". repeat split; reflexivity. }
  destruct (bulk_single_differences sampleEnv sampleDb "s1" (Some "paid")
              false (ClassDoc.mk (Some 500) (Some 100) ["s1"]))
    as (_ & _ & Hequal).
  { intros n. reflexivity. }
  { exists (sampleStudent (Some "cA")), "cA". repeat split; reflexivity. }
  split.
  - exact (Hmonth "December").
  - apply Hequal; [reflexivity|].
    intros m Hm Hfuture. exfalso.
    apply list_elem_of_In in Hm. simpl in Hm.
    destruct Hm as [<-|[<-|[]]]; discriminate Hfuture.
Defined.

(** C6 as stated fails: marking December, a month that starts in the future,
    as paid without the advance flag gives the same [finePaid] in both modes
    but a different [isAdvancePayment], so [finePaid] is not the only
    per-month difference. *)
Lemma bulk_single_differ_on_advance :
  exists rB rS,
    feeAfter (MARK_FEE_PAYMENT_STATUS sampleEnv "s1" (MonthList ["December"])
                (Some "paid") false) sampleDb "s1" "December" = Some rB /\
    feeAfter (MARK_FEE_PAYMENT_STATUS sampleEnv "s1" (MonthLabel "December")
                (Some "paid") false) sampleDb "s1" "December" = Some rS /\
    FeeDoc.finePaid rB = FeeDoc.finePaid rS /\
    FeeDoc.isAdvancePayment rB = None /\
    FeeDoc.isAdvancePayment rS = Some true /\
    ~ sameExceptFinePaid rB rS.
Proof.
  eexists. eexists. split; [vm_compute; reflexivity|].
  split; [vm_compute; reflexivity|].
  repeat split.
  intros (_ & _ & _ & _ & _ & _ & Hadv & _). discriminate Hadv.
Qed.

(** ** Class reassignment *)

(** Asking [UPDATE_STUDENT] for a class other than the current one ends in
    the ReferenceError on [Class]: status 500, nothing changed. *)
Lemma update_class_change_throws (E : Env) (db : Db) (s : string)
    (b : UpdateBody.t) (st : StudentDoc.t) (current : string) :
  fault E 0%nat = None ->
  Students db !! s = Some st ->
  StudentDoc.studentClass st = Some current ->
  truthy_str (UpdateBody.studentClass b) = true ->
  UpdateBody.studentClass b <> Some current ->
  UPDATE_STUDENT E s b (idle db) =
    (Ok tt,
     mkWorld db Aborted 1 (Some (mkResponse 500 (Failure "Class is not defined")))
       None).
Proof.
  intros Hnf Hst Hcur Htruthy Hne.
  unfold UPDATE_STUDENT, update_try.
  match goal with
  | |- context [if ?c then throw _ else _] =>
      assert (Hfields : c = false)
        by (rewrite Htruthy; destruct (truthy_str (UpdateBody.name b));
            reflexivity);
      rewrite Hfields
  end.
  unfold bind, try_catch, startTransaction, dbRead, dbOp, idle. simpl.
  rewrite Hnf. simpl. rewrite Hst. simpl.
  unfold handleClassUpdate. rewrite Htruthy, Hcur.
  rewrite bool_decide_eq_true_2 by exact Hne. reflexivity.
Qed.

(** C3 on the code.  Student [s1] of class [cA] is reassigned to class [cB]:
    the request is answered with status 500 "Class is not defined" and the
    database is unchanged, so [cA] still lists [s1], [cB] does not, and the
    student still points at [cA]. *)
Theorem reassign_class_is_rejected :
  let w := (UPDATE_STUDENT sampleEnv "s1" (reassignTo "cB") (idle sampleDb)).2 in
  response w = Some (mkResponse 500 (Failure "Class is not defined")) /\
  committed w = sampleDb /\
  ClassDoc.students <$> Classes (committed w) !! "cA" = Some ["s1"] /\
  ClassDoc.students <$> Classes (committed w) !! "cB" = Some ["s2"] /\
  Students (committed w) !! "s1" ≫= StudentDoc.studentClass = Some "cA".
Proof.
  rewrite (update_class_change_throws sampleEnv sampleDb "s1" (reassignTo "cB")
             (sampleStudent (Some "cA")) "cA");
    try reflexivity; [|discriminate].
  simpl. repeat split.
Qed.

(** ** Failure of a workflow *)

(** The store fails on the read that follows the upsert of a fine: the
    transaction holds the new record when the error is thrown, the upsert
    is dropped with the transaction and the client is told of the
    conflict. *)
Example fine_dropped_on_failure :
  let E := failingAt 4 duplicateKey in
  let wf := FineImposition "s1" "March" in
  (exists d r,
     session (tryBlock E wf (started sampleDb)).2 = InProgress d /\
     FeePayments d !! ("s1", "March") = Some r) /\
  let w := (handler E wf (idle sampleDb)).2 in
  committed w = sampleDb /\ session w = Aborted /\
  response w =
    Some (mkResponse 409
            (Failure "Duplicate key error: A student with this student already exists")).
Proof.
  split.
  - eexists. eexists. split; vm_compute; reflexivity.
  - vm_compute. repeat split.
Qed.

(** A commit that raises, in a handler that guards its abort: fee marking
    answers 500 with the error's message. *)
Example mark_commit_failure_answered :
  let w :=
    (MARK_FEE_PAYMENT_STATUS (failingAt 3 connectionLost) "s1"
       (MonthLabel "March") (Some "paid") false (idle sampleDb)).2 in
  committed w = sampleDb /\ session w = Committed /\
  response w = Some (mkResponse 500 (Failure "connection closed")).
Proof. vm_compute. repeat split. Qed.

(** C8 on the code.  [UPDATE_STUDENT] changes the grade of student [s1] and
    the commit of its transaction raises: the [catch] block calls
    [abortTransaction] without asking [inTransaction] first, the driver
    refuses to abort a session whose commit was attempted, and the handler
    ends in that second error.  Nothing was published, but no response is
    sent and nothing is handed to [next]: the structured error result is
    missing. *)
Theorem update_commit_failure_unanswered :
  let E := failingAt 2 connectionLost in
  (update_try E "s1" (regrade "A") (started sampleDb)).1 = Throw connectionLost /\
  let r := UPDATE_STUDENT E "s1" (regrade "A") (idle sampleDb) in
  r.1 = Throw (MongoTransactionError
                 "Cannot call abortTransaction after calling commitTransaction") /\
  response r.2 = None /\
  forwarded r.2 = None /\
  committed r.2 = sampleDb /\
  session r.2 = Committed.
Proof. vm_compute. repeat split. Qed.

(** The one failure that is not thrown: [IMPOSE_LATE_FINE] hands a missing
    student id or month to [next] before it opens a transaction. *)
Lemma impose_validation_forwards (E : Env) (db : Db) (s m : string) :
  entersTry (FineImposition s m) = false ->
  IMPOSE_LATE_FINE E s m (idle db) =
    (Ok tt,
     mkWorld db NoTransaction 0 None
       (Some (ApiError 400 "Student ID and month are required"))).
Proof.
  simpl. intros Hempty. apply negb_false_iff in Hempty.
  unfold IMPOSE_LATE_FINE. rewrite Hempty. reflexivity.
Qed.

(** * Further properties of the fee ledger *)

(** ** What a marking request leaves alone *)

Lemma findOneAndUpdate_frame (E : Env) (s m : string) (u : UpdateObj) (d : Db) :
  let d' := (findOneAndUpdate E s m u d).2 in
  Students d' = Students d /\ Classes d' = Classes d /\
  Subjects d' = Subjects d /\
  forall k, k <> (s, m) -> FeePayments d' !! k = FeePayments d !! k.
Proof.
  simpl. repeat split. intros k Hk. apply lookup_insert_ne. congruence.
Qed.

Lemma bulkWrite_frame (E : Env) (s : string) (status : option string)
    (adv : bool) (fee : Z) (ms : list string) :
  forall d,
    let d' := (bulkWrite E (bulkUpdateOps E s status adv fee ms) d).2 in
    Students d' = Students d /\ Classes d' = Classes d /\
    Subjects d' = Subjects d /\
    forall s' m', (s' <> s \/ m' ∉ ms) ->
      FeePayments d' !! (s', m') = FeePayments d !! (s', m').
Proof.
  induction ms as [|m ms IH]; intros d.
  - simpl. auto.
  - unfold bulkUpdateOps. simpl map. cbv zeta. rewrite bulkWrite_cons.
    simpl filter_student. simpl filter_month. simpl update.
    specialize (IH (findOneAndUpdate E s m
                      (bulkUpdateObj E s m status adv fee) d).2).
    cbv zeta in IH. unfold bulkUpdateOps in IH.
    destruct IH as (HS & HC & HJ & HF).
    repeat split; [rewrite HS; reflexivity|rewrite HC; reflexivity
                  |rewrite HJ; reflexivity|].
    intros s' m' Hout. rewrite HF.
    + simpl. apply lookup_insert_ne. intros Heq. inversion Heq; subst.
      destruct Hout as [Hs|Hm]; [congruence|]. apply Hm. left.
    + destruct Hout as [Hs|Hm]; [left; exact Hs|right].
      intros Hin. apply Hm. right. exact Hin.
Qed.

Lemma mark_frame (E : Env) (db : Db) (s : string)
    (months : Months) (status : option string) (adv : bool) :
  let after := dbAfter (MARK_FEE_PAYMENT_STATUS E s months status adv) db in
  Students after = Students db /\ Classes after = Classes db /\
  Subjects after = Subjects db /\
  forall s' m', (s' <> s \/ ~ listed months m') ->
    FeePayments after !! (s', m') = FeePayments db !! (s', m').
Proof.
  intros after.
  destruct (mark_outcome E db s months status adv) as [Hsame|(cls & _ & Hdb)];
    fold after in Hsame || fold after in Hdb.
  - rewrite Hsame. auto.
  - destruct months as [ms|m|]; [| |contradiction]; rewrite Hdb.
    + apply bulkWrite_frame.
    + destruct (findOneAndUpdate_frame E s m
                  (singleUpdateObj E s m status adv (js_or (ClassDoc.fee cls) 0))
                  db) as (HS & HC & HJ & HF).
      repeat split; auto.
      intros s' m' Hout. apply HF. intros Heq. inversion Heq; subst.
      destruct Hout as [Hs|Hm]; [congruence|]. apply Hm. reflexivity.
Qed.

(** X1.  Whatever its arguments and whatever the store does, a fee marking
    leaves students, classes and subjects as they were and touches no fee
    record other than those of the given student for the listed months. *)
Theorem mark_touches_only_listed (E : Env) (db : Db) (s : string)
    (months : Months) (status : option string) (adv : bool) :
  let after := dbAfter (MARK_FEE_PAYMENT_STATUS E s months status adv) db in
  Students after = Students db /\ Classes after = Classes db /\
  Subjects after = Subjects db /\
  forall s' m', (s' <> s \/ ~ listed months m') ->
    FeePayments after !! (s', m') = FeePayments db !! (s', m').
Proof. exact (mark_frame E db s months status adv). Qed.

(** ** How existing records evolve *)

Section Evolution.
Context (R : FeeDoc.t -> FeeDoc.t -> Prop).
Context (R_refl : forall r, R r r).
Context (R_trans : forall a b c, R a b -> R b c -> R a c).

Lemma evolves_refl (d : Db) : evolves R d d.
Proof. intros k r Hr. eauto. Qed.

Lemma evolves_trans (a b c : Db) : evolves R a b -> evolves R b c -> evolves R a c.
Proof.
  intros Hab Hbc k r Hr. destruct (Hab k r Hr) as (r1 & Hr1 & HR1).
  destruct (Hbc k r1 Hr1) as (r2 & Hr2 & HR2). eauto.
Qed.

Lemma findOneAndUpdate_evolves (E : Env) (s m : string) (u : UpdateObj) (d : Db) :
  (forall r, R r (applyUpdate u r)) ->
  evolves R d (findOneAndUpdate E s m u d).2.
Proof.
  intros Hu k r Hr. simpl. destruct (decide ((s, m) = k)) as [<-|Hne].
  - rewrite lookup_insert_eq, Hr. simpl. eauto.
  - rewrite lookup_insert_ne by exact Hne. eauto.
Qed.

Lemma bulkWrite_evolves (E : Env) (ops : list UpdateOne) :
  Forall (fun op => forall r, R r (applyUpdate (update op) r)) ops ->
  forall d, evolves R d (bulkWrite E ops d).2.
Proof.
  induction 1 as [|op rest Hop _ IH]; intros d.
  - apply evolves_refl.
  - rewrite bulkWrite_cons. eapply evolves_trans; [|apply IH].
    apply findOneAndUpdate_evolves, Hop.
Qed.

(** A relation that every marking update respects holds between each record
    and what a marking request, in either mode, makes of it. *)
Lemma mark_evolves (E : Env) (db : Db) (s : string) (months : Months)
    (status : option string) (adv : bool) :
  (forall m fee r,
     R r (applyUpdate (bulkUpdateObj E s m status adv fee) r) /\
     R r (applyUpdate (singleUpdateObj E s m status adv fee) r)) ->
  evolves R db (dbAfter (MARK_FEE_PAYMENT_STATUS E s months status adv) db).
Proof.
  intros Hu.
  destruct (mark_outcome E db s months status adv) as [Hsame|(cls & _ & Hdb)].
  - rewrite Hsame. apply evolves_refl.
  - destruct months as [ms|m|]; [| |contradiction]; rewrite Hdb.
    + apply bulkWrite_evolves. apply Forall_forall. intros op Hop.
      apply list_elem_of_In, in_map_iff in Hop. destruct Hop as (x & <- & _).
      intros r. apply Hu.
    + apply findOneAndUpdate_evolves. intros r. apply Hu.
Qed.

(** The same for the update of a fine imposition. *)
Lemma impose_evolves (E : Env) (db : Db) (s m : string) :
  (forall fee fine existing r,
     R r (applyUpdate (fineUpdateObj s m fee fine existing) r)) ->
  evolves R db (dbAfter (IMPOSE_LATE_FINE E s m) db).
Proof.
  intros Hu.
  destruct (impose_outcome E db s m) as [Hsame|(cls & _ & _ & Hdb)].
  - rewrite Hsame. apply evolves_refl.
  - rewrite Hdb.
    apply (findOneAndUpdate_evolves E s m
             (fineUpdateObj s m (js_nullish (ClassDoc.fee cls) 1000)
                (js_nullish (ClassDoc.lateFineAmount cls) 500)
                (FeePayments db !! (s, m))) db).
    intros r. apply Hu.
Qed.

End Evolution.

(** X2.  Fee marking never changes the fine amount of a record that exists:
    whatever the mode, the status and the store's behaviour, every record
    is still there afterwards with the [lateFineAmount] it had.  Paying a
    fined month does not clear the amount. *)
Theorem mark_keeps_fine_amount (E : Env) (db : Db) (s : string)
    (months : Months) (status : option string) (adv : bool) :
  evolves sameFineAmount db
    (dbAfter (MARK_FEE_PAYMENT_STATUS E s months status adv) db).
Proof.
  apply mark_evolves.
  - intros r. reflexivity.
  - unfold sameFineAmount. intros a b c Hab Hbc. congruence.
  - intros m fee r. split; reflexivity.
Qed.

(** On the fined sample: paying March leaves the fine of 100 on the record. *)
Example paying_keeps_the_fine :
  FeeDoc.lateFineAmount <$>
    feeAfter (MARK_FEE_PAYMENT_STATUS sampleEnv "s1" (MonthLabel "March")
                (Some "paid") false) sampleDbFined "s1" "March" =
  Some (Some 100).
Proof. vm_compute. reflexivity. Qed.

(** ** Bulk write summary *)

Lemma bulkWrite_counts (E : Env) (ops : list UpdateOne) :
  forall d,
    let r := (bulkWrite E ops d).1 in
    let d' := (bulkWrite E ops d).2 in
    (upsertedCount r + matchedCount r = length ops)%nat /\
    size (FeePayments d') = (size (FeePayments d) + upsertedCount r)%nat.
Proof.
  induction ops as [|op rest IH]; intros d.
  - simpl. split; [reflexivity|lia].
  - simpl.
    specialize (IH (with_FeePayments
                      (insert (filter_student op, filter_month op)
                         (upsertedDoc E (filter_student op) (filter_month op)
                            (update op)
                            (FeePayments d !! (filter_student op, filter_month op))))
                      d)).
    destruct (bulkWrite E rest _) as [r0 d2]. simpl in IH.
    destruct IH as [Hlen Hsize].
    destruct (FeePayments d !! (filter_student op, filter_month op)) as [old|] eqn:Hold.
    + rewrite bool_decide_eq_true_2 by eauto. simpl. split; [lia|].
      rewrite Hsize. erewrite map_size_insert_Some by eauto. reflexivity.
    + rewrite bool_decide_eq_false_2 by (intros [? ?]; discriminate). simpl.
      split; [lia|]. rewrite Hsize. rewrite map_size_insert_None by exact Hold.
      lia.
Qed.

Section MoreFaultlessRuns.
Context (E : Env) (Hnf : faultless E).

Ltac exec :=
  unfold responseAfter, dbAfter, MARK_FEE_PAYMENT_STATUS, mark_try,
    IMPOSE_LATE_FINE, impose_try, catch_with_conflict, bind, try_catch,
    startTransaction, commitTransaction, abortTransaction, inTransaction,
    res_json, dbRead, dbOp, throw, ret, idle;
  simpl; repeat (rewrite ?Hnf; simpl).

Lemma mark_unknown_student db s months status adv :
  Students db !! s = None ->
  MARK_FEE_PAYMENT_STATUS E s months status adv (idle db) =
    (Ok tt,
     mkWorld db Aborted 1
       (Some (mkResponse 404 (Failure "Student not found."))) None).
Proof. intros Hst. exec. rewrite Hst. exec. reflexivity. Qed.

Lemma mark_malformed_months db s status adv cls :
  hasClass db s cls ->
  MARK_FEE_PAYMENT_STATUS E s MonthsOther status adv (idle db) =
    (Ok tt,
     mkWorld db Aborted 2
       (Some (mkResponse 400 (Failure "Months must be a string or an array")))
       None).
Proof.
  intros (st & c & Hst & Hc & Hcls). exec. rewrite Hst. exec.
  rewrite Hc, Hcls. exec. reflexivity.
Qed.

Lemma impose_unresolved db s m :
  s <> "" -> m <> "" ->
  (forall cls, ~ hasClass db s cls) ->
  IMPOSE_LATE_FINE E s m (idle db) =
    (Ok tt,
     mkWorld db Aborted 1
       (Some (mkResponse 404 (Failure "Student or associated class not found")))
       None).
Proof.
  intros Hs Hm Hno. apply String.eqb_neq in Hs, Hm.
  exec. rewrite Hs, Hm. exec.
  destruct (Students db !! s) as [st|] eqn:Hst; exec; [|reflexivity].
  destruct (StudentDoc.studentClass st) as [c|] eqn:Hc; exec; [|reflexivity].
  destruct (Classes db !! c) as [cls|] eqn:Hcls; exec; [|reflexivity].
  exfalso. apply (Hno cls). exists st, c. auto.
Qed.

Lemma mark_bulk_response db s ms status adv cls :
  hasClass db s cls ->
  responseAfter (MARK_FEE_PAYMENT_STATUS E s (MonthList ms) status adv) db =
    Some (mkResponse 200
            (ApiResponse 200
               (BulkData
                  (bulkWrite E
                     (bulkUpdateOps E s status adv (js_or (ClassDoc.fee cls) 0) ms)
                     db).1)
               "Bulk fee payment status updated sucessfully")).
Proof.
  intros Hcls. unfold responseAfter.
  rewrite (mark_bulk_succeeds E Hnf db s ms status adv cls Hcls). reflexivity.
Qed.

End MoreFaultlessRuns.

(** X3.  A bulk marking of a non-empty list of months answers with the
    write summary of its upserts: inserted plus matched operations are as
    many as the listed months (a month listed twice is inserted once and
    matched once), the ledger grows by exactly the inserted count, and every
    listed month has a record afterwards. *)
Theorem bulk_summary_counts (E : Env) (db : Db) (s : string) (ms : list string)
    (status : option string) (adv : bool) (cls : ClassDoc.t) :
  faultless E ->
  hasClass db s cls ->
  ms <> [] ->
  let mark := MARK_FEE_PAYMENT_STATUS E s (MonthList ms) status adv in
  exists r,
    responseAfter mark db =
      Some (mkResponse 200
              (ApiResponse 200 (BulkData r)
                 "Bulk fee payment status updated sucessfully")) /\
    (upsertedCount r + matchedCount r = length ms)%nat /\
    size (FeePayments (dbAfter mark db)) =
      (size (FeePayments db) + upsertedCount r)%nat /\
    forall m, m ∈ ms -> is_Some (feeAfter mark db s m).
Proof.
  intros Hnf Hcls _ mark.
  eexists. split; [apply (mark_bulk_response E Hnf db s ms status adv cls Hcls)|].
  destruct (bulkWrite_counts E
              (bulkUpdateOps E s status adv (js_or (ClassDoc.fee cls) 0) ms) db)
    as [Hlen Hsize].
  split; [|split].
  - rewrite Hlen. unfold bulkUpdateOps. apply length_map.
  - unfold mark, dbAfter.
    rewrite (mark_bulk_succeeds E Hnf db s ms status adv cls Hcls). exact Hsize.
  - intros m Hm. rewrite feeAfter_dbAfter. unfold mark, dbAfter.
    rewrite (mark_bulk_succeeds E Hnf db s ms status adv cls Hcls). simpl.
    pose proof (bulk_sets_finePaid E s status adv cls ms db m (or_introl Hm)) as Hfp.
    destruct (FeePayments _ !! (s, m)); [eauto|discriminate Hfp].
Qed.

Lemma bulk_summary_counts_witness :
  let mark :=
    MARK_FEE_PAYMENT_STATUS sampleEnv "s1" (MonthList ["March"; "April"; "March"])
      (Some "paid") false in
  exists r,
    responseAfter mark sampleDbFined =
      Some (mkResponse 200
              (ApiResponse 200 (BulkData r)
                 "Bulk fee payment status updated sucessfully")) /\
    (upsertedCount r + matchedCount r = 3)%nat /\
    size (FeePayments (dbAfter mark sampleDbFined)) =
      (size (FeePayments sampleDbFined) + upsertedCount r)%nat /\
    forall m, m ∈ ["March"; "April"; "March"] ->
      is_Some (feeAfter mark sampleDbFined "s1" m).
Proof.
  apply (bulk_summary_counts sampleEnv sampleDbFined "s1"
           ["March"; "April"; "March"] (Some "paid") false
           (ClassDoc.mk (Some 500) (Some 100) ["s1"])).
  - intros n. reflexivity.
  - exists (sampleStudent (Some "cA")), "cA". repeat split; reflexivity.
  - discriminate.
Defined.

(** March is matched twice and April inserted once. *)
Example bulk_summary_on_sample :
  responseAfter
    (MARK_FEE_PAYMENT_STATUS sampleEnv "s1" (MonthList ["March"; "April"; "March"])
       (Some "paid") false) sampleDbFined =
  Some (mkResponse 200
          (ApiResponse 200 (BulkData (mkBulk 1 2))
             "Bulk fee payment status updated sucessfully")).
Proof. vm_compute. reflexivity. Qed.

(** X4.  The order of the checks of a fee marking.  An unknown student is
    answered 404 "Student not found." whatever the months are; a [months]
    that is neither a string nor an array is answered 400 only once the
    student and the class have been found.  Neither writes anything. *)
Theorem mark_rejections (E : Env) (db : Db) (s : string)
    (status : option string) (adv : bool) :
  faultless E ->
  (Students db !! s = None ->
   forall months,
     MARK_FEE_PAYMENT_STATUS E s months status adv (idle db) =
       (Ok tt,
        mkWorld db Aborted 1
          (Some (mkResponse 404 (Failure "Student not found."))) None)) /\
  (forall cls,
     hasClass db s cls ->
     MARK_FEE_PAYMENT_STATUS E s MonthsOther status adv (idle db) =
       (Ok tt,
        mkWorld db Aborted 2
          (Some (mkResponse 400 (Failure "Months must be a string or an array")))
          None)).
Proof.
  intros Hnf. split.
  - intros Hst months. apply (mark_unknown_student E Hnf), Hst.
  - intros cls Hcls. apply (mark_malformed_months E Hnf db s status adv cls Hcls).
Qed.

Lemma mark_rejections_witness :
  MARK_FEE_PAYMENT_STATUS sampleEnv "s7" MonthsOther (Some "paid") false
    (idle sampleDb) =
    (Ok tt,
     mkWorld sampleDb Aborted 1
       (Some (mkResponse 404 (Failure "Student not found."))) None) /\
  MARK_FEE_PAYMENT_STATUS sampleEnv "s1" MonthsOther (Some "paid") false
    (idle sampleDb) =
    (Ok tt,
     mkWorld sampleDb Aborted 2
       (Some (mkResponse 400 (Failure "Months must be a string or an array")))
       None).
Proof.
  destruct (mark_rejections sampleEnv sampleDb "s7" (Some "paid") false
              (fun n => eq_refl)) as [Hunknown _].
  destruct (mark_rejections sampleEnv sampleDb "s1" (Some "paid") false
              (fun n => eq_refl)) as [_ Hmalformed].
  split.
  - apply Hunknown. reflexivity.
  - apply (Hmalformed (ClassDoc.mk (Some 500) (Some 100) ["s1"])).
    exists (sampleStudent (Some "cA")), "cA". repeat split; reflexivity.
Defined.

(** ** Fine imposition: rejections, flags and frame *)

(** X5.  A fine for a student that does not exist, or whose class does not
    resolve to a class document, is answered 404 "Student or associated
    class not found" after the first lookup, and nothing is written. *)
Theorem impose_requires_student_and_class (E : Env) (db : Db) (s m : string) :
  faultless E -> s <> "" -> m <> "" ->
  (forall cls, ~ hasClass db s cls) ->
  IMPOSE_LATE_FINE E s m (idle db) =
    (Ok tt,
     mkWorld db Aborted 1
       (Some (mkResponse 404 (Failure "Student or associated class not found")))
       None).
Proof. intros Hnf. apply (impose_unresolved E Hnf). Qed.

Lemma impose_requires_student_and_class_witness :
  IMPOSE_LATE_FINE sampleEnv "s3" "March" (idle sampleDb) =
    (Ok tt,
     mkWorld sampleDb Aborted 1
       (Some (mkResponse 404 (Failure "Student or associated class not found")))
       None).
Proof.
  apply (impose_requires_student_and_class sampleEnv sampleDb "s3" "March").
  - intros n. reflexivity.
  - discriminate.
  - discriminate.
  - intros cls (st & c & Hst & Hc & Hcls).
    vm_compute in Hst. inversion Hst; subst st.
    vm_compute in Hc. inversion Hc; subst c.
    vm_compute in Hcls. discriminate Hcls.
Defined.

(** X6.  A fine that goes through always leaves the month outstanding:
    [lateFine] is true and [finePaid] is false whatever they were before
    (a fine that had been paid counts as unpaid again), and the status is
    the one the record had, or "not paid" for a new record. *)
Theorem impose_marks_outstanding (E : Env) (db : Db) (s m : string)
    (cls : ClassDoc.t) :
  faultless E -> s <> "" -> m <> "" ->
  hasClass db s cls ->
  isPaid (FeePayments db !! (s, m)) = false ->
  exists r,
    feeAfter (IMPOSE_LATE_FINE E s m) db s m = Some r /\
    FeeDoc.lateFine r = Some true /\
    FeeDoc.finePaid r = Some false /\
    FeeDoc.status r =
      match FeePayments db !! (s, m) with
      | Some old => FeeDoc.status old
      | None => Some "not paid"
      end.
Proof.
  intros Hnf Hs Hm Hcls Hunpaid.
  destruct (impose_succeeds E Hnf db s m cls Hs Hm Hcls Hunpaid) as [Hdb _].
  eexists. rewrite feeAfter_dbAfter, Hdb. simpl. rewrite lookup_insert_eq.
  split; [reflexivity|].
  destruct (FeePayments db !! (s, m)) as [old|]; simpl; [|auto].
  repeat split. case_bool_decide as Hfp; simpl; [exact Hfp|reflexivity].
Qed.

Lemma impose_marks_outstanding_witness :
  exists r,
    feeAfter (IMPOSE_LATE_FINE sampleEnv "s1" "March")
      (with_FeePayments (insert ("s1", "March") unpaidMarch) sampleDb)
      "s1" "March" = Some r /\
    FeeDoc.lateFine r = Some true /\
    FeeDoc.finePaid r = Some false /\
    FeeDoc.status r = Some "not paid".
Proof.
  destruct (impose_marks_outstanding sampleEnv
              (with_FeePayments (insert ("s1", "March") unpaidMarch) sampleDb)
              "s1" "March" (ClassDoc.mk (Some 500) (Some 100) ["s1"]))
    as (r & Hr & Hfine & Hpaid & Hstatus).
  - intros n. reflexivity.
  - discriminate.
  - discriminate.
  - exists (sampleStudent (Some "cA")), "cA". repeat split; reflexivity.
  - reflexivity.
  - exists r. split; [exact Hr|]. split; [exact Hfine|]. split; [exact Hpaid|].
    rewrite Hstatus. reflexivity.
Defined.

Lemma impose_frame_rest (E : Env) (db : Db) (s m : string) :
  let after := dbAfter (IMPOSE_LATE_FINE E s m) db in
  Students after = Students db /\ Classes after = Classes db /\
  Subjects after = Subjects db /\
  forall k, k <> (s, m) -> FeePayments after !! k = FeePayments db !! k.
Proof.
  intros after.
  destruct (impose_outcome E db s m) as [Hsame|(cls & _ & _ & Hdb)];
    fold after in Hsame || fold after in Hdb.
  - rewrite Hsame. auto.
  - rewrite Hdb.
    apply (findOneAndUpdate_frame E s m
             (fineUpdateObj s m (js_nullish (ClassDoc.fee cls) 1000)
                (js_nullish (ClassDoc.lateFineAmount cls) 500)
                (FeePayments db !! (s, m))) db).
Qed.

(** X7.  Whatever the store does, a fine imposition leaves students,
    classes and subjects as they were and touches no fee record other than
    the one of the given student and month. *)
Theorem impose_touches_only_its_record (E : Env) (db : Db) (s m : string) :
  let after := dbAfter (IMPOSE_LATE_FINE E s m) db in
  Students after = Students db /\ Classes after = Classes db /\
  Subjects after = Subjects db /\
  forall k, k <> (s, m) -> FeePayments after !! k = FeePayments db !! k.
Proof. exact (impose_frame_rest E db s m). Qed.

(** ** Fining, paying, fining again *)

(** X8.  A month without a record is fined and then marked as paid in
    single-month mode: the record ends up paid with [lateFine] cleared and
    [finePaid] set, it keeps the fine amount, and its [baseAmount] is the
    one the fine seeded (class fee, or 1000 when the class has none, not the
    0 a direct payment would seed).  A further fine is then refused with
    400 and changes nothing. *)
Theorem fine_then_pay (E : Env) (db : Db) (s m : string) (adv : bool)
    (cls : ClassDoc.t) :
  faultless E -> s <> "" -> m <> "" ->
  hasClass db s cls ->
  FeePayments db !! (s, m) = None ->
  let fined := dbAfter (IMPOSE_LATE_FINE E s m) db in
  let paid :=
    dbAfter (MARK_FEE_PAYMENT_STATUS E s (MonthLabel m) (Some "paid") adv) fined in
  (exists r,
     FeePayments paid !! (s, m) = Some r /\
     FeeDoc.status r = Some "paid" /\
     FeeDoc.lateFine r = Some false /\
     FeeDoc.finePaid r = Some true /\
     FeeDoc.lateFineAmount r = Some (js_nullish (ClassDoc.lateFineAmount cls) 500) /\
     FeeDoc.baseAmount r = Some (js_nullish (ClassDoc.fee cls) 1000)) /\
  IMPOSE_LATE_FINE E s m (idle paid) =
    (Ok tt,
     mkWorld paid Aborted 3
       (Some (mkResponse 400 (Failure "Cannot impose fine on already paid fee")))
       None).
Proof.
  intros Hnf Hs Hm Hcls Hnone fined paid.
  destruct (impose_succeeds E Hnf db s m cls Hs Hm Hcls) as [Hfined _].
  { rewrite Hnone. reflexivity. }
  fold fined in Hfined. rewrite Hnone in Hfined. simpl in Hfined.
  assert (Hcls1 : hasClass fined s cls) by (rewrite Hfined; exact Hcls).
  assert (Hpaid : paid =
    with_FeePayments
      (insert (s, m)
         (upsertedDoc E s m
            (singleUpdateObj E s m (Some "paid") adv (js_or (ClassDoc.fee cls) 0))
            (FeePayments fined !! (s, m)))) fined).
  { unfold paid, dbAfter.
    rewrite (mark_single_succeeds E Hnf fined s m (Some "paid") adv cls Hcls1).
    reflexivity. }
  assert (Hrec : FeePayments fined !! (s, m) =
                 Some (insertedDoc E s m
                         (fineUpdateObj s m (js_nullish (ClassDoc.fee cls) 1000)
                            (js_nullish (ClassDoc.lateFineAmount cls) 500) None))).
  { rewrite Hfined. simpl. apply lookup_insert_eq. }
  rewrite Hrec in Hpaid. simpl in Hpaid.
  split.
  - eexists. split; [rewrite Hpaid; simpl; apply lookup_insert_eq|].
    simpl. repeat split.
  - assert (Hcls2 : hasClass paid s cls) by (rewrite Hpaid; exact Hcls1).
    apply (impose_on_paid E Hnf paid s m cls Hs Hm Hcls2).
    rewrite Hpaid. simpl. rewrite lookup_insert_eq. reflexivity.
Qed.

Lemma fine_then_pay_witness :
  let fined := dbAfter (IMPOSE_LATE_FINE sampleEnv "s2" "March") sampleDb in
  let paid :=
    dbAfter (MARK_FEE_PAYMENT_STATUS sampleEnv "s2" (MonthLabel "March")
               (Some "paid") false) fined in
  (exists r,
     FeePayments paid !! ("s2", "March") = Some r /\
     FeeDoc.status r = Some "paid" /\
     FeeDoc.lateFine r = Some false /\
     FeeDoc.finePaid r = Some true /\
     FeeDoc.lateFineAmount r = Some 500 /\
     FeeDoc.baseAmount r = Some 1000) /\
  IMPOSE_LATE_FINE sampleEnv "s2" "March" (idle paid) =
    (Ok tt,
     mkWorld paid Aborted 3
       (Some (mkResponse 400 (Failure "Cannot impose fine on already paid fee")))
       None).
Proof.
  apply (fine_then_pay sampleEnv sampleDb "s2" "March" false
           (ClassDoc.mk None None ["s2"])).
  - intros n. reflexivity.
  - discriminate.
  - discriminate.
  - exists (sampleStudent (Some "cB")), "cB". repeat split; reflexivity.
  - reflexivity.
Defined.

(** ** The answer to a duplicate key *)





(** * Further properties of registration and student update *)

(** ** What the two handlers commit *)

Lemma update_try_ok (E : Env) (db : Db) (studentId : string) (b : UpdateBody.t)
    (w' : World) :
  update_try E studentId b (started db) = (Ok tt, w') ->
  exists existing,
    Students db !! studentId = Some existing /\
    keepsClass b existing /\
    committed w' = updatedDb studentId b existing db.
Proof.
  unfold update_try.
  match goal with |- context [if ?c then throw _ else _] => destruct c end;
    [discriminate|].
  unfold bind, dbRead, dbOp, started, commitTransaction, res_json. simpl.
  on_fault E.
  destruct (Students db !! studentId) as [existing|] eqn:Hst; simpl;
    [|discriminate].
  assert (Hkeep :
    (handleClassUpdate (UpdateBody.studentClass b) existing
       (mkWorld db (InProgress db) 1 None None)).1 = Ok tt ->
    keepsClass b existing).
  { unfold handleClassUpdate, keepsClass.
    destruct (truthy_str (UpdateBody.studentClass b)); [|auto].
    destruct (StudentDoc.studentClass existing) as [cur|]; [|discriminate].
    case_bool_decide as Hne; [discriminate|].
    intros _. right. destruct (decide (UpdateBody.studentClass b = Some cur));
      [assumption|contradiction]. }
  assert (Hclass :
    handleClassUpdate (UpdateBody.studentClass b) existing
      (mkWorld db (InProgress db) 1 None None) =
    ((handleClassUpdate (UpdateBody.studentClass b) existing
        (mkWorld db (InProgress db) 1 None None)).1,
     mkWorld db (InProgress db) 1 None None)).
  { unfold handleClassUpdate.
    destruct (truthy_str (UpdateBody.studentClass b)); [|reflexivity].
    destruct (StudentDoc.studentClass existing); [|reflexivity].
    case_bool_decide; reflexivity. }
  rewrite Hclass.
  destruct (handleClassUpdate _ _ _).1 as [[]|e]; [|discriminate].
  specialize (Hkeep eq_refl).
  match goal with
  | |- ?run = _ -> _ =>
      enough (Hgoal : run = (Ok tt, w') ->
                      committed w' = updatedDb studentId b existing db)
        by (intros Hrun; exists existing; auto)
  end.
  unfold handleSubjectsUpdate, updatedDb, subjectsAfterUpdate.
  destruct (UpdateBody.subjects b) as [newSubjects|]; cbv zeta.
  - generalize (filter (fun sub => sub ∉ StudentDoc.subjects existing) newSubjects).
    generalize (filter (fun sub => sub ∉ newSubjects) (StudentDoc.subjects existing)).
    intros toRemove toAdd. unfold bind, dbOp.
    destruct toAdd as [|a la]; destruct toRemove as [|r lr]; simpl;
      repeat on_fault E;
      match goal with
      | |- context [setStudentFields studentId b ?d] =>
          destruct (setStudentFields studentId b d) as [[data|] d2] eqn:Hset
      end; simpl; try discriminate; repeat on_fault E;
      intros Hrun; inversion Hrun; subst; cbn [committed];
      change d2 with (Some data, d2).2; rewrite <- Hset; reflexivity.
  - unfold bind, dbOp. simpl. on_fault E.
    destruct (setStudentFields studentId b db) as [[data|] d2] eqn:Hset;
      simpl; [|discriminate].
    on_fault E. intros Hrun. inversion Hrun; subst. cbn [committed].
    change d2 with (Some data, d2).2. rewrite <- Hset. reflexivity.
Qed.

(** Whatever the store does, [UPDATE_STUDENT] either leaves the committed
    database as it was or commits the update of a student that exists and
    keeps its class. *)
Lemma update_outcome (E : Env) (db : Db) (studentId : string) (b : UpdateBody.t) :
  dbAfter (UPDATE_STUDENT E studentId b) db = db \/
  exists existing,
    Students db !! studentId = Some existing /\
    keepsClass b existing /\
    dbAfter (UPDATE_STUDENT E studentId b) db = updatedDb studentId b existing db.
Proof.
  assert (Hh : UPDATE_STUDENT E studentId b (idle db) =
               try_catch (update_try E studentId b)
                 (catchBlock (StudentUpdate studentId b)) (started db))
    by reflexivity.
  destruct (update_try E studentId b (started db)) as [[[]|e] w'] eqn:Hrun.
  - right. destruct (update_try_ok E db studentId b w' Hrun)
      as (existing & Hst & Hkeep & Hw).
    exists existing. repeat split; auto.
    unfold dbAfter. rewrite Hh. unfold try_catch. rewrite Hrun. exact Hw.
  - left.
    destruct (fails_update_try E studentId b (started db) db e w' eq_refl eq_refl
                Hrun) as ([[d Hd]|Hcommitted] & Hc & Hr & _).
    + apply (handler_catches E db (StudentUpdate studentId b) e w' eq_refl Hrun).
      right. eauto.
    + destruct (update_unanswered_after_failed_commit E db studentId b e w' Hrun
                  Hcommitted) as (Hfinal & _ & Hdb).
      unfold dbAfter. rewrite Hfinal. exact Hdb.
Qed.

Lemma register_try_ok (E : Env) (db : Db) (b : RegisterBody.t)
    (photo : option string) (w' : World) :
  register_try E b photo (started db) = (Ok tt, w') ->
  exists c,
    RegisterBody.studentClass b = Some c /\
    is_Some (Classes db !! c) /\
    emailTaken (RegisterBody.email b) db = false /\
    committed w' = registeredDb E b photo c db.
Proof.
  unfold register_try, bind, dbRead, dbOp, started, commitTransaction, res_json.
  simpl. on_fault E.
  destruct (emailTaken (RegisterBody.email b) db) eqn:Hemail; simpl;
    [discriminate|].
  on_fault E.
  destruct (RegisterBody.studentClass b) as [c|] eqn:Hc; simpl; [|discriminate].
  destruct (Classes db !! c) as [cls|] eqn:Hcls; simpl; [|discriminate].
  on_fault E. on_fault E. rewrite lookup_insert_eq. simpl.
  on_fault E. on_fault E.
  intros Hrun. inversion Hrun; subst; simpl.
  exists c. repeat split; eauto.
  unfold registeredDb. simpl. rewrite Hc. reflexivity.
Qed.

Lemma register_outcome (E : Env) (db : Db) (b : RegisterBody.t)
    (photo : option string) :
  dbAfter (REGISTER_STUDENT E b photo) db = db \/
  exists c,
    RegisterBody.studentClass b = Some c /\
    is_Some (Classes db !! c) /\
    emailTaken (RegisterBody.email b) db = false /\
    dbAfter (REGISTER_STUDENT E b photo) db = registeredDb E b photo c db.
Proof.
  assert (Hh : REGISTER_STUDENT E b photo (idle db) =
               try_catch (register_try E b photo) catch_with_conflict
                 (started db)) by reflexivity.
  destruct (register_try E b photo (started db)) as [[[]|e] w'] eqn:Hrun.
  - right. destruct (register_try_ok E db b photo w' Hrun)
      as (c & Hc & Hcls & Hemail & Hw).
    exists c. repeat split; auto.
    unfold dbAfter. rewrite Hh. unfold try_catch. rewrite Hrun. exact Hw.
  - left.
    apply (handler_catches E db (Registration b photo) e w' eq_refl Hrun).
    left. reflexivity.
Qed.

Section FaultlessMembership.
Context (E : Env) (Hnf : faultless E).

Lemma update_try_succeeds db studentId b existing :
  noFields b = false ->
  Students db !! studentId = Some existing ->
  keepsClass b existing ->
  exists w' data,
    update_try E studentId b (started db) = (Ok tt, w') /\
    response w' =
      Some (mkResponse 200
              (ApiResponse 200 data "Student details updated successfully.")).
Proof.
  intros Hfields Hst Hkeep.
  assert (Hclass : forall w,
    handleClassUpdate (UpdateBody.studentClass b) existing w = (Ok tt, w)).
  { intros w. unfold handleClassUpdate. destruct Hkeep as [Hfalsy|Hsame].
    - rewrite Hfalsy. reflexivity.
    - rewrite <- Hsame.
      destruct (UpdateBody.studentClass b) as [cur|]; [|reflexivity].
      destruct (truthy_str (Some cur)); [|reflexivity].
      rewrite bool_decide_eq_false_2 by (intros Hne; apply Hne; reflexivity).
      reflexivity. }
  unfold update_try. fold (noFields b). rewrite Hfields.
  unfold bind at 1, dbRead, started. unfold dbOp at 1. simpl.
  rewrite Hnf, Hst. simpl. unfold bind at 1. rewrite Hclass.
  unfold handleSubjectsUpdate.
  destruct (UpdateBody.subjects b) as [newSubjects|]; cbv zeta.
  - generalize (filter (fun sub => sub ∉ StudentDoc.subjects existing) newSubjects).
    generalize (filter (fun sub => sub ∉ newSubjects) (StudentDoc.subjects existing)).
    intros toRemove toAdd.
    destruct toAdd as [|a la]; destruct toRemove as [|r lr];
      unfold bind, dbOp, setStudentFields, commitTransaction, res_json, ret;
      simpl; repeat (rewrite ?Hnf, ?Hst; simpl);
      eexists; eexists; split; reflexivity.
  - unfold bind, dbOp, setStudentFields, commitTransaction, res_json, ret.
    simpl. repeat (rewrite ?Hnf, ?Hst; simpl).
    eexists. eexists. split; reflexivity.
Qed.

Lemma update_succeeds db studentId b existing :
  noFields b = false ->
  Students db !! studentId = Some existing ->
  keepsClass b existing ->
  dbAfter (UPDATE_STUDENT E studentId b) db = updatedDb studentId b existing db /\
  exists data,
    responseAfter (UPDATE_STUDENT E studentId b) db =
      Some (mkResponse 200
              (ApiResponse 200 data "Student details updated successfully.")).
Proof.
  intros Hfields Hst Hkeep.
  destruct (update_try_succeeds db studentId b existing Hfields Hst Hkeep)
    as (w' & data & Hrun & Hresp).
  destruct (update_try_ok E db studentId b w' Hrun) as (ex & Hex & _ & Hw).
  assert (ex = existing) by congruence. subst ex.
  assert (Hh : UPDATE_STUDENT E studentId b (idle db) = (Ok tt, w')).
  { unfold UPDATE_STUDENT. unfold bind at 1, try_catch. simpl.
    fold (started db). rewrite Hrun. reflexivity. }
  split.
  - unfold dbAfter. rewrite Hh. exact Hw.
  - exists data. unfold responseAfter. rewrite Hh. exact Hresp.
Qed.



Lemma register_email_taken db b photo :
  emailTaken (RegisterBody.email b) db = true ->
  REGISTER_STUDENT E b photo (idle db) =
    (Ok tt,
     mkWorld db Aborted 1
       (Some (mkResponse 400 (Failure "Student already exists"))) None).
Proof.
  intros Hemail.
  unfold REGISTER_STUDENT, register_try, catch_with_conflict, bind, try_catch,
    startTransaction, abortTransaction, inTransaction, res_json, dbRead, dbOp,
    throw, ret, idle.
  simpl. rewrite Hnf. simpl. rewrite Hemail. reflexivity.
Qed.

Lemma register_unknown_class db b photo :
  emailTaken (RegisterBody.email b) db = false ->
  match RegisterBody.studentClass b with
  | Some c => Classes db !! c
  | None => None
  end = None ->
  REGISTER_STUDENT E b photo (idle db) =
    (Ok tt,
     mkWorld db Aborted 2
       (Some (mkResponse 400 (Failure "Invalid class assigned to student")))
       None).
Proof.
  intros Hemail Hcls.
  unfold REGISTER_STUDENT, register_try, catch_with_conflict, bind, try_catch,
    startTransaction, abortTransaction, inTransaction, res_json, dbRead, dbOp,
    throw, ret, idle.
  simpl. rewrite Hnf. simpl. rewrite Hemail. simpl. rewrite Hnf. simpl.
  destruct (RegisterBody.studentClass b) as [c|]; [|reflexivity].
  rewrite Hcls. reflexivity.
Qed.

Lemma update_no_fields db studentId b :
  noFields b = true ->
  UPDATE_STUDENT E studentId b (idle db) =
    (Ok tt,
     mkWorld db Aborted 0
       (Some (mkResponse 400 (Failure "No fields to update"))) None).
Proof.
  intros Hfields. unfold UPDATE_STUDENT, update_try. fold (noFields b).
  rewrite Hfields. reflexivity.
Qed.

Lemma update_unknown_student db studentId b :
  noFields b = false ->
  Students db !! studentId = None ->
  UPDATE_STUDENT E studentId b (idle db) =
    (Ok tt,
     mkWorld db Aborted 1
       (Some (mkResponse 404 (Failure "Student not found."))) None).
Proof.
  intros Hfields Hst. unfold UPDATE_STUDENT, update_try. fold (noFields b).
  rewrite Hfields.
  unfold bind, try_catch, startTransaction, abortTransaction, res_json, dbRead,
    dbOp, throw, idle.
  simpl. rewrite Hnf. simpl. rewrite Hst. reflexivity.
Qed.

End FaultlessMembership.

(** ** The two array operators *)

Lemma elem_of_pull (id x : string) (l : list string) :
  x ∈ pull id l <-> x ∈ l /\ x <> id.
Proof. unfold pull. rewrite list_elem_of_filter. tauto. Qed.

Lemma NoDup_pull (id : string) (l : list string) : NoDup l -> NoDup (pull id l).
Proof. apply NoDup_filter. Qed.

Lemma elem_of_addToSet (id x : string) (l : list string) :
  x ∈ addToSet id l <-> x ∈ l \/ x = id.
Proof.
  unfold addToSet. case_bool_decide as Hin.
  - split; [auto|]. intros [Hx| ->]; assumption.
  - rewrite elem_of_app, list_elem_of_singleton. tauto.
Qed.

Lemma NoDup_addToSet (id : string) (l : list string) :
  NoDup l -> NoDup (addToSet id l).
Proof.
  intros Hl. unfold addToSet. case_bool_decide as Hin; [exact Hl|].
  apply NoDup_app. repeat split; [exact Hl| |apply NoDup_singleton].
  intros x Hx Hx'. apply list_elem_of_singleton in Hx'. subst x. contradiction.
Qed.

(** ** The subject part of an update, document by document *)

(** What the subject part of an update makes of the student list of
    subject [k]. *)
Lemma subjectsAfterUpdate_lookup (studentId : string)
    (subjects : option (list string)) (existing : StudentDoc.t) (d : Db)
    (k : string) :
  let d' := subjectsAfterUpdate studentId subjects existing d in
  Students d' = Students d /\ Classes d' = Classes d /\
  FeePayments d' = FeePayments d /\
  Subjects d' !! k =
    (fun sub =>
       SubjectDoc.mk
         (match subjects with
          | None => SubjectDoc.students sub
          | Some new =>
              if bool_decide (k ∈ new /\ k ∉ StudentDoc.subjects existing)
              then addToSet studentId (SubjectDoc.students sub)
              else if bool_decide (k ∈ StudentDoc.subjects existing /\ k ∉ new)
                   then pull studentId (SubjectDoc.students sub)
                   else SubjectDoc.students sub
          end)) <$> Subjects d !! k.
Proof.
  unfold subjectsAfterUpdate. destruct subjects as [new|]; cbv zeta.
  2: { repeat split. destruct (Subjects d !! k) as [[l]|]; reflexivity. }
  set (old := StudentDoc.subjects existing).
  assert (Hadd : forall x, x ∈ filter (fun sub => sub ∉ old) new <-> x ∈ new /\ x ∉ old)
    by (intros x; rewrite list_elem_of_filter; tauto).
  assert (Hrem : forall x, x ∈ filter (fun sub => sub ∉ new) old <-> x ∈ old /\ x ∉ new)
    by (intros x; rewrite list_elem_of_filter; tauto).
  revert Hadd Hrem.
  generalize (filter (fun sub => sub ∉ old) new).
  generalize (filter (fun sub => sub ∉ new) old).
  intros toRemove toAdd Hadd Hrem.
  assert (Hexcl : k ∈ toAdd -> k ∈ toRemove -> False).
  { intros Ha Hr. apply Hadd in Ha. apply Hrem in Hr. tauto. }
  assert (Hlookup : forall ids f d0,
    Subjects (updateManySubjects ids f d0).2 !! k =
    (fun sub => if bool_decide (k ∈ ids)
                then SubjectDoc.mk (f (SubjectDoc.students sub)) else sub)
      <$> Subjects d0 !! k).
  { intros ids f d0. simpl. rewrite map_lookup_imap.
    destruct (Subjects d0 !! k); reflexivity. }
  assert (Hdec_add : bool_decide (k ∈ new /\ k ∉ old) = bool_decide (k ∈ toAdd))
    by (apply bool_decide_ext; symmetry; apply Hadd).
  assert (Hdec_rem : bool_decide (k ∈ old /\ k ∉ new) = bool_decide (k ∈ toRemove))
    by (apply bool_decide_ext; symmetry; apply Hrem).
  rewrite Hdec_add, Hdec_rem. clear Hdec_add Hdec_rem Hadd Hrem.
  destruct toAdd as [|a la]; destruct toRemove as [|r lr].
  - repeat split. destruct (Subjects d !! k) as [[l]|]; reflexivity.
  - repeat split. rewrite Hlookup.
    rewrite (bool_decide_eq_false_2 (k ∈ [])) by apply not_elem_of_nil.
    destruct (Subjects d !! k) as [[l]|]; simpl; [|reflexivity].
    case_bool_decide; reflexivity.
  - repeat split. rewrite Hlookup.
    rewrite (bool_decide_eq_false_2 (k ∈ [])) by apply not_elem_of_nil.
    destruct (Subjects d !! k) as [[l]|]; simpl; [|reflexivity].
    case_bool_decide; reflexivity.
  - repeat split. rewrite !Hlookup.
    destruct (Subjects d !! k) as [[l]|]; simpl; [|reflexivity].
    destruct (bool_decide (k ∈ a :: la)) eqn:Ha;
      destruct (bool_decide (k ∈ r :: lr)) eqn:Hr; simpl; try reflexivity.
    apply bool_decide_eq_true in Ha. apply bool_decide_eq_true in Hr.
    destruct (Hexcl Ha Hr).
Qed.

(** ** Consistency of the back-references *)

Lemma updatedDb_shape (studentId : string) (b : UpdateBody.t)
    (existing : StudentDoc.t) (db : Db) :
  Students db !! studentId = Some existing ->
  exists st',
    StudentDoc.subjects st' =
      match UpdateBody.subjects b with
      | Some l => l
      | None => StudentDoc.subjects existing
      end /\
    StudentDoc.studentClass st' =
      patched (UpdateBody.studentClass b) (StudentDoc.studentClass existing) /\
    StudentDoc.email st' = StudentDoc.email existing /\
    StudentDoc.password st' = StudentDoc.password existing /\
    Students (updatedDb studentId b existing db) =
      <[studentId := st']> (Students db) /\
    Classes (updatedDb studentId b existing db) = Classes db /\
    FeePayments (updatedDb studentId b existing db) = FeePayments db /\
    Subjects (updatedDb studentId b existing db) =
      Subjects (subjectsAfterUpdate studentId (UpdateBody.subjects b) existing db).
Proof.
  intros Hst. unfold updatedDb, setStudentFields.
  destruct (subjectsAfterUpdate_lookup studentId (UpdateBody.subjects b) existing
              db "") as (HS & HC & HF & _).
  cbv zeta in HS, HC, HF. rewrite HS, Hst. cbn [snd].
  match goal with |- context [with_Students (insert _ ?s) _] => exists s end.
  repeat split; try reflexivity; simpl; congruence.
Qed.

Lemma subjectLinked_update (studentId : string) (b : UpdateBody.t)
    (existing : StudentDoc.t) (db : Db) :
  subjectLinked db ->
  Students db !! studentId = Some existing ->
  subjectLinked (updatedDb studentId b existing db).
Proof.
  intros Hlinked Hst k sub' Hsub'.
  destruct (updatedDb_shape studentId b existing db Hst)
    as (st' & Hsubs & _ & _ & _ & HS & _ & _ & HJ).
  rewrite HJ in Hsub'.
  destruct (subjectsAfterUpdate_lookup studentId (UpdateBody.subjects b) existing
              db k) as (_ & _ & _ & Hk).
  cbv zeta in Hk. rewrite Hk in Hsub'.
  destruct (Subjects db !! k) as [sub|] eqn:Hsub; [|discriminate].
  simpl in Hsub'. inversion Hsub'; subst sub'; clear Hsub'. simpl.
  destruct (Hlinked k sub Hsub) as [Hnodup Hlink].
  assert (Hself : studentId ∈ SubjectDoc.students sub <->
                  k ∈ StudentDoc.subjects existing).
  { rewrite Hlink. split.
    - intros (st & Hst' & Hk'). congruence.
    - intros Hk'. eauto. }
  assert (Hother : forall id, id <> studentId ->
    ((exists st, <[studentId := st']> (Students db) !! id = Some st /\
                 k ∈ StudentDoc.subjects st) <->
     id ∈ SubjectDoc.students sub)).
  { intros id Hne. rewrite lookup_insert_ne by congruence. symmetry. apply Hlink. }
  assert (Hmine :
    (exists st, <[studentId := st']> (Students db) !! studentId = Some st /\
                k ∈ StudentDoc.subjects st) <->
    k ∈ StudentDoc.subjects st').
  { rewrite lookup_insert_eq. split.
    - intros (st & Heq & Hk'). congruence.
    - intros Hk'. eauto. }
  rewrite HS.
  destruct (UpdateBody.subjects b) as [new|].
  - case_bool_decide as Hadd; [|case_bool_decide as Hrem].
    + split; [apply NoDup_addToSet, Hnodup|]. intros id.
      rewrite elem_of_addToSet.
      destruct (decide (id = studentId)) as [->|Hne].
      * rewrite Hmine, Hsubs. tauto.
      * rewrite (Hother id Hne). tauto.
    + split; [apply NoDup_pull, Hnodup|]. intros id.
      rewrite elem_of_pull.
      destruct (decide (id = studentId)) as [->|Hne].
      * rewrite Hmine, Hsubs. tauto.
      * rewrite (Hother id Hne). tauto.
    + split; [exact Hnodup|]. intros id.
      destruct (decide (id = studentId)) as [->|Hne].
      * rewrite Hmine, Hsubs, Hself.
        destruct (decide (k ∈ new)); destruct (decide (k ∈ StudentDoc.subjects existing));
          tauto.
      * rewrite (Hother id Hne). tauto.
  - split; [exact Hnodup|]. intros id.
    destruct (decide (id = studentId)) as [->|Hne].
    + rewrite Hmine, Hsubs, Hself. tauto.
    + rewrite (Hother id Hne). tauto.
Qed.

Lemma keepsClass_patched (b : UpdateBody.t) (existing : StudentDoc.t) :
  UpdateBody.studentClass b <> Some "" ->
  keepsClass b existing ->
  patched (UpdateBody.studentClass b) (StudentDoc.studentClass existing) =
    StudentDoc.studentClass existing.
Proof.
  intros Hne [Hfalsy|Hsame].
  - destruct (UpdateBody.studentClass b) as [c|]; [|reflexivity].
    simpl in Hfalsy. apply negb_false_iff, String.eqb_eq in Hfalsy.
    congruence.
  - rewrite Hsame. destruct (StudentDoc.studentClass existing); reflexivity.
Qed.

Lemma classLinked_update (studentId : string) (b : UpdateBody.t)
    (existing : StudentDoc.t) (db : Db) :
  UpdateBody.studentClass b <> Some "" ->
  keepsClass b existing ->
  classLinked db ->
  Students db !! studentId = Some existing ->
  classLinked (updatedDb studentId b existing db).
Proof.
  intros Hne Hkeep Hlinked Hst c cls Hcls.
  destruct (updatedDb_shape studentId b existing db Hst)
    as (st' & _ & Hclass & _ & _ & HS & HC & _ & _).
  rewrite (keepsClass_patched b existing Hne Hkeep) in Hclass.
  rewrite HC in Hcls. destruct (Hlinked c cls Hcls) as [Hnodup Hlink].
  split; [exact Hnodup|]. intros id. rewrite Hlink, HS.
  destruct (decide (id = studentId)) as [->|Hid].
  - rewrite lookup_insert_eq. split.
    + intros (st & Heq & Hc). exists st'. split; [reflexivity|]. congruence.
    + intros (st & Heq & Hc). exists existing. split; [exact Hst|]. congruence.
  - rewrite lookup_insert_ne by congruence. reflexivity.
Qed.

Lemma registeredDb_shape (E : Env) (b : RegisterBody.t) (photo : option string)
    (c : string) (db : Db) :
  RegisterBody.studentClass b = Some c ->
  exists doc,
    StudentDoc.studentClass doc = Some c /\
    StudentDoc.subjects doc = [] /\
    StudentDoc.email doc = RegisterBody.email b /\
    StudentDoc.password doc = bcryptHash E <$> RegisterBody.password b /\
    StudentDoc.role doc = Some "student" /\
    StudentDoc.profilePhoto doc = photo /\
    Students (registeredDb E b photo c db) =
      <[newObjectId E := doc]> (Students db) /\
    Classes (registeredDb E b photo c db) =
      alter (fun cls =>
               ClassDoc.mk (ClassDoc.fee cls) (ClassDoc.lateFineAmount cls)
                 (ClassDoc.students cls ++ [newObjectId E])) c (Classes db) /\
    Subjects (registeredDb E b photo c db) = Subjects db /\
    FeePayments (registeredDb E b photo c db) = FeePayments db.
Proof.
  intros Hc. unfold registeredDb, pushStudent, createStudent. cbn [snd].
  match goal with |- context [with_Students (insert _ ?s) _] => exists s end.
  repeat split; try reflexivity. simpl. exact Hc.
Qed.

Lemma classLinked_register (E : Env) (b : RegisterBody.t) (photo : option string)
    (c : string) (db : Db) :
  RegisterBody.studentClass b = Some c ->
  freshId E db ->
  classLinked db ->
  classLinked (registeredDb E b photo c db).
Proof.
  intros Hc Hfresh Hlinked c' cls' Hcls'.
  destruct (registeredDb_shape E b photo c db Hc)
    as (doc & Hclass & _ & _ & _ & _ & _ & HS & HC & _ & _).
  rewrite HC in Hcls'. rewrite HS.
  assert (Hnew : forall k cls, Classes db !! k = Some cls ->
                   newObjectId E ∉ ClassDoc.students cls).
  { intros k cls Hk Hin. destruct (Hlinked k cls Hk) as [_ Hlink].
    apply Hlink in Hin. destruct Hin as (st & Hst & _).
    unfold freshId in Hfresh. congruence. }
  destruct (decide (c' = c)) as [->|Hother].
  - rewrite lookup_alter_eq in Hcls'.
    destruct (Classes db !! c) as [cls|] eqn:Hcls; [|discriminate].
    simpl in Hcls'. inversion Hcls'; subst cls'; clear Hcls'. simpl.
    destruct (Hlinked c cls Hcls) as [Hnodup Hlink].
    split.
    + apply NoDup_app. split; [exact Hnodup|]. split.
      * intros x Hx Hx'. apply list_elem_of_singleton in Hx'. subst x.
        exact (Hnew c cls Hcls Hx).
      * apply NoDup_singleton.
    + intros id. rewrite elem_of_app, list_elem_of_singleton, Hlink.
      destruct (decide (id = newObjectId E)) as [->|Hid].
      * rewrite lookup_insert_eq. split; [eauto|]. intros _. right. reflexivity.
      * rewrite lookup_insert_ne by congruence. tauto.
  - rewrite lookup_alter_ne in Hcls' by congruence.
    destruct (Hlinked c' cls' Hcls') as [Hnodup Hlink].
    split; [exact Hnodup|]. intros id. rewrite Hlink.
    destruct (decide (id = newObjectId E)) as [->|Hid].
    + rewrite lookup_insert_eq. unfold freshId in Hfresh. rewrite Hfresh. split.
      * intros (st & Hst & _). discriminate.
      * intros (st & Hst & Hc'). congruence.
    + rewrite lookup_insert_ne by congruence. reflexivity.
Qed.

Lemma subjectLinked_register (E : Env) (b : RegisterBody.t)
    (photo : option string) (c : string) (db : Db) :
  RegisterBody.studentClass b = Some c ->
  freshId E db ->
  subjectLinked db ->
  subjectLinked (registeredDb E b photo c db).
Proof.
  intros Hc Hfresh Hlinked k sub Hsub.
  destruct (registeredDb_shape E b photo c db Hc)
    as (doc & _ & Hnone & _ & _ & _ & _ & HS & _ & HJ & _).
  rewrite HJ in Hsub. rewrite HS.
  destruct (Hlinked k sub Hsub) as [Hnodup Hlink].
  split; [exact Hnodup|]. intros id. rewrite Hlink.
  destruct (decide (id = newObjectId E)) as [->|Hid].
  - rewrite lookup_insert_eq. unfold freshId in Hfresh. rewrite Hfresh. split.
    + intros (st & Hst & _). discriminate.
    + intros (st & Hst & Hin). inversion Hst; subst st.
      rewrite Hnone in Hin. inversion Hin.
  - rewrite lookup_insert_ne by congruence. reflexivity.
Qed.

Lemma linked_same (d d' : Db) :
  Students d' = Students d -> Classes d' = Classes d ->
  Subjects d' = Subjects d -> linked d -> linked d'.
Proof.
  intros HS HC HJ [Hclass Hsubject]. split.
  - intros c cls. rewrite HC, HS. apply Hclass.
  - intros k sub. rewrite HJ, HS. apply Hsubject.
Qed.


(** The sample database with subjects is consistent. *)
Lemma sampleDbSubjects_linked : linked sampleDbSubjects.
Proof.
  split.
  - intros c cls Hcls. unfold sampleDbSubjects in Hcls. simpl in Hcls.
    apply lookup_insert_Some in Hcls as [[<- <-]|[_ Hcls]];
      [|apply lookup_insert_Some in Hcls as [[<- <-]|[_ Hcls]];
        [|rewrite lookup_empty in Hcls; discriminate]].
    + split; [apply NoDup_singleton|]. intros id. simpl.
      rewrite list_elem_of_singleton. split.
      * intros ->. eexists. split; reflexivity.
      * intros (st & Hst & Hc).
        apply lookup_insert_Some in Hst as [[<- <-]|[_ Hst]]; [reflexivity|].
        apply lookup_insert_Some in Hst as [[<- <-]|[_ Hst]]; [discriminate|].
        rewrite lookup_empty in Hst. discriminate.
    + split; [apply NoDup_singleton|]. intros id. simpl.
      rewrite list_elem_of_singleton. split.
      * intros ->. eexists. split; reflexivity.
      * intros (st & Hst & Hc).
        apply lookup_insert_Some in Hst as [[<- <-]|[_ Hst]]; [discriminate|].
        apply lookup_insert_Some in Hst as [[<- <-]|[_ Hst]]; [reflexivity|].
        rewrite lookup_empty in Hst. discriminate.
  - intros k sub Hsub. unfold sampleDbSubjects in Hsub. simpl in Hsub.
    apply lookup_insert_Some in Hsub as [[<- <-]|[Hk Hsub]];
      [|apply lookup_insert_Some in Hsub as [[<- <-]|[_ Hsub]];
        [|rewrite lookup_empty in Hsub; discriminate]].
    + split; [apply NoDup_singleton|]. intros id. simpl.
      rewrite list_elem_of_singleton. split.
      * intros ->. eexists. split; [reflexivity|]. simpl. left.
      * intros (st & Hst & Hin).
        apply lookup_insert_Some in Hst as [[<- <-]|[_ Hst]]; [reflexivity|].
        apply lookup_insert_Some in Hst as [[<- <-]|[_ Hst]];
          [inversion Hin|].
        rewrite lookup_empty in Hst. discriminate.
    + split; [apply NoDup_nil_2|]. intros id. simpl. split.
      * intros Hin. inversion Hin.
      * intros (st & Hst & Hin).
        apply lookup_insert_Some in Hst as [[<- <-]|[_ Hst]].
        { simpl in Hin. apply list_elem_of_singleton in Hin. discriminate. }
        apply lookup_insert_Some in Hst as [[<- <-]|[_ Hst]];
          [inversion Hin|].
        rewrite lookup_empty in Hst. discriminate.
Qed.

(** X10.  The four write handlers keep the back-references consistent.  If
    every class lists exactly the students whose [studentClass] it is and
    every subject exactly the students that take it, each without
    repetition, the same holds for the database a registration, a student
    update, a fee marking or a fine imposition leaves behind, whatever the
    store does on the way.  A registration needs an unused id, an update a
    class name that is not the empty string. *)
Theorem backrefs_stay_consistent (E : Env) (db : Db) (wf : Workflow) :
  wellPosed E db wf ->
  linked db ->
  linked (dbAfter (handler E wf) db).
Proof.
  intros Hposed Hlinked.
  destruct wf as [b photo|studentId b|s months status adv|s m]; simpl handler.
  - destruct (register_outcome E db b photo) as [->|(c & Hc & _ & _ & ->)];
      [exact Hlinked|].
    destruct Hlinked as [Hclass Hsubject]. split.
    + apply classLinked_register; assumption.
    + apply subjectLinked_register; assumption.
  - destruct (update_outcome E db studentId b)
      as [->|(existing & Hst & Hkeep & ->)]; [exact Hlinked|].
    destruct Hlinked as [Hclass Hsubject]. split.
    + apply classLinked_update; assumption.
    + apply subjectLinked_update; assumption.
  - destruct (mark_frame E db s months status adv) as (HS & HC & HJ & _).
    exact (linked_same _ _ HS HC HJ Hlinked).
  - destruct (impose_frame_rest E db s m) as (HS & HC & HJ & _).
    exact (linked_same _ _ HS HC HJ Hlinked).
Qed.

Lemma backrefs_stay_consistent_witness :
  wellPosed sampleEnv sampleDbSubjects (StudentUpdate "s1" (resubject ["art"])) /\
  linked sampleDbSubjects /\
  linked (dbAfter (handler sampleEnv (StudentUpdate "s1" (resubject ["art"])))
            sampleDbSubjects).
Proof.
  assert (Hposed : wellPosed sampleEnv sampleDbSubjects
                     (StudentUpdate "s1" (resubject ["art"])))
    by (simpl; discriminate).
  split; [exact Hposed|]. split; [exact sampleDbSubjects_linked|].
  exact (backrefs_stay_consistent sampleEnv sampleDbSubjects
           (StudentUpdate "s1" (resubject ["art"])) Hposed
           sampleDbSubjects_linked).
Defined.

(** On the sample, the update moves [s1] from [maths] to [art]. *)
Example resubject_moves_student :
  let after := dbAfter (UPDATE_STUDENT sampleEnv "s1" (resubject ["art"]))
                 sampleDbSubjects in
  SubjectDoc.students <$> Subjects after !! "maths" = Some [] /\
  SubjectDoc.students <$> Subjects after !! "art" = Some ["s1"] /\
  StudentDoc.subjects <$> Students after !! "s1" = Some ["art"].
Proof. vm_compute. repeat split; reflexivity. Qed.

(** ** What a registration writes *)

Lemma register_writes (E : Env) (db : Db) (b : RegisterBody.t)
    (photo : option string) :
  let after := dbAfter (REGISTER_STUDENT E b photo) db in
  after = db \/
  exists c cls doc,
    RegisterBody.studentClass b = Some c /\
    Classes db !! c = Some cls /\
    emailTaken (RegisterBody.email b) db = false /\
    Students after = <[newObjectId E := doc]> (Students db) /\
    StudentDoc.studentClass doc = Some c /\
    StudentDoc.email doc = RegisterBody.email b /\
    StudentDoc.password doc = bcryptHash E <$> RegisterBody.password b /\
    StudentDoc.role doc = Some "student" /\
    StudentDoc.subjects doc = [] /\
    Classes after =
      <[c := ClassDoc.mk (ClassDoc.fee cls) (ClassDoc.lateFineAmount cls)
               (ClassDoc.students cls ++ [newObjectId E])]> (Classes db) /\
    Subjects after = Subjects db /\
    FeePayments after = FeePayments db.
Proof.
  intros after. subst after.
  destruct (register_outcome E db b photo)
    as [Hsame|(c & Hc & [cls Hcls] & Hemail & Hdb)]; [left; exact Hsame|].
  right. rewrite Hdb.
  destruct (registeredDb_shape E b photo c db Hc)
    as (doc & Hclass & Hsubs & Hmail & Hpw & Hrole & _ & HS & HC & HJ & HF).
  exists c, cls, doc. repeat split; try assumption.
  rewrite HC. apply map_eq. intros k.
  destruct (decide (k = c)) as [->|Hk].
  - rewrite lookup_alter_eq, lookup_insert_eq, Hcls. reflexivity.
  - rewrite lookup_alter_ne, lookup_insert_ne by congruence. reflexivity.
Qed.

(** X11.  A registration is all or nothing, whatever the store does.
    Either the database is as it was, or the email was free, the named
    class exists, and exactly two things were written together: the new
    student under the generated id (in that class, with the hash of the
    password, role "student" and no subjects) and that id at the end of the
    class's student list.  Subjects and fee records are never touched. *)
Theorem registration_all_or_nothing (E : Env) (db : Db) (b : RegisterBody.t)
    (photo : option string) :
  let after := dbAfter (REGISTER_STUDENT E b photo) db in
  after = db \/
  exists c cls doc,
    RegisterBody.studentClass b = Some c /\
    Classes db !! c = Some cls /\
    emailTaken (RegisterBody.email b) db = false /\
    Students after = <[newObjectId E := doc]> (Students db) /\
    StudentDoc.studentClass doc = Some c /\
    StudentDoc.email doc = RegisterBody.email b /\
    StudentDoc.password doc = bcryptHash E <$> RegisterBody.password b /\
    StudentDoc.role doc = Some "student" /\
    StudentDoc.subjects doc = [] /\
    Classes after =
      <[c := ClassDoc.mk (ClassDoc.fee cls) (ClassDoc.lateFineAmount cls)
               (ClassDoc.students cls ++ [newObjectId E])]> (Classes db) /\
    Subjects after = Subjects db /\
    FeePayments after = FeePayments db.
Proof. exact (register_writes E db b photo). Qed.

(** On the sample: the new student [s9] joins class [cB]. *)
Example registration_on_sample :
  let after := dbAfter (REGISTER_STUDENT sampleEnv
                          (sampleForm "bela@example.org" "cB") None)
                 sampleDbSubjects in
  ClassDoc.students <$> Classes after !! "cB" = Some ["s2"; "s9"] /\
  StudentDoc.password <$> Students after !! "s9" = Some (Some "hash:secret").
Proof. vm_compute. split; reflexivity. Qed.

(** X12.  The order of the checks of a registration, on a store that does
    not fail.  An email that is already in use is answered 400 "Student
    already exists", also when the class does not exist; otherwise a
    missing or unknown class is answered 400 "Invalid class assigned to
    student".  Both leave the database as it was and the transaction
    aborted. *)
Theorem registration_rejections (E : Env) (db : Db) (b : RegisterBody.t)
    (photo : option string) :
  faultless E ->
  (emailTaken (RegisterBody.email b) db = true ->
   REGISTER_STUDENT E b photo (idle db) =
     (Ok tt,
      mkWorld db Aborted 1
        (Some (mkResponse 400 (Failure "Student already exists"))) None)) /\
  (emailTaken (RegisterBody.email b) db = false ->
   match RegisterBody.studentClass b with
   | Some c => Classes db !! c
   | None => None
   end = None ->
   REGISTER_STUDENT E b photo (idle db) =
     (Ok tt,
      mkWorld db Aborted 2
        (Some (mkResponse 400 (Failure "Invalid class assigned to student")))
        None)).
Proof.
  intros Hnf. split.
  - apply register_email_taken, Hnf.
  - apply register_unknown_class, Hnf.
Qed.

Lemma registration_rejections_witness :
  faultless sampleEnv /\
  REGISTER_STUDENT sampleEnv (sampleForm "asha@example.org" "nowhere") None
    (idle sampleDbSubjects) =
    (Ok tt,
     mkWorld sampleDbSubjects Aborted 1
       (Some (mkResponse 400 (Failure "Student already exists"))) None) /\
  REGISTER_STUDENT sampleEnv (sampleForm "bela@example.org" "nowhere") None
    (idle sampleDbSubjects) =
    (Ok tt,
     mkWorld sampleDbSubjects Aborted 2
       (Some (mkResponse 400 (Failure "Invalid class assigned to student")))
       None).
Proof.
  assert (Hnf : faultless sampleEnv) by (intros n; reflexivity).
  split; [exact Hnf|]. split.
  - apply (registration_rejections sampleEnv sampleDbSubjects
             (sampleForm "asha@example.org" "nowhere") None Hnf).
    vm_compute. reflexivity.
  - apply (registration_rejections sampleEnv sampleDbSubjects
             (sampleForm "bela@example.org" "nowhere") None Hnf).
    + vm_compute. reflexivity.
    + vm_compute. reflexivity.
Defined.

(** ** What an update touches *)

(** X13.  The checks of a student update.  A body without a truthy field
    is answered 400 "No fields to update" before the store is asked
    anything, so also for a student that does not exist; an empty string
    counts as missing, a [subjects] array, even an empty one, does not.
    With a field and a store that does not fail, an unknown student is
    answered 404 "Student not found." after one lookup. *)
Theorem update_rejections (E : Env) (db : Db) (studentId : string)
    (b : UpdateBody.t) :
  (noFields b = true ->
   UPDATE_STUDENT E studentId b (idle db) =
     (Ok tt,
      mkWorld db Aborted 0
        (Some (mkResponse 400 (Failure "No fields to update"))) None)) /\
  (faultless E ->
   noFields b = false ->
   Students db !! studentId = None ->
   UPDATE_STUDENT E studentId b (idle db) =
     (Ok tt,
      mkWorld db Aborted 1
        (Some (mkResponse 404 (Failure "Student not found."))) None)).
Proof.
  split.
  - apply update_no_fields.
  - intros Hnf. apply update_unknown_student, Hnf.
Qed.

Lemma update_rejections_witness :
  UPDATE_STUDENT sampleEnv "nobody"
    (UpdateBody.mk (Some "") None None None None None None)
    (idle sampleDbSubjects) =
    (Ok tt,
     mkWorld sampleDbSubjects Aborted 0
       (Some (mkResponse 400 (Failure "No fields to update"))) None) /\
  UPDATE_STUDENT sampleEnv "nobody" (resubject []) (idle sampleDbSubjects) =
    (Ok tt,
     mkWorld sampleDbSubjects Aborted 1
       (Some (mkResponse 404 (Failure "Student not found."))) None).
Proof.
  split.
  - apply (update_rejections sampleEnv sampleDbSubjects "nobody"
             (UpdateBody.mk (Some "") None None None None None None)).
    vm_compute. reflexivity.
  - apply (update_rejections sampleEnv sampleDbSubjects "nobody" (resubject [])).
    + intros n. reflexivity.
    + vm_compute. reflexivity.
    + vm_compute. reflexivity.
Defined.

Lemma update_frame (E : Env) (db : Db) (studentId : string) (b : UpdateBody.t) :
  let after := dbAfter (UPDATE_STUDENT E studentId b) db in
  Classes after = Classes db /\
  FeePayments after = FeePayments db /\
  (forall id, id <> studentId -> Students after !! id = Students db !! id) /\
  (is_Some (Students after !! studentId) <-> is_Some (Students db !! studentId)) /\
  (forall st', Students after !! studentId = Some st' ->
     exists st, Students db !! studentId = Some st /\
       StudentDoc.email st' = StudentDoc.email st /\
       StudentDoc.password st' = StudentDoc.password st) /\
  (forall k, is_Some (Subjects after !! k) <-> is_Some (Subjects db !! k)) /\
  (forall k sub sub' id,
     Subjects db !! k = Some sub -> Subjects after !! k = Some sub' ->
     id <> studentId ->
     (id ∈ SubjectDoc.students sub' <-> id ∈ SubjectDoc.students sub)).
Proof.
  intros after. subst after.
  destruct (update_outcome E db studentId b)
    as [->|(existing & Hst & _ & ->)].
  - split; [reflexivity|]. split; [reflexivity|]. split; [reflexivity|].
    split; [reflexivity|]. split; [eauto|]. split; [reflexivity|].
    intros k sub sub' id Hsub Hsub' _.
    assert (sub' = sub) by congruence. subst sub'. reflexivity.
  - destruct (updatedDb_shape studentId b existing db Hst)
      as (st' & _ & _ & Hmail & Hpw & HS & HC & HF & HJ).
    assert (Hk : forall k,
      Subjects (updatedDb studentId b existing db) !! k =
        (fun sub => SubjectDoc.mk
           (match UpdateBody.subjects b with
            | None => SubjectDoc.students sub
            | Some new =>
                if bool_decide (k ∈ new /\ k ∉ StudentDoc.subjects existing)
                then addToSet studentId (SubjectDoc.students sub)
                else if bool_decide (k ∈ StudentDoc.subjects existing /\ k ∉ new)
                     then pull studentId (SubjectDoc.students sub)
                     else SubjectDoc.students sub
            end)) <$> Subjects db !! k).
    { intros k. rewrite HJ.
      apply (subjectsAfterUpdate_lookup studentId (UpdateBody.subjects b)
               existing db k). }
    split; [exact HC|]. split; [exact HF|]. split.
    { intros id Hid. rewrite HS. apply lookup_insert_ne. congruence. }
    split.
    { rewrite HS, lookup_insert_eq, Hst. split; eauto. }
    split.
    { intros st Hst'. rewrite HS, lookup_insert_eq in Hst'.
      inversion Hst'; subst st. exists existing. auto. }
    split.
    { intros k'. rewrite Hk. apply fmap_is_Some. }
    intros k' sub sub' id Hsub Hsub' Hid. rewrite Hk, Hsub in Hsub'.
    simpl in Hsub'. inversion Hsub'; subst sub'; clear Hsub'. simpl.
    destruct (UpdateBody.subjects b) as [new|]; [|reflexivity].
    repeat case_bool_decide.
    + rewrite elem_of_addToSet. tauto.
    + rewrite elem_of_pull. tauto.
    + reflexivity.
Qed.

(** X14.  What a student update can reach, whatever the store does: no
    class document and no fee record changes, no student other than the
    addressed one changes, none is created or removed, the email and the
    password of the addressed one stay, no subject is created or deleted,
    and in every subject the membership of the other students is as
    before. *)
Theorem update_touches_one_student (E : Env) (db : Db) (studentId : string)
    (b : UpdateBody.t) :
  let after := dbAfter (UPDATE_STUDENT E studentId b) db in
  Classes after = Classes db /\
  FeePayments after = FeePayments db /\
  (forall id, id <> studentId -> Students after !! id = Students db !! id) /\
  (is_Some (Students after !! studentId) <-> is_Some (Students db !! studentId)) /\
  (forall st', Students after !! studentId = Some st' ->
     exists st, Students db !! studentId = Some st /\
       StudentDoc.email st' = StudentDoc.email st /\
       StudentDoc.password st' = StudentDoc.password st) /\
  (forall k, is_Some (Subjects after !! k) <-> is_Some (Subjects db !! k)) /\
  (forall k sub sub' id,
     Subjects db !! k = Some sub -> Subjects after !! k = Some sub' ->
     id <> studentId ->
     (id ∈ SubjectDoc.students sub' <-> id ∈ SubjectDoc.students sub)).
Proof. exact (update_frame E db studentId b). Qed.

(** ** Fee records are never lost *)

Lemma sameIdentity_refl (r : FeeDoc.t) : sameIdentity r r.
Proof. unfold sameIdentity. auto. Qed.

Lemma sameIdentity_trans (a b c : FeeDoc.t) :
  sameIdentity a b -> sameIdentity b c -> sameIdentity a c.
Proof.
  unfold sameIdentity. intros (H1 & H2 & H3 & H4) (H5 & H6 & H7 & H8).
  repeat split; try congruence. auto.
Qed.

Lemma sameIdentity_applyUpdate (u : UpdateObj) (r : FeeDoc.t) :
  FeeDoc.student (upd_set u) = None ->
  FeeDoc.month (upd_set u) = None ->
  FeeDoc.baseAmount (upd_set u) = None ->
  FeeDoc.isAdvancePayment (upd_set u) <> Some false ->
  sameIdentity r (applyUpdate u r).
Proof.
  intros Hs Hm Hb Ha. unfold sameIdentity, applyUpdate.
  destruct (upd_inc_lateFineAmount u); simpl; rewrite Hs, Hm, Hb; simpl;
    (repeat split; try reflexivity);
    intros Hr; rewrite Hr;
    destruct (FeeDoc.isAdvancePayment (upd_set u)) as [[]|];
    simpl; congruence.
Qed.


(** X15.  No write handler loses or re-labels a fee record.  Whatever the
    request and whatever the store does, every record that was in the
    ledger is still there afterwards, under the same student and month,
    with the base amount it was created with; and a record flagged as an
    advance payment stays flagged. *)
Theorem fee_records_persist (E : Env) (db : Db) (wf : Workflow) :
  evolves sameIdentity db (dbAfter (handler E wf) db).
Proof.
  destruct wf as [b photo|studentId b|s months status adv|s m]; simpl handler.
  - destruct (register_writes E db b photo) as [->|Hw].
    + apply evolves_refl, sameIdentity_refl.
    + destruct Hw as (c & cls & doc & _ & _ & _ & _ & _ & _ & _ & _ & _ & _ & _ & HF).
      intros k r Hr. rewrite HF. exists r. split; [exact Hr|].
      apply sameIdentity_refl.
  - destruct (update_frame E db studentId b) as (_ & HF & _).
    intros k r Hr. rewrite HF. exists r. split; [exact Hr|].
    apply sameIdentity_refl.
  - apply mark_evolves.
    + exact sameIdentity_refl.
    + exact sameIdentity_trans.
    + intros m fee r. split; apply sameIdentity_applyUpdate; simpl;
        try reflexivity.
      * destruct adv; discriminate.
      * destruct (adv || startsInFuture E m); discriminate.
  - apply impose_evolves.
    + exact sameIdentity_refl.
    + intros fee fine existing r. apply sameIdentity_applyUpdate; simpl;
        try reflexivity. discriminate.
Qed.

(** * Properties of the handlers that only read *)

(** ** Queries of the fee report *)

Lemma elem_of_findStudentsOfClass (classId : string) (d : Db) (id : string)
    (name : option string) :
  (id, name) ∈ findStudentsOfClass classId d <->
  exists st, Students d !! id = Some st /\
             StudentDoc.studentClass st = Some classId /\
             StudentDoc.name st = name.
Proof.
  unfold findStudentsOfClass. rewrite list_elem_of_fmap. split.
  - intros ([id' st] & Heq & Hin). simpl in Heq. inversion Heq; subst.
    apply list_elem_of_filter in Hin as [Hcls Hin].
    apply elem_of_map_to_list in Hin. eauto.
  - intros (st & Hst & Hcls & Hname). exists (id, st). split.
    + simpl. congruence.
    + apply list_elem_of_filter. split; [exact Hcls|].
      apply elem_of_map_to_list. exact Hst.
Qed.

Lemma findStudentsOfClass_ids (classId : string) (d : Db) :
  NoDup (map fst (findStudentsOfClass classId d)) /\
  forall id,
    id ∈ map fst (findStudentsOfClass classId d) <->
    exists st, Students d !! id = Some st /\
               StudentDoc.studentClass st = Some classId.
Proof.
  split.
  - unfold findStudentsOfClass. rewrite map_map. simpl.
    apply (sublist_NoDup _ (map fst (map_to_list (Students d)))).
    + apply (NoDup_fst_map_to_list (Students d)).
    + apply (fmap_sublist fst). apply sublist_filter.
  - intros id. change (map fst ?l) with (fst <$> l).
    rewrite list_elem_of_fmap. split.
    + intros ([id' name] & -> & Hin). simpl.
      apply elem_of_findStudentsOfClass in Hin as (st & Hst & Hcls & _). eauto.
    + intros (st & Hst & Hcls). exists (id, StudentDoc.name st).
      split; [reflexivity|]. apply elem_of_findStudentsOfClass. eauto.
Qed.

Lemma elem_of_findFeePayments (ids : list string) (month : string) (d : Db)
    (k : string * string) (r : FeeDoc.t) :
  (k, r) ∈ findFeePayments ids month d <->
  k.1 ∈ ids /\ k.2 = month /\ FeePayments d !! k = Some r.
Proof.
  unfold findFeePayments. rewrite list_elem_of_filter, elem_of_map_to_list.
  simpl. tauto.
Qed.

Lemma findFeePayments_keys (ids : list string) (month : string) (d : Db) :
  NoDup (map (fun kv => kv.1.1) (findFeePayments ids month d)).
Proof.
  change (map ?f ?l) with (f <$> l).
  apply NoDup_fmap_2_strong.
  - intros [k1 r1] [k2 r2] H1 H2 Heq. simpl in Heq.
    apply elem_of_findFeePayments in H1 as (_ & Hm1 & Hr1).
    apply elem_of_findFeePayments in H2 as (_ & Hm2 & Hr2).
    assert (k1 = k2) by (destruct k1, k2; simpl in *; congruence).
    subst k2. congruence.
  - apply (sublist_NoDup _ (map_to_list (FeePayments d))).
    + apply NoDup_map_to_list.
    + apply sublist_filter.
Qed.

(** The map built from the fee records of the month finds, for a student of
    the list, the record of that student and month. *)
Lemma paymentMap_lookup (ids : list string) (month : string) (d : Db)
    (id : string) :
  paymentMap (findFeePayments ids month d) !! id =
    if bool_decide (id ∈ ids) then FeePayments d !! (id, month) else None.
Proof.
  unfold paymentMap.
  set (l := map (fun kv : string * string * FeeDoc.t => (kv.1.1, kv.2))
              (findFeePayments ids month d)).
  assert (Hnodup : NoDup (reverse l).*1).
  { rewrite fmap_reverse, reverse_Permutation. subst l.
    change (map ?f ?l) with (f <$> l). rewrite <- list_fmap_compose.
    apply (findFeePayments_keys ids month d). }
  assert (Hin : forall r, (id, r) ∈ reverse l <->
                  id ∈ ids /\ FeePayments d !! (id, month) = Some r).
  { intros r. rewrite elem_of_reverse. subst l.
    change (map ?f ?l) with (f <$> l). rewrite list_elem_of_fmap. split.
    - intros ([[s m] r'] & Heq & Hin). simpl in Heq. inversion Heq; subst.
      apply elem_of_findFeePayments in Hin as (Hids & Hm & Hr).
      simpl in Hids, Hm. subst m. auto.
    - intros [Hids Hr]. exists ((id, month), r). split; [reflexivity|].
      apply elem_of_findFeePayments. auto. }
  apply option_eq. intros r.
  rewrite <- (elem_of_list_to_map (reverse l) id r Hnodup), Hin.
  case_bool_decide as Hids.
  - tauto.
  - split; [tauto|discriminate].
Qed.

(** Counting the fee records of the month that satisfy a test is counting
    the students of the list whose record satisfies it. *)
Lemma findFeePayments_count (Q : FeeDoc.t -> bool) (ids : list string)
    (month : string) (d : Db) :
  NoDup ids ->
  length (filter (fun kv => Q kv.2 = true) (findFeePayments ids month d)) =
  length (filter (fun id => (Q <$> FeePayments d !! (id, month)) = Some true) ids).
Proof.
  intros Hids.
  rewrite <- (length_fmap (fun kv : string * string * FeeDoc.t => kv.1.1)
                (filter (fun kv => Q kv.2 = true) (findFeePayments ids month d))).
  apply Permutation_length, NoDup_Permutation.
  - apply (sublist_NoDup _ ((fun kv : string * string * FeeDoc.t => kv.1.1) <$>
                              findFeePayments ids month d)).
    + apply (findFeePayments_keys ids month d).
    + apply fmap_sublist, sublist_filter.
  - apply NoDup_filter, Hids.
  - intros id. rewrite list_elem_of_fmap, list_elem_of_filter. split.
    + intros ([[s m] r] & -> & Hin). simpl.
      apply list_elem_of_filter in Hin as [HQ Hin]. simpl in HQ.
      apply elem_of_findFeePayments in Hin as (Hs & Hm & Hr).
      simpl in Hs, Hm. subst m. rewrite Hr. simpl. split; [congruence|exact Hs].
    + intros [HQ Hin].
      destruct (FeePayments d !! (id, month)) as [r|] eqn:Hr; [|discriminate].
      simpl in HQ. exists ((id, month), r). split; [reflexivity|].
      apply list_elem_of_filter. split; [simpl; congruence|].
      apply elem_of_findFeePayments. auto.
Qed.

Lemma length_filter_map {A B} (f : A -> B) (P : B -> bool) (l : list A) :
  length (filter (fun y => P y = true) (map f l)) =
  length (filter (fun x => P (f x) = true) l).
Proof.
  induction l as [|x l IH]; [reflexivity|].
  simpl. rewrite !filter_cons. simpl.
  destruct (decide (P (f x) = true)); simpl; rewrite IH; reflexivity.
Qed.

Lemma length_filter_ext {A} (P Q : A -> Prop) `{!forall x, Decision (P x)}
    `{!forall x, Decision (Q x)} (l : list A) :
  (forall x, x ∈ l -> (P x <-> Q x)) ->
  length (filter P l) = length (filter Q l).
Proof.
  induction l as [|x l IH]; intros Hext; [reflexivity|].
  rewrite !filter_cons.
  assert (Hx : P x <-> Q x) by (apply Hext; left).
  assert (Hl : length (filter P l) = length (filter Q l)).
  { apply IH. intros y Hy. apply Hext. right. exact Hy. }
  destruct (decide (P x)), (decide (Q x)); simpl; try tauto; congruence.
Qed.

Lemma length_filter_negb {A} (P : A -> bool) (l : list A) :
  (length (filter (fun x => P x = true) l) +
   length (filter (fun x => P x = false) l) = length l)%nat.
Proof.
  induction l as [|x l IH]; [reflexivity|].
  rewrite !filter_cons.
  destruct (decide (P x = true)) as [Ht|Hf]; destruct (decide (P x = false));
    simpl; try lia.
  - congruence.
  - destruct (P x); congruence.
Qed.

Lemma length_filter_fmap_gen {A B} (f : A -> B) (P : B -> Prop) (Q : A -> Prop)
    `{!forall y, Decision (P y)} `{!forall x, Decision (Q x)} (l : list A) :
  (forall x, x ∈ l -> (P (f x) <-> Q x)) ->
  length (filter P (f <$> l)) = length (filter Q l).
Proof.
  induction l as [|x l IH]; intros Hext; [reflexivity|].
  rewrite fmap_cons, !filter_cons.
  assert (Hx : P (f x) <-> Q x) by (apply Hext; left).
  assert (Hl : length (filter P (f <$> l)) = length (filter Q l)).
  { apply IH. intros y Hy. apply Hext. right. exact Hy. }
  destruct (decide (P (f x))), (decide (Q x)); simpl; try tauto; congruence.
Qed.

Lemma length_filter_all {A} (P : A -> Prop) `{!forall x, Decision (P x)}
    (l : list A) :
  (forall x, x ∈ l -> P x) -> length (filter P l) = length l.
Proof.
  induction l as [|x l IH]; intros Hall; [reflexivity|].
  rewrite filter_cons, decide_True by (apply Hall; left).
  simpl. rewrite IH; [reflexivity|]. intros y Hy. apply Hall. right. exact Hy.
Qed.

(** ** The fee report of a class *)

Section FeeReport.
Context (E : Env) (L : Lib) (classId m : string) (db : Db).

Local Abbreviation students := (findStudentsOfClass classId db).
Local Abbreviation feePayments := (findFeePayments (map fst students) m db).
Local Abbreviation rows := (map (feeStatusRow L (paymentMap feePayments)) students).

Lemma report_row_payment (st : string * option string) :
  st ∈ students ->
  paymentMap feePayments !! st.1 = FeePayments db !! (st.1, m).
Proof.
  intros Hst. rewrite paymentMap_lookup.
  rewrite bool_decide_eq_true_2; [reflexivity|].
  change (map fst students) with (fst <$> students).
  apply list_elem_of_fmap. exists st. auto.
Qed.

(** Counting records is counting rows. *)
Lemma report_count (Q : FeeDoc.t -> bool) (R : FeeStatus.Row -> bool) :
  (forall payments st,
     R (feeStatusRow L payments st) =
       match payments !! st.1 with
       | Some p => Q p
       | None => false
       end) ->
  length (filter (fun kv => Q kv.2 = true) feePayments) =
  length (filter (fun row => R row = true) rows).
Proof.
  intros HR.
  rewrite findFeePayments_count
    by exact (proj1 (findStudentsOfClass_ids classId db)).
  change (map ?f ?l) with (f <$> l).
  rewrite (length_filter_fmap_gen fst _
             (fun st => (Q <$> FeePayments db !! (st.1, m)) = Some true))
    by (intros; reflexivity).
  symmetry. apply length_filter_fmap_gen. intros st Hst.
  rewrite HR, (report_row_payment st Hst).
  destruct (FeePayments db !! (st.1, m)) as [p|]; simpl.
  - split; congruence.
  - split; discriminate.
Qed.

Lemma fee_status_runs :
  fault E 0%nat = None -> fault E 1%nat = None ->
  m <> "" -> isValidObjectId L classId = true ->
  GET_FEE_PAYMENT_STATUS_BY_CLASS E L classId (Some m) db =
    Answered 200 200 []
      (FeeStatus.mk
         (FeeStatus.mkSummary
            (Z.of_nat (length students))
            (Z.of_nat (length feePayments))
            (Z.of_nat (length students) - Z.of_nat (length feePayments))
            (Z.of_nat
               (length (filter (fun kv => positive (FeeDoc.lateFineAmount kv.2) = true)
                          feePayments))))
         rows)
      "Fee status fetched".
Proof.
  intros H0 H1 Hm Hvalid.
  unfold GET_FEE_PAYMENT_STATUS_BY_CLASS, respond, fee_status_try.
  apply String.eqb_neq in Hm. rewrite Hm, Hvalid. simpl.
  unfold bind, dbRead, dbOp, idle, ret. simpl. rewrite H0. simpl.
  rewrite H1. simpl. reflexivity.
Qed.

Lemma fee_status_summary :
  fault E 0%nat = None -> fault E 1%nat = None ->
  m <> "" -> isValidObjectId L classId = true ->
  exists report,
    GET_FEE_PAYMENT_STATUS_BY_CLASS E L classId (Some m) db =
      Answered 200 200 [] report "Fee status fetched" /\
    NoDup (map FeeStatus.student_id (FeeStatus.students report)) /\
    (forall id,
       id ∈ map FeeStatus.student_id (FeeStatus.students report) <->
       exists st, Students db !! id = Some st /\
                  StudentDoc.studentClass st = Some classId) /\
    (forall row,
       row ∈ FeeStatus.students report ->
       let payment := FeePayments db !! (FeeStatus.student_id row, m) in
       FeeStatus.status row = js_or_str (payment ≫= FeeDoc.status) "not paid" /\
       FeeStatus.details row =
         (fun p =>
            FeeStatus.mkDetails (FeeDoc.baseAmount p) (FeeDoc.lateFineAmount p)
              (totalAmountOf L p) (positive (FeeDoc.lateFineAmount p)))
           <$> payment) /\
    FeeStatus.totalStudents (FeeStatus.summary report) =
      Z.of_nat (length (FeeStatus.students report)) /\
    FeeStatus.paidCount (FeeStatus.summary report) =
      Z.of_nat (length (filter (fun row => hasRecord row = true)
                          (FeeStatus.students report))) /\
    FeeStatus.unpaidCount (FeeStatus.summary report) =
      Z.of_nat (length (filter (fun row => hasRecord row = false)
                          (FeeStatus.students report))) /\
    FeeStatus.lateFeeCount (FeeStatus.summary report) =
      Z.of_nat (length (filter (fun row => hasLateFee row = true)
                          (FeeStatus.students report))).
Proof.
  intros H0 H1 Hm Hvalid. eexists. split; [apply fee_status_runs; assumption|].
  cbn [FeeStatus.students FeeStatus.summary FeeStatus.totalStudents
       FeeStatus.paidCount FeeStatus.unpaidCount FeeStatus.lateFeeCount].
  assert (Hids : map FeeStatus.student_id rows = map fst students).
  { rewrite map_map. reflexivity. }
  assert (Hpaid : length feePayments =
                  length (filter (fun row => hasRecord row = true) rows)).
  { rewrite <- (report_count (fun _ => true) hasRecord).
    - symmetry. apply length_filter_all. reflexivity.
    - intros payments st. unfold hasRecord, feeStatusRow. simpl.
      destruct (payments !! st.1); reflexivity. }
  assert (Hlen : length rows = length students).
  { apply length_map. }
  split; [|split; [|split; [|split; [|split; [|split]]]]].
  - rewrite Hids. apply findStudentsOfClass_ids.
  - intros id. rewrite Hids. apply findStudentsOfClass_ids.
  - intros row Hrow. cbv zeta.
    change (map ?f ?l) with (f <$> l) in Hrow.
    apply list_elem_of_fmap in Hrow as (st & -> & Hst).
    unfold feeStatusRow. simpl. rewrite (report_row_payment st Hst).
    split; reflexivity.
  - rewrite Hlen. reflexivity.
  - rewrite Hpaid. reflexivity.
  - pose proof (length_filter_negb hasRecord rows) as Hsplit.
    rewrite Hpaid, <- Hlen. lia.
  - rewrite (report_count (fun p => positive (FeeDoc.lateFineAmount p)) hasLateFee);
      [reflexivity|].
    intros payments st. unfold hasLateFee, feeStatusRow. simpl.
    destruct (payments !! st.1); reflexivity.
Qed.

End FeeReport.

(** X16.  What the fee report of a class and month says, on a store that
    does not fail.  There is one row per student of the class; a row shows
    the status of the student's record for the month, or "not paid" when
    there is none or its status is empty, and the amounts of that record.
    In the summary [paidCount] is the number of rows that have a record,
    whatever its status, [unpaidCount] the number of rows without one, and
    [lateFeeCount] the number of rows whose record carries a fine amount
    above zero. *)
Theorem fee_status_report (E : Env) (L : Lib) (classId m : string) (db : Db) :
  faultless E ->
  m <> "" ->
  isValidObjectId L classId = true ->
  exists report,
    GET_FEE_PAYMENT_STATUS_BY_CLASS E L classId (Some m) db =
      Answered 200 200 [] report "Fee status fetched" /\
    NoDup (map FeeStatus.student_id (FeeStatus.students report)) /\
    (forall id,
       id ∈ map FeeStatus.student_id (FeeStatus.students report) <->
       exists st, Students db !! id = Some st /\
                  StudentDoc.studentClass st = Some classId) /\
    (forall row,
       row ∈ FeeStatus.students report ->
       let payment := FeePayments db !! (FeeStatus.student_id row, m) in
       FeeStatus.status row = js_or_str (payment ≫= FeeDoc.status) "not paid" /\
       FeeStatus.details row =
         (fun p =>
            FeeStatus.mkDetails (FeeDoc.baseAmount p) (FeeDoc.lateFineAmount p)
              (totalAmountOf L p) (positive (FeeDoc.lateFineAmount p)))
           <$> payment) /\
    FeeStatus.totalStudents (FeeStatus.summary report) =
      Z.of_nat (length (FeeStatus.students report)) /\
    FeeStatus.paidCount (FeeStatus.summary report) =
      Z.of_nat (length (filter (fun row => hasRecord row = true)
                          (FeeStatus.students report))) /\
    FeeStatus.unpaidCount (FeeStatus.summary report) =
      Z.of_nat (length (filter (fun row => hasRecord row = false)
                          (FeeStatus.students report))) /\
    FeeStatus.lateFeeCount (FeeStatus.summary report) =
      Z.of_nat (length (filter (fun row => hasLateFee row = true)
                          (FeeStatus.students report))).
Proof.
  intros Hnf Hm Hvalid.
  exact (fee_status_summary E L classId m db (Hnf 0%nat) (Hnf 1%nat) Hm Hvalid).
Qed.

Lemma fee_status_report_witness :
  exists report,
    GET_FEE_PAYMENT_STATUS_BY_CLASS sampleEnv sampleLib "cA" (Some "March")
      sampleDbFined =
      Answered 200 200 [] report "Fee status fetched" /\
    FeeStatus.paidCount (FeeStatus.summary report) =
      Z.of_nat (length (filter (fun row => hasRecord row = true)
                          (FeeStatus.students report))) /\
    FeeStatus.unpaidCount (FeeStatus.summary report) =
      Z.of_nat (length (filter (fun row => hasRecord row = false)
                          (FeeStatus.students report))).
Proof.
  destruct (fee_status_report sampleEnv sampleLib "cA" "March" sampleDbFined)
    as (report & Hreply & _ & _ & _ & _ & Hpaid & Hunpaid & _).
  - intros n. reflexivity.
  - discriminate.
  - reflexivity.
  - exists report. split; [exact Hreply|]. split; [exact Hpaid|exact Hunpaid].
Defined.

(** On the fined sample: the one student of class [cA] has not paid March,
    and the summary counts the record. *)
Example fee_status_on_sample :
  GET_FEE_PAYMENT_STATUS_BY_CLASS sampleEnv sampleLib "cA" (Some "March")
    sampleDbFined =
  Answered 200 200 []
    (FeeStatus.mk (FeeStatus.mkSummary 1 1 0 1)
       [FeeStatus.mkRow "s1" (Some "Asha") "not paid"
          (Some (FeeStatus.mkDetails (Some 500) (Some 100) None true))])
    "Fee status fetched".
Proof. vm_compute. reflexivity. Qed.


(** X17.  The fee report never answers with an error body.  Its [catch]
    begins with a call on [logger], which the module does not define, so
    whenever the [try] block throws (no month, a malformed class id, a
    failing query) the ReferenceError leaves the handler and the request
    gets no response: the 400 "Month is required" and "Invalid class ID"
    are never sent. *)
Theorem fee_status_errors_unanswered (E : Env) (L : Lib) (classId : string)
    (month : option string) (db : Db) :
  (forall status message,
     GET_FEE_PAYMENT_STATUS_BY_CLASS E L classId month db <>
       Refused status message) /\
  (truthy_str month = false \/ isValidObjectId L classId = false \/
   is_Some (fault E 0%nat) \/ is_Some (fault E 1%nat) ->
   GET_FEE_PAYMENT_STATUS_BY_CLASS E L classId month db =
     Unanswered (ReferenceError "logger is not defined")).
Proof.
  unfold GET_FEE_PAYMENT_STATUS_BY_CLASS, respond. split.
  - intros status message.
    destruct (fee_status_try E L classId month (idle db)).1; discriminate.
  - unfold fee_status_try.
    destruct month as [m|]; [|reflexivity]. simpl.
    destruct (String.eqb m "") eqn:Hm; [reflexivity|]. simpl.
    destruct (isValidObjectId L classId) eqn:Hvalid; [|reflexivity]. simpl.
    unfold bind, dbRead, dbOp, idle, ret. simpl.
    destruct (fault E 0%nat) as [e0|] eqn:H0; [reflexivity|]. simpl.
    destruct (fault E 1%nat) as [e1|] eqn:H1; [reflexivity|].
    intros [Hfalsy|[Hinvalid|[[e He]|[e He]]]]; discriminate.
Qed.

Lemma fee_status_errors_unanswered_witness :
  GET_FEE_PAYMENT_STATUS_BY_CLASS sampleEnv sampleLib "cA" None sampleDbFined =
    Unanswered (ReferenceError "logger is not defined").
Proof.
  apply (fee_status_errors_unanswered sampleEnv sampleLib "cA" None sampleDbFined).
  left. reflexivity.
Defined.

(** ** A new record in the report *)

Lemma length_filter_add {A} `{EqDecision A} (P P' : A -> Prop)
    `{!forall x, Decision (P x)} `{!forall x, Decision (P' x)}
    (s : A) (l : list A) :
  NoDup l -> s ∈ l -> ~ P s ->
  (forall x, P' x <-> P x \/ x = s) ->
  length (filter P' l) = S (length (filter P l)).
Proof.
  intros Hnodup Hin Hs Hadd.
  induction l as [|x l IH]; [inversion Hin|].
  apply NoDup_cons in Hnodup as [Hx Hnodup].
  rewrite !filter_cons.
  destruct (decide (x = s)) as [->|Hne].
  - rewrite decide_True by (apply Hadd; right; reflexivity).
    rewrite decide_False by exact Hs. simpl. f_equal.
    apply length_filter_ext. intros y Hy. rewrite Hadd.
    split; [|tauto]. intros [HP| ->]; [exact HP|contradiction].
  - apply elem_of_cons in Hin as [Heq|Hin]; [congruence|].
    specialize (IH Hnodup Hin).
    destruct (decide (P x)) as [HP|HP].
    + rewrite decide_True by (apply Hadd; left; exact HP). simpl.
      rewrite IH. reflexivity.
    + rewrite decide_False by (rewrite Hadd; tauto). exact IH.
Qed.

Lemma findStudentsOfClass_same (classId : string) (d d' : Db) :
  Students d' = Students d ->
  findStudentsOfClass classId d' = findStudentsOfClass classId d.
Proof. unfold findStudentsOfClass. intros ->. reflexivity. Qed.

(** A record created for a student of the class adds one to the records
    the report finds for the month. *)
Lemma report_after_new_record (classId s m : string) (st : StudentDoc.t)
    (doc : FeeDoc.t) (db db' : Db) :
  Students db' = Students db ->
  FeePayments db' = <[(s, m) := doc]> (FeePayments db) ->
  Students db !! s = Some st ->
  StudentDoc.studentClass st = Some classId ->
  FeePayments db !! (s, m) = None ->
  findStudentsOfClass classId db' = findStudentsOfClass classId db /\
  length (findFeePayments (map fst (findStudentsOfClass classId db')) m db') =
    S (length (findFeePayments (map fst (findStudentsOfClass classId db)) m db)).
Proof.
  intros HS HF Hst Hcls Hnone.
  rewrite (findStudentsOfClass_same classId db db' HS).
  split; [reflexivity|].
  destruct (findStudentsOfClass_ids classId db) as [Hnodup Hids].
  assert (Hcount : forall d,
    length (findFeePayments (map fst (findStudentsOfClass classId db)) m d) =
    length (filter (fun id => ((fun _ : FeeDoc.t => true) <$>
                                 FeePayments d !! (id, m)) = Some true)
              (map fst (findStudentsOfClass classId db)))).
  { intros d.
    etrans; [|apply (findFeePayments_count (fun _ => true)); exact Hnodup].
    symmetry. apply length_filter_all. reflexivity. }
  rewrite (Hcount db'), (Hcount db).
  apply (length_filter_add _ _ s).
  - exact Hnodup.
  - apply Hids. eauto.
  - rewrite Hnone. discriminate.
  - intros id. rewrite HF.
    destruct (decide (id = s)) as [->|Hne].
    + rewrite lookup_insert_eq. simpl. tauto.
    + rewrite lookup_insert_ne by congruence.
      split; [tauto|]. intros [H| ->]; [exact H|contradiction].
Qed.

Lemma report_counts_new_record (E : Env) (L : Lib) (classId s m : string)
    (st : StudentDoc.t) (doc : FeeDoc.t) (db db' : Db) :
  faultless E -> m <> "" -> isValidObjectId L classId = true ->
  Students db' = Students db ->
  FeePayments db' = <[(s, m) := doc]> (FeePayments db) ->
  Students db !! s = Some st ->
  StudentDoc.studentClass st = Some classId ->
  FeePayments db !! (s, m) = None ->
  exists before after,
    GET_FEE_PAYMENT_STATUS_BY_CLASS E L classId (Some m) db =
      Answered 200 200 [] before "Fee status fetched" /\
    GET_FEE_PAYMENT_STATUS_BY_CLASS E L classId (Some m) db' =
      Answered 200 200 [] after "Fee status fetched" /\
    FeeStatus.totalStudents (FeeStatus.summary after) =
      FeeStatus.totalStudents (FeeStatus.summary before) /\
    FeeStatus.paidCount (FeeStatus.summary after) =
      FeeStatus.paidCount (FeeStatus.summary before) + 1 /\
    FeeStatus.unpaidCount (FeeStatus.summary after) =
      FeeStatus.unpaidCount (FeeStatus.summary before) - 1 /\
    exists row,
      row ∈ FeeStatus.students after /\
      FeeStatus.student_id row = s /\
      FeeStatus.status row = js_or_str (FeeDoc.status doc) "not paid".
Proof.
  intros Hnf Hm Hvalid HS HF Hst Hcls Hnone.
  destruct (report_after_new_record classId s m st doc db db' HS HF Hst Hcls Hnone)
    as [Hsame Hlen].
  destruct (fee_status_summary E L classId m db' (Hnf 0%nat) (Hnf 1%nat) Hm Hvalid)
    as (after & Hafter & _ & Hids & Hrows & _).
  exists (FeeStatus.mk
            (FeeStatus.mkSummary
               (Z.of_nat (length (findStudentsOfClass classId db)))
               (Z.of_nat (length (findFeePayments
                                    (map fst (findStudentsOfClass classId db)) m db)))
               (Z.of_nat (length (findStudentsOfClass classId db)) -
                Z.of_nat (length (findFeePayments
                                    (map fst (findStudentsOfClass classId db)) m db)))
               (Z.of_nat
                  (length (filter (fun kv => positive (FeeDoc.lateFineAmount kv.2) = true)
                             (findFeePayments
                                (map fst (findStudentsOfClass classId db)) m db)))))
            (map (feeStatusRow L
                    (paymentMap (findFeePayments
                                   (map fst (findStudentsOfClass classId db)) m db)))
               (findStudentsOfClass classId db))),
    after.
  split; [apply fee_status_runs; auto|]. split; [exact Hafter|].
  pose proof (fee_status_runs E L classId m db' (Hnf 0%nat) (Hnf 1%nat) Hm Hvalid)
    as Hexplicit.
  rewrite Hafter in Hexplicit. inversion Hexplicit as [Hdata]. clear Hexplicit.
  cbn [FeeStatus.summary FeeStatus.totalStudents FeeStatus.paidCount
       FeeStatus.unpaidCount].
  rewrite <- Hdata, Hlen, Hsame.
  split; [reflexivity|]. split; [lia|]. split; [lia|].
  assert (Hin : s ∈ map FeeStatus.student_id (FeeStatus.students after)).
  { apply Hids. exists st. rewrite HS. auto. }
  change (map ?f ?l) with (f <$> l) in Hin.
  apply list_elem_of_fmap in Hin as (row & Hid & Hrow).
  exists row. split; [exact Hrow|]. split; [symmetry; exact Hid|].
  destruct (Hrows row Hrow) as [Hstatus _]. rewrite Hstatus, <- Hid, HF.
  rewrite lookup_insert_eq. reflexivity.
Qed.


(** X18.  A fine on a month that had no record shows up in the report as
    one more paid student.  When the fine goes through, the row of the
    student still says "not paid", while [paidCount] of the class and month
    is one higher than before and [unpaidCount] one lower. *)
Theorem fined_month_counts_as_paid (E : Env) (L : Lib) (db : Db)
    (s m c : string) (st : StudentDoc.t) (cls : ClassDoc.t) :
  faultless E -> s <> "" -> m <> "" ->
  isValidObjectId L c = true ->
  Students db !! s = Some st ->
  StudentDoc.studentClass st = Some c ->
  Classes db !! c = Some cls ->
  FeePayments db !! (s, m) = None ->
  exists before after,
    GET_FEE_PAYMENT_STATUS_BY_CLASS E L c (Some m) db =
      Answered 200 200 [] before "Fee status fetched" /\
    GET_FEE_PAYMENT_STATUS_BY_CLASS E L c (Some m)
      (dbAfter (IMPOSE_LATE_FINE E s m) db) =
      Answered 200 200 [] after "Fee status fetched" /\
    FeeStatus.totalStudents (FeeStatus.summary after) =
      FeeStatus.totalStudents (FeeStatus.summary before) /\
    FeeStatus.paidCount (FeeStatus.summary after) =
      FeeStatus.paidCount (FeeStatus.summary before) + 1 /\
    FeeStatus.unpaidCount (FeeStatus.summary after) =
      FeeStatus.unpaidCount (FeeStatus.summary before) - 1 /\
    exists row,
      row ∈ FeeStatus.students after /\
      FeeStatus.student_id row = s /\
      FeeStatus.status row = "not paid".
Proof.
  intros Hnf Hs Hm Hvalid Hst Hc Hcls Hnone.
  assert (Hclass : hasClass db s cls) by (exists st, c; auto).
  assert (Hunpaid : isPaid (FeePayments db !! (s, m)) = false)
    by (rewrite Hnone; reflexivity).
  destruct (impose_succeeds E Hnf db s m cls Hs Hm Hclass Hunpaid) as [Hdb _].
  rewrite Hdb, Hnone.
  destruct (report_counts_new_record E L c s m st
              (upsertedDoc E s m
                 (fineUpdateObj s m (js_nullish (ClassDoc.fee cls) 1000)
                    (js_nullish (ClassDoc.lateFineAmount cls) 500) None) None)
              db
              (with_FeePayments
                 (insert (s, m)
                    (upsertedDoc E s m
                       (fineUpdateObj s m (js_nullish (ClassDoc.fee cls) 1000)
                          (js_nullish (ClassDoc.lateFineAmount cls) 500) None)
                       None)) db)
              Hnf Hm Hvalid eq_refl eq_refl Hst Hc Hnone)
    as (before & after & Hbefore & Hafter & Htotal & Hpaid & Hunpaid' & row &
        Hrow & Hid & Hstatus).
  exists before, after. repeat (split; [assumption|]).
  exists row. repeat (split; [assumption|]). exact Hstatus.
Qed.

Lemma fined_month_counts_as_paid_witness :
  exists before after,
    GET_FEE_PAYMENT_STATUS_BY_CLASS sampleEnv sampleLib "cA" (Some "March")
      sampleDb =
      Answered 200 200 [] before "Fee status fetched" /\
    GET_FEE_PAYMENT_STATUS_BY_CLASS sampleEnv sampleLib "cA" (Some "March")
      (dbAfter (IMPOSE_LATE_FINE sampleEnv "s1" "March") sampleDb) =
      Answered 200 200 [] after "Fee status fetched" /\
    FeeStatus.paidCount (FeeStatus.summary after) =
      FeeStatus.paidCount (FeeStatus.summary before) + 1.
Proof.
  destruct (fined_month_counts_as_paid sampleEnv sampleLib sampleDb
              "s1" "March" "cA" (sampleStudent (Some "cA"))
              (ClassDoc.mk (Some 500) (Some 100) ["s1"]))
    as (before & after & Hbefore & Hafter & _ & Hpaid & _).
  - intros n. reflexivity.
  - discriminate.
  - discriminate.
  - reflexivity.
  - reflexivity.
  - reflexivity.
  - reflexivity.
  - reflexivity.
  - exists before, after. split; [exact Hbefore|]. split; [exact Hafter|].
    exact Hpaid.
Defined.

(** ** The payment history of a student *)

Lemma elem_of_findHistory (studentId : string) (month : option string)
    (d : Db) (r : FeeDoc.t) :
  r ∈ findHistory studentId month d <->
  exists m,
    FeePayments d !! (studentId, m) = Some r /\
    (truthy_str month = true -> Some m = month).
Proof.
  unfold findHistory. change (map ?f ?l) with (f <$> l).
  rewrite list_elem_of_fmap. split.
  - intros ([[s m] r'] & -> & Hin).
    apply list_elem_of_filter in Hin as [[Hs Hm] Hin]. simpl in *. subst s.
    apply elem_of_map_to_list in Hin. eauto.
  - intros (m & Hr & Hm). exists ((studentId, m), r). split; [reflexivity|].
    apply list_elem_of_filter. split; [simpl; auto|].
    apply elem_of_map_to_list. exact Hr.
Qed.

(** With a month the history is the record of that month, if any. *)
Lemma findHistory_month (studentId m : string) (d : Db) :
  m <> "" ->
  findHistory studentId (Some m) d =
    match FeePayments d !! (studentId, m) with
    | Some r => [r]
    | None => []
    end.
Proof.
  intros Hm. unfold findHistory.
  assert (Htruthy : truthy_str (Some m) = true).
  { simpl. apply negb_true_iff, String.eqb_neq, Hm. }
  assert (Hfilter :
    filter (fun kv : string * string * FeeDoc.t =>
              kv.1.1 = studentId /\ (truthy_str (Some m) = true -> Some kv.1.2 = Some m))
      (map_to_list (FeePayments d)) ≡ₚ
    match FeePayments d !! (studentId, m) with
    | Some r => [((studentId, m), r)]
    | None => []
    end).
  { apply NoDup_Permutation.
    - apply NoDup_filter, NoDup_map_to_list.
    - destruct (FeePayments d !! (studentId, m));
        [apply NoDup_singleton|apply NoDup_nil_2].
    - intros [[s m'] r]. rewrite list_elem_of_filter, elem_of_map_to_list. simpl.
      split.
      + intros [[-> Hm'] Hr]. specialize (Hm' Htruthy). inversion Hm'; subst m'.
        rewrite Hr. apply list_elem_of_singleton. reflexivity.
      + intros Hin.
        destruct (FeePayments d !! (studentId, m)) as [r0|] eqn:Hr0;
          [|inversion Hin].
        apply list_elem_of_singleton in Hin. inversion Hin; subst. auto. }
  destruct (FeePayments d !! (studentId, m)) as [r|].
  - apply Permutation_singleton_r in Hfilter. rewrite Hfilter. reflexivity.
  - apply Permutation_nil_r in Hfilter. rewrite Hfilter. reflexivity.
Qed.

Lemma fee_history_cases (E : Env) (studentId : string) (month : option string)
    (db : Db) :
  faultless E ->
  GET_FEE_PAYMENT_HISTORY_BY_STUDENT E studentId month db =
    match Students db !! studentId with
    | None => Refused 404 "Student not found."
    | Some _ =>
        Answered 200 200 [] (findHistory studentId month db)
          "Fee payment history fetched successfully."
    end.
Proof.
  intros Hnf.
  unfold GET_FEE_PAYMENT_HISTORY_BY_STUDENT, respond, fee_history_try, bind,
    dbRead, dbOp, idle.
  simpl. rewrite Hnf. simpl.
  destruct (Students db !! studentId); simpl; [|reflexivity].
  rewrite Hnf. reflexivity.
Qed.

(** X19.  The payment history, on a store that does not fail.  An unknown
    student is answered 404 "Student not found.".  For a known student and
    a month the answer holds the one record of that student and month, or
    nothing; without a month, or with an empty one, it holds every record
    of the student and no other. *)
Theorem fee_history_answers (E : Env) (studentId : string)
    (month : option string) (db : Db) :
  faultless E ->
  (Students db !! studentId = None ->
   GET_FEE_PAYMENT_HISTORY_BY_STUDENT E studentId month db =
     Refused 404 "Student not found.") /\
  (is_Some (Students db !! studentId) ->
   exists records,
     GET_FEE_PAYMENT_HISTORY_BY_STUDENT E studentId month db =
       Answered 200 200 [] records "Fee payment history fetched successfully." /\
     (forall m, month = Some m -> m <> "" ->
        records = match FeePayments db !! (studentId, m) with
                  | Some r => [r]
                  | None => []
                  end) /\
     (truthy_str month = false ->
        forall r, r ∈ records <->
                  exists m, FeePayments db !! (studentId, m) = Some r)).
Proof.
  intros Hnf. pose proof (fee_history_cases E studentId month db Hnf) as Hcases.
  split.
  - intros Hnone. rewrite Hcases, Hnone. reflexivity.
  - intros [st Hst]. rewrite Hst in Hcases.
    exists (findHistory studentId month db). split; [exact Hcases|]. split.
    + intros m -> Hm. apply findHistory_month, Hm.
    + intros Hfalsy r. rewrite elem_of_findHistory. split.
      * intros (m & Hr & _). eauto.
      * intros (m & Hr). exists m. split; [exact Hr|].
        rewrite Hfalsy. discriminate.
Qed.

Lemma fee_history_answers_witness :
  GET_FEE_PAYMENT_HISTORY_BY_STUDENT sampleEnv "s7" (Some "March") sampleDbFined =
    Refused 404 "Student not found." /\
  exists records,
    GET_FEE_PAYMENT_HISTORY_BY_STUDENT sampleEnv "s1" (Some "March")
      sampleDbFined =
      Answered 200 200 [] records "Fee payment history fetched successfully." /\
    records = match FeePayments sampleDbFined !! ("s1", "March") with
              | Some r => [r]
              | None => []
              end.
Proof.
  assert (Hnf : faultless sampleEnv) by (intros n; reflexivity).
  split.
  - apply (fee_history_answers sampleEnv "s7" (Some "March") sampleDbFined Hnf).
    reflexivity.
  - destruct (fee_history_answers sampleEnv "s1" (Some "March") sampleDbFined Hnf)
      as [_ Hknown].
    destruct Hknown as (records & Hreply & Hmonth & _).
    + vm_compute. eauto.
    + exists records. split; [exact Hreply|].
      apply (Hmonth "March"); [reflexivity|discriminate].
Defined.


(** X20.  Marking a month and asking for it gives the same record back.
    When a single-month marking goes through, the history of the student
    for that month consists of exactly the record the marking answered
    with. *)
Theorem marked_month_is_its_history (E : Env) (db : Db) (s m : string)
    (status : option string) (adv : bool) (cls : ClassDoc.t) :
  faultless E -> m <> "" ->
  hasClass db s cls ->
  let mark := MARK_FEE_PAYMENT_STATUS E s (MonthLabel m) status adv in
  exists record,
    responseAfter mark db =
      Some (mkResponse 200
              (ApiResponse 200 (FeeData record)
                 "Fee payment status updated successfully.")) /\
    GET_FEE_PAYMENT_HISTORY_BY_STUDENT E s (Some m) (dbAfter mark db) =
      Answered 200 200 [] [record] "Fee payment history fetched successfully.".
Proof.
  intros Hnf Hm Hcls mark.
  pose proof (mark_single_succeeds E Hnf db s m status adv cls Hcls) as Hrun.
  cbv zeta in Hrun. eexists. split.
  - unfold responseAfter, mark. rewrite Hrun. reflexivity.
  - rewrite (fee_history_cases E s (Some m) _ Hnf).
    unfold dbAfter, mark. rewrite Hrun. simpl.
    destruct Hcls as (st & c & Hst & _). rewrite Hst.
    rewrite (findHistory_month s m _ Hm). simpl.
    rewrite lookup_insert_eq. reflexivity.
Qed.

Lemma marked_month_is_its_history_witness :
  let mark :=
    MARK_FEE_PAYMENT_STATUS sampleEnv "s1" (MonthLabel "March") (Some "paid")
      false in
  exists record,
    responseAfter mark sampleDbFined =
      Some (mkResponse 200
              (ApiResponse 200 (FeeData record)
                 "Fee payment status updated successfully.")) /\
    GET_FEE_PAYMENT_HISTORY_BY_STUDENT sampleEnv "s1" (Some "March")
      (dbAfter mark sampleDbFined) =
      Answered 200 200 [] [record] "Fee payment history fetched successfully.".
Proof.
  apply (marked_month_is_its_history sampleEnv sampleDbFined "s1" "March"
           (Some "paid") false (ClassDoc.mk (Some 500) (Some 100) ["s1"])).
  - intros n. reflexivity.
  - discriminate.
  - exists (sampleStudent (Some "cA")), "cA". repeat split; reflexivity.
Defined.

(** * Passwords and logging in *)

Lemma withoutPassword_preSave (E : Env) (stored : StudentDoc.t) (p : string) :
  withoutPassword (preSave E stored p) = withoutPassword stored.
Proof. unfold preSave. case_bool_decide; reflexivity. Qed.

Lemma preSave_password (E : Env) (stored : StudentDoc.t) (p : string) :
  StudentDoc.password stored <> Some p ->
  StudentDoc.password (preSave E stored p) = Some (bcryptHash E p).
Proof.
  intros Hne. unfold preSave. rewrite bool_decide_eq_false_2 by exact Hne.
  reflexivity.
Qed.

(** Every run of [CHANGE_STUDENT_PASSWORD]: the database is as it was, or
    the old password was verified against the stored hash, the request is
    answered with the success envelope and the pre-save hook has been
    applied to the stored document. *)
Lemma change_password_outcome (E : Env) (L : Lib) (user : option (option string))
    (b : PasswordBody.t) (db : Db) :
  let old := default "" (PasswordBody.oldPassword b) in
  let new := default "" (PasswordBody.newPassword b) in
  ((CHANGE_STUDENT_PASSWORD E L user b db).2 = db /\
   forall message,
     (CHANGE_STUDENT_PASSWORD E L user b db).1 <>
       Answered 200 200 [] tt message) \/
  exists id st hash,
    user = Some (Some id) /\
    Students db !! id = Some st /\
    StudentDoc.password st = Some hash /\
    bcryptCompare L old hash = true /\
    old <> new /\
    CHANGE_STUDENT_PASSWORD E L user b db =
      (Answered 200 200 [] tt "Password changed successfully",
       with_Students (insert id (preSave E st new)) db).
Proof.
  intros old new. unfold CHANGE_STUDENT_PASSWORD.
  destruct user as [[id|]|]; [| |left; split; [reflexivity|discriminate]].
  2:{ left. split; [reflexivity|discriminate]. }
  unfold change_password_try. fold old new.
  destruct (String.eqb id "") eqn:Hid;
    [left; split; [reflexivity|discriminate]|].
  destruct (blank L old || blank L new) eqn:Hblank;
    [left; split; [reflexivity|discriminate]|].
  destruct (String.eqb old new) eqn:Hsame;
    [left; split; [reflexivity|discriminate]|].
  unfold bind, dbRead, dbOp, idle. simpl.
  destruct (fault E 0%nat) as [e0|];
    [left; split; [reflexivity|discriminate]|].
  simpl.
  destruct (Students db !! id) as [st|] eqn:Hst; simpl;
    [|left; split; [reflexivity|discriminate]].
  unfold comparePassword.
  destruct (StudentDoc.password st) as [hash|] eqn:Hpw; simpl;
    [|left; split; [reflexivity|discriminate]].
  destruct (bcryptCompare L old hash) eqn:Hcmp; simpl;
    [|left; split; [reflexivity|discriminate]].
  destruct (fault E 1%nat) as [e1|]; simpl;
    [left; split; [reflexivity|discriminate]|].
  right. exists id, st, hash. repeat split; auto.
  - apply String.eqb_neq. exact Hsame.
  - f_equal. unfold with_Students. simpl. f_equal.
    apply map_eq. intros k. destruct (decide (k = id)) as [->|Hk].
    + rewrite lookup_alter_eq, lookup_insert_eq, Hst. reflexivity.
    + rewrite lookup_alter_ne, lookup_insert_ne by congruence. reflexivity.
Qed.

Lemma with_Students_same (db : Db) (id : string) (st : StudentDoc.t) :
  Students db !! id = Some st ->
  with_Students (insert id st) db = db.
Proof.
  intros Hst. destruct db as [students classes subjects fees].
  unfold with_Students. simpl in *. f_equal. apply insert_id. exact Hst.
Qed.


(** X21.  What a password change can reach, whatever the store does.
    Classes, subjects and fee records stay; no student other than the
    authenticated one changes, none is created or removed, and every
    student keeps all fields but, possibly, the password.  If the database differs at all
    afterwards, the old password of the request matched the stored hash,
    the stored password is now the hash of the new one, and the request was
    answered "Password changed successfully". *)
Theorem password_changes_only_when_verified (E : Env) (L : Lib)
    (user : option (option string)) (b : PasswordBody.t) (db : Db) :
  let old := default "" (PasswordBody.oldPassword b) in
  let new := default "" (PasswordBody.newPassword b) in
  let after := (CHANGE_STUDENT_PASSWORD E L user b db).2 in
  Classes after = Classes db /\
  Subjects after = Subjects db /\
  FeePayments after = FeePayments db /\
  (forall id, user <> Some (Some id) ->
     Students after !! id = Students db !! id) /\
  (forall id st, Students db !! id = Some st ->
     exists st', Students after !! id = Some st' /\ samePerson st st') /\
  (forall id, Students db !! id = None -> Students after !! id = None) /\
  (after <> db ->
   exists id st hash,
     user = Some (Some id) /\
     Students db !! id = Some st /\
     StudentDoc.password st = Some hash /\
     bcryptCompare L old hash = true /\
     StudentDoc.password <$> Students after !! id =
       Some (Some (bcryptHash E new)) /\
     (CHANGE_STUDENT_PASSWORD E L user b db).1 =
       Answered 200 200 [] tt "Password changed successfully").
Proof.
  intros old new after. subst after.
  destruct (change_password_outcome E L user b db)
    as [[Hsame _]|(id & st & hash & Huser & Hst & Hpw & Hcmp & _ & Hrun)].
  - rewrite Hsame. repeat split; auto.
    + intros id st Hst. exists st. split; [exact Hst|reflexivity].
    + intros Hne. contradiction.
  - rewrite Hrun. simpl.
    split; [reflexivity|]. split; [reflexivity|]. split; [reflexivity|].
    split.
    { intros id' Hother. apply lookup_insert_ne. congruence. }
    split.
    { intros id' st0 Hst0. destruct (decide (id' = id)) as [->|Hne].
      - assert (st0 = st) by congruence. subst st0.
        exists (preSave E st new). split; [apply lookup_insert_eq|].
        apply withoutPassword_preSave.
      - exists st0. split; [|reflexivity].
        rewrite lookup_insert_ne by congruence. exact Hst0. }
    split.
    { intros id' Hnone. rewrite lookup_insert_ne by congruence. exact Hnone. }
    intros Hchanged. exists id, st, hash.
    split; [exact Huser|]. split; [exact Hst|]. split; [exact Hpw|].
    split; [exact Hcmp|]. split; [|reflexivity].
    rewrite lookup_insert_eq. simpl. f_equal. apply preSave_password.
    intros Hsame. apply Hchanged. unfold preSave.
    rewrite bool_decide_eq_true_2 by exact Hsame.
    apply with_Students_same, Hst.
Qed.

(** On the sample: [s1] replaces "secret" by "better". *)
Example password_change_on_sample :
  let run := CHANGE_STUDENT_PASSWORD sampleEnv sampleLib (Some (Some "s1"))
               samplePasswords sampleDbSubjects in
  run.1 = Answered 200 200 [] tt "Password changed successfully" /\
  StudentDoc.password <$> Students run.2 !! "s1" = Some (Some "hash:better").
Proof. vm_compute. split; reflexivity. Qed.

(** ** Logging in *)

Lemma login_runs (E : Env) (L : Lib) (db : Db) (id p : string)
    (st : StudentDoc.t) (hash a r : string) :
  faultless E ->
  blank L id = false -> blank L p = false ->
  Students db !! id = Some st ->
  StudentDoc.password st = Some hash ->
  bcryptCompare L p hash = true ->
  jwtSign L AccessToken id (StudentDoc.role st) = Some a ->
  jwtSign L RefreshToken id (StudentDoc.role st) = Some r ->
  LOGIN_STUDENT E L (LoginBody.mk (Some id) (Some p)) db =
    Answered 200 200 [("accessToken", a); ("refreshToken", r)]
      (LoginData.mk (Some (withoutPassword st)) a)
      "You are logged in successfully!".
Proof.
  intros Hnf Hid Hp Hst Hpw Hcmp Ha Hr.
  unfold LOGIN_STUDENT, login_try. simpl. rewrite Hid, Hp. simpl.
  unfold bind, dbRead, dbOp, idle. simpl. rewrite Hnf. simpl. rewrite Hst.
  unfold comparePassword. rewrite Hpw. simpl. rewrite Hcmp. simpl.
  unfold generateAccessToken_RefreshToken, try_catch, bind, dbRead, dbOp,
    generateToken.
  simpl. rewrite Hnf. simpl. rewrite Hst, Ha. simpl. rewrite Hr. simpl.
  rewrite Hnf. simpl. rewrite Hst. reflexivity.
Qed.


(** X22.  A login is answered with tokens only for the right password.
    Whatever the store does, if [LOGIN_STUDENT] sends the success envelope
    then the student exists, the password of the request matches the stored
    hash, the two cookies are the access and the refresh token signed for
    that student, and the user in the response carries no password. *)
Theorem login_needs_matching_password (E : Env) (L : Lib) (b : LoginBody.t)
    (db : Db) (status statusCode : Z) (cookies : list (string * string))
    (data : LoginData.t) (message : string) :
  LOGIN_STUDENT E L b db = Answered status statusCode cookies data message ->
  let id := default "" (LoginBody.studentId b) in
  let p := default "" (LoginBody.password b) in
  exists st hash refreshToken,
    Students db !! id = Some st /\
    StudentDoc.password st = Some hash /\
    bcryptCompare L p hash = true /\
    blank L id = false /\ blank L p = false /\
    jwtSign L AccessToken id (StudentDoc.role st) = Some (LoginData.accessToken data) /\
    jwtSign L RefreshToken id (StudentDoc.role st) = Some refreshToken /\
    cookies = [("accessToken", LoginData.accessToken data);
               ("refreshToken", refreshToken)] /\
    LoginData.user data = Some (withoutPassword st) /\
    status = 200.
Proof.
  intros Hrun id p. revert Hrun.
  unfold LOGIN_STUDENT, login_try. fold id p.
  destruct (blank L id) eqn:Hid; [discriminate|].
  destruct (blank L p) eqn:Hp; [discriminate|]. simpl.
  unfold bind, dbRead, dbOp, idle. simpl.
  destruct (fault E 0%nat); [discriminate|]. simpl.
  destruct (Students db !! id) as [st|] eqn:Hst; [|discriminate].
  unfold comparePassword.
  destruct (StudentDoc.password st) as [hash|] eqn:Hpw; [|discriminate]. simpl.
  destruct (bcryptCompare L p hash) eqn:Hcmp; [|discriminate]. simpl.
  unfold generateAccessToken_RefreshToken, try_catch, bind, dbRead, dbOp,
    generateToken.
  simpl. destruct (fault E 1%nat); [discriminate|]. simpl. rewrite Hst.
  destruct (jwtSign L AccessToken id (StudentDoc.role st)) as [a|] eqn:Ha;
    [|discriminate].
  simpl.
  destruct (jwtSign L RefreshToken id (StudentDoc.role st)) as [r|] eqn:Hr;
    [|discriminate].
  simpl. destruct (fault E 2%nat); [discriminate|]. simpl. rewrite Hst. simpl.
  intros Hrun. inversion Hrun; subst.
  exists st, hash, r. simpl. repeat split; reflexivity || assumption.
Qed.

Lemma login_needs_matching_password_witness :
  exists st hash,
    Students sampleDbSubjects !! "s1" = Some st /\
    StudentDoc.password st = Some hash /\
    bcryptCompare sampleLib "secret" hash = true.
Proof.
  destruct (login_needs_matching_password sampleEnv sampleLib
              (LoginBody.mk (Some "s1") (Some "secret")) sampleDbSubjects
              200 200 [("accessToken", "access:s1"); ("refreshToken", "refresh:s1")]
              (LoginData.mk
                 (withoutPassword <$> Students sampleDbSubjects !! "s1")
                 "access:s1")
              "You are logged in successfully!")
    as (st & hash & _ & Hst & Hpw & Hcmp & _).
  - vm_compute. reflexivity.
  - exists st, hash. split; [exact Hst|]. split; [exact Hpw|exact Hcmp].
Defined.

Lemma login_refusals (E : Env) (L : Lib) (b : LoginBody.t) (db : Db) :
  let id := default "" (LoginBody.studentId b) in
  let p := default "" (LoginBody.password b) in
  (blank L id = true \/ blank L p = true ->
   LOGIN_STUDENT E L b db = Refused 400 "All fields are required") /\
  (faultless E -> blank L id = false -> blank L p = false ->
   (Students db !! id = None ->
    LOGIN_STUDENT E L b db = Refused 404 "Student not found") /\
   (forall st hash,
      Students db !! id = Some st ->
      StudentDoc.password st = Some hash ->
      (bcryptCompare L p hash = false ->
       LOGIN_STUDENT E L b db = Refused 401 "Invalid credentials") /\
      (bcryptCompare L p hash = true ->
       jwtSign L AccessToken id (StudentDoc.role st) = None \/
       jwtSign L RefreshToken id (StudentDoc.role st) = None ->
       LOGIN_STUDENT E L b db =
         Refused 500
           "Something went wrong while generating referesh and access token"))).
Proof.
  intros id p. unfold LOGIN_STUDENT, login_try. fold id p. split.
  - intros [Hid|Hp].
    + rewrite Hid. reflexivity.
    + rewrite Hp, orb_true_r. reflexivity.
  - intros Hnf Hid Hp. rewrite Hid, Hp. simpl.
    unfold bind, dbRead, dbOp, idle. simpl. rewrite Hnf. simpl. split.
    + intros Hnone. rewrite Hnone. reflexivity.
    + intros st hash Hst Hpw. rewrite Hst. unfold comparePassword.
      rewrite Hpw. simpl. split.
      * intros Hcmp. rewrite Hcmp. reflexivity.
      * intros Hcmp Hsign. rewrite Hcmp. simpl.
        unfold generateAccessToken_RefreshToken, try_catch, bind, dbRead, dbOp,
          generateToken.
        simpl. rewrite Hnf. simpl. rewrite Hst.
        destruct Hsign as [Ha|Hr].
        -- rewrite Ha. reflexivity.
        -- rewrite Hr.
           destruct (jwtSign L AccessToken id (StudentDoc.role st)); reflexivity.
Qed.

(** X23.  How [LOGIN_STUDENT] refuses.  A blank id or password is answered
    400 "All fields are required" without asking the store.  On a store
    that does not fail, an unknown id is answered 404 "Student not found",
    a password that does not match the stored hash 401 "Invalid
    credentials", and a token that cannot be signed 500 with the one
    message of the token helper. *)
Theorem login_rejections (E : Env) (L : Lib) (b : LoginBody.t) (db : Db) :
  let id := default "" (LoginBody.studentId b) in
  let p := default "" (LoginBody.password b) in
  (blank L id = true \/ blank L p = true ->
   LOGIN_STUDENT E L b db = Refused 400 "All fields are required") /\
  (faultless E -> blank L id = false -> blank L p = false ->
   (Students db !! id = None ->
    LOGIN_STUDENT E L b db = Refused 404 "Student not found") /\
   (forall st hash,
      Students db !! id = Some st ->
      StudentDoc.password st = Some hash ->
      (bcryptCompare L p hash = false ->
       LOGIN_STUDENT E L b db = Refused 401 "Invalid credentials") /\
      (bcryptCompare L p hash = true ->
       jwtSign L AccessToken id (StudentDoc.role st) = None \/
       jwtSign L RefreshToken id (StudentDoc.role st) = None ->
       LOGIN_STUDENT E L b db =
         Refused 500
           "Something went wrong while generating referesh and access token"))).
Proof. exact (login_refusals E L b db). Qed.

Lemma login_rejections_witness :
  LOGIN_STUDENT sampleEnv sampleLib (LoginBody.mk (Some "s1") None)
    sampleDbSubjects = Refused 400 "All fields are required" /\
  LOGIN_STUDENT sampleEnv sampleLib (LoginBody.mk (Some "s7") (Some "secret"))
    sampleDbSubjects = Refused 404 "Student not found" /\
  LOGIN_STUDENT sampleEnv sampleLib (LoginBody.mk (Some "s1") (Some "guess"))
    sampleDbSubjects = Refused 401 "Invalid credentials".
Proof.
  assert (Hnf : faultless sampleEnv) by (intros n; reflexivity).
  split; [|split].
  - apply (login_rejections sampleEnv sampleLib (LoginBody.mk (Some "s1") None)
             sampleDbSubjects).
    right. reflexivity.
  - apply (login_rejections sampleEnv sampleLib
             (LoginBody.mk (Some "s7") (Some "secret")) sampleDbSubjects);
      try reflexivity.
    exact Hnf.
  - destruct (login_rejections sampleEnv sampleLib
                (LoginBody.mk (Some "s1") (Some "guess")) sampleDbSubjects)
      as [_ Hstore].
    destruct (Hstore Hnf eq_refl eq_refl) as [_ Hfound].
    destruct (Hfound
                (StudentDoc.mk (Some "Asha") None (Some "asha@example.org")
                   (Some "hash:secret") (Some "cA") None None ["maths"] None None
                   (Some "student") ∅)
                "hash:secret" eq_refl eq_refl) as [Hwrong _].
    apply Hwrong. reflexivity.
Defined.

(** ** Changing the password, registering, then logging in *)


(** X24.  After a password change that goes through, the new password
    logs in and the old one does not.  The student must exist, the old
    password must match the stored hash, and the new password must differ
    from the old one and from the stored hash itself (a value equal to the
    stored one does not count as a modification and is not hashed).  Given
    that hashing and comparing agree on the new password, and that the two
    tokens can be signed, [LOGIN_STUDENT] with the new password answers
    with the tokens and the student; with the old password it answers 401
    as soon as the old password does not match the new hash. *)
Theorem changed_password_logs_in (E : Env) (L : Lib) (db : Db)
    (id old new : string) (st : StudentDoc.t) (hash a r : string) :
  faultless E ->
  id <> "" -> blank L id = false ->
  blank L old = false -> blank L new = false ->
  old <> new ->
  Students db !! id = Some st ->
  StudentDoc.password st = Some hash ->
  bcryptCompare L old hash = true ->
  new <> hash ->
  bcryptCompare L new (bcryptHash E new) = true ->
  jwtSign L AccessToken id (StudentDoc.role st) = Some a ->
  jwtSign L RefreshToken id (StudentDoc.role st) = Some r ->
  let run :=
    CHANGE_STUDENT_PASSWORD E L (Some (Some id))
      (PasswordBody.mk (Some old) (Some new)) db in
  run.1 = Answered 200 200 [] tt "Password changed successfully" /\
  LOGIN_STUDENT E L (LoginBody.mk (Some id) (Some new)) run.2 =
    Answered 200 200 [("accessToken", a); ("refreshToken", r)]
      (LoginData.mk (Some (withoutPassword st)) a)
      "You are logged in successfully!" /\
  (bcryptCompare L old (bcryptHash E new) = false ->
   LOGIN_STUDENT E L (LoginBody.mk (Some id) (Some old)) run.2 =
     Refused 401 "Invalid credentials").
Proof.
  intros Hnf Hid Hidb Hold Hnew Hdiff Hst Hpw Hcmp Hfresh Hnewcmp Ha Hr run.
  assert (Hrun : run =
    (Answered 200 200 [] tt "Password changed successfully",
     with_Students (insert id (preSave E st new)) db)).
  { subst run. unfold CHANGE_STUDENT_PASSWORD, change_password_try. simpl.
    apply String.eqb_neq in Hid, Hdiff. rewrite Hid, Hold, Hnew, Hdiff. simpl.
    unfold bind, dbRead, dbOp, idle. simpl. rewrite Hnf. simpl. rewrite Hst.
    unfold comparePassword. rewrite Hpw. simpl. rewrite Hcmp. simpl.
    rewrite Hnf. simpl. f_equal. unfold with_Students. simpl. f_equal.
    apply map_eq. intros k. destruct (decide (k = id)) as [->|Hk].
    - rewrite lookup_alter_eq, lookup_insert_eq, Hst. reflexivity.
    - rewrite lookup_alter_ne, lookup_insert_ne by congruence. reflexivity. }
  rewrite Hrun. simpl.
  assert (Hstored : StudentDoc.password (preSave E st new) =
                    Some (bcryptHash E new)).
  { apply preSave_password. rewrite Hpw. congruence. }
  assert (Hrole : StudentDoc.role (preSave E st new) = StudentDoc.role st).
  { unfold preSave. case_bool_decide; reflexivity. }
  split; [reflexivity|]. split.
  - rewrite <- (withoutPassword_preSave E st new).
    apply (login_runs E L _ id new (preSave E st new) (bcryptHash E new) a r);
      auto.
    + simpl. apply lookup_insert_eq.
    + rewrite Hrole. exact Ha.
    + rewrite Hrole. exact Hr.
  - intros Hwrong.
    destruct (login_refusals E L (LoginBody.mk (Some id) (Some old))
                (with_Students (insert id (preSave E st new)) db))
      as [_ Hstore].
    destruct (Hstore Hnf Hidb Hold) as [_ Hfound].
    destruct (Hfound (preSave E st new) (bcryptHash E new)) as [Hrefused _].
    + simpl. apply lookup_insert_eq.
    + exact Hstored.
    + apply Hrefused. exact Hwrong.
Qed.

Lemma changed_password_logs_in_witness :
  let run :=
    CHANGE_STUDENT_PASSWORD sampleEnv sampleLib (Some (Some "s1"))
      (PasswordBody.mk (Some "secret") (Some "better")) sampleDbSubjects in
  run.1 = Answered 200 200 [] tt "Password changed successfully" /\
  LOGIN_STUDENT sampleEnv sampleLib (LoginBody.mk (Some "s1") (Some "better"))
    run.2 =
    Answered 200 200 [("accessToken", "access:s1"); ("refreshToken", "refresh:s1")]
      (LoginData.mk
         (Some (withoutPassword
                  (StudentDoc.mk (Some "Asha") None (Some "asha@example.org")
                     (Some "hash:secret") (Some "cA") None None ["maths"] None
                     None (Some "student") ∅)))
         "access:s1")
      "You are logged in successfully!" /\
  (bcryptCompare sampleLib "secret" (bcryptHash sampleEnv "better") = false ->
   LOGIN_STUDENT sampleEnv sampleLib (LoginBody.mk (Some "s1") (Some "secret"))
     run.2 =
     Refused 401 "Invalid credentials").
Proof.
  apply (changed_password_logs_in sampleEnv sampleLib sampleDbSubjects
           "s1" "secret" "better"
           (StudentDoc.mk (Some "Asha") None (Some "asha@example.org")
              (Some "hash:secret") (Some "cA") None None ["maths"] None None
              (Some "student") ∅)
           "hash:secret" "access:s1" "refresh:s1").
  - intros n. reflexivity.
  - discriminate.
  - reflexivity.
  - reflexivity.
  - reflexivity.
  - discriminate.
  - reflexivity.
  - reflexivity.
  - reflexivity.
  - discriminate.
  - reflexivity.
  - reflexivity.
  - reflexivity.
Defined.




(** ** The number of students *)




(** * Listing students *)

Lemma pages_concat {A} (n : nat) (l : list A) (k : nat) :
  concat (map (fun p => take n (drop (p * n) l)) (seq 0 k)) = take (k * n) l.
Proof.
  induction k as [|k IH]; [reflexivity|].
  rewrite seq_S, map_app, concat_app, IH. simpl.
  rewrite app_nil_r, take_take_drop. f_equal. lia.
Qed.

Lemma ceil_div_bounds (total : Z) :
  0 <= total ->
  total <= ceil_div total 10 * 10 /\ ceil_div total 10 * 10 <= total + 9 /\
  0 <= ceil_div total 10.
Proof.
  intros Htotal. unfold ceil_div.
  pose proof (Z.div_mod (total + 10 - 1) 10 ltac:(lia)) as Hdiv.
  pose proof (Z.mod_pos_bound (total + 10 - 1) 10 ltac:(lia)) as Hmod.
  lia.
Qed.

Lemma length_listed_students (l : list (string * StudentDoc.t)) :
  length (listed_students l) = length l.
Proof. apply length_map. Qed.

Lemma all_students_runs (E : Env) (L : Lib) (db : Db) (p : Z) :
  faultless E -> 1 <= p ->
  GET_ALL_STUDENTS E L (Some p) db =
    Answered 200 200 []
      (StudentPage.mk
         (take 10 (drop (Z.to_nat ((p - 1) * 10))
                     (listed_students (map_to_list (Students db)))))
         (Pagination.mk p (ceil_div (Z.of_nat (size (Students db))) 10)
            (Z.of_nat (size (Students db)))))
      "All students retrieved successfully".
Proof.
  intros Hnf Hp.
  unfold GET_ALL_STUDENTS, respond, all_students_try.
  assert (Hpage : js_or (Some p) 1 = p).
  { simpl. destruct (p =? 0) eqn:H0; [lia|reflexivity]. }
  rewrite Hpage. unfold bind, dbRead, dbOp, idle, findPage. simpl.
  rewrite Hnf. simpl.
  destruct ((p - 1) * 10 <? 0) eqn:Hneg; [lia|]. simpl.
  rewrite Hnf. simpl.
  unfold listed_students. change (map ?f ?l) with (f <$> l).
  rewrite fmap_take, fmap_drop. reflexivity.
Qed.

(** X27.  The pages of [GET_ALL_STUDENTS] partition the students.  On a
    store that does not fail and lists the collection in the same order for
    every request, every page from 1 on is answered with
    [totalPages = ceil(totalItems / 10)]; the pages 1 to [totalPages], put
    one after the other, are the students in the order of the store, each
    exactly once and without its password; a page before the last holds
    ten students and a page after the last none.  A page parameter that
    parses to [NaN] or to 0 is page 1. *)
Theorem pages_partition_students (E : Env) (L : Lib) (db : Db) :
  faultless E ->
  let all := listed_students (map_to_list (Students db)) in
  let total := Z.of_nat (size (Students db)) in
  let pages := ceil_div total 10 in
  concat (map (fun p => pageStudents (GET_ALL_STUDENTS E L (Some (Z.of_nat p)) db))
            (seq 1 (Z.to_nat pages))) = all /\
  (forall p, 1 <= p ->
     exists students,
       GET_ALL_STUDENTS E L (Some p) db =
         Answered 200 200 []
           (StudentPage.mk students (Pagination.mk p pages total))
           "All students retrieved successfully" /\
       (p < pages -> length students = 10%nat) /\
       (pages < p -> students = [])) /\
  GET_ALL_STUDENTS E L None db = GET_ALL_STUDENTS E L (Some 1) db /\
  GET_ALL_STUDENTS E L (Some 0) db = GET_ALL_STUDENTS E L (Some 1) db.
Proof.
  intros Hnf all total pages.
  assert (Hlen : length all = size (Students db)).
  { subst all. rewrite length_listed_students. apply length_map_to_list. }
  destruct (ceil_div_bounds total ltac:(lia)) as (Hlow & Hhigh & Hpos).
  fold pages in Hlow, Hhigh, Hpos.
  split; [|split; [|split; reflexivity]].
  - transitivity
      (concat (map (fun p => take 10 (drop (p * 10) all))
                 (seq 0 (Z.to_nat pages)))).
    + rewrite <- (fmap_S_seq 0). change (map ?f ?l) with (f <$> l).
      rewrite <- list_fmap_compose. f_equal. apply list_fmap_ext.
      intros i p Hp. simpl.
      rewrite (all_students_runs E L db (Z.of_nat (S p)) Hnf) by lia.
      simpl. do 2 f_equal. lia.
    + rewrite pages_concat. apply take_ge. lia.
  - intros p Hp. eexists. split; [apply all_students_runs; assumption|].
    fold all. split.
    + intros Hbefore. rewrite length_take, length_drop. lia.
    + intros Hafter. rewrite drop_ge by lia. reflexivity.
Qed.

Lemma pages_partition_students_witness :
  concat (map (fun p => pageStudents
                 (GET_ALL_STUDENTS sampleEnv sampleLib (Some (Z.of_nat p))
                    sampleDbSubjects))
            (seq 1 (Z.to_nat (ceil_div
                                (Z.of_nat (size (Students sampleDbSubjects))) 10)))) =
    listed_students (map_to_list (Students sampleDbSubjects)) /\
  GET_ALL_STUDENTS sampleEnv sampleLib None sampleDbSubjects =
    GET_ALL_STUDENTS sampleEnv sampleLib (Some 1) sampleDbSubjects.
Proof.
  destruct (pages_partition_students sampleEnv sampleLib sampleDbSubjects)
    as (Hall & _ & Hnan & _).
  - intros n. reflexivity.
  - split; [exact Hall|exact Hnan].
Defined.

(** ** Students of a class *)

Lemma listed_students_ids (l : list (string * StudentDoc.t)) :
  map fst (listed_students l) = map fst l.
Proof. unfold listed_students. rewrite map_map. reflexivity. Qed.

Lemma students_by_class_runs (E : Env) (classId : string) (db : Db) :
  faultless E ->
  let students :=
    listed_students
      (filter (fun kv => StudentDoc.studentClass kv.2 = Some classId)
         (map_to_list (Students db))) in
  GET_STUDENT_BY_CLASS_ID E classId db =
    match students with
    | [] => Refused 404 ("No students found for class with id " ++ classId)
    | _ =>
        Answered 200 200 [] students
          ("Students for class with id " ++ classId ++ " retrieved successfully")
    end.
Proof.
  intros Hnf students.
  unfold GET_STUDENT_BY_CLASS_ID, respond, students_by_class_try, bind, dbRead,
    dbOp, idle.
  simpl. rewrite Hnf. simpl. fold students.
  destruct students; reflexivity.
Qed.

(** X28.  The listing of a class agrees with the class document.  On a
    store that does not fail and a database whose class back-references are
    consistent, [GET_STUDENT_BY_CLASS_ID] answers 404 exactly when the
    [students] array of the class is empty, and otherwise lists the
    students of that array, each once and without its password. *)
Theorem class_listing_matches_backrefs (E : Env) (db : Db) (c : string)
    (cls : ClassDoc.t) :
  faultless E ->
  classLinked db ->
  Classes db !! c = Some cls ->
  match ClassDoc.students cls with
  | [] =>
      GET_STUDENT_BY_CLASS_ID E c db =
        Refused 404 ("No students found for class with id " ++ c)
  | _ =>
      exists students,
        GET_STUDENT_BY_CLASS_ID E c db =
          Answered 200 200 [] students
            ("Students for class with id " ++ c ++ " retrieved successfully") /\
        map fst students ≡ₚ ClassDoc.students cls /\
        Forall (fun kv => StudentDoc.password kv.2 = None) students
  end.
Proof.
  intros Hnf Hlinked Hcls.
  destruct (Hlinked c cls Hcls) as [Hnodup Hlink].
  pose proof (students_by_class_runs E c db Hnf) as Hrun. cbv zeta in Hrun.
  set (students :=
         listed_students
           (filter (fun kv => StudentDoc.studentClass kv.2 = Some c)
              (map_to_list (Students db)))) in *.
  assert (Hperm : map fst students ≡ₚ ClassDoc.students cls).
  { subst students. rewrite listed_students_ids.
    destruct (findStudentsOfClass_ids c db) as [Hnodup' Hids].
    unfold findStudentsOfClass in Hnodup', Hids. rewrite map_map in Hnodup', Hids.
    simpl in Hnodup', Hids.
    apply NoDup_Permutation; [exact Hnodup'|exact Hnodup|].
    intros id. rewrite Hids, Hlink. reflexivity. }
  assert (Hpw : Forall (fun kv => StudentDoc.password kv.2 = None) students).
  { subst students. unfold listed_students. apply Forall_forall.
    intros kv Hin. change (map ?f ?l) with (f <$> l) in Hin.
    apply list_elem_of_fmap in Hin as (kv' & -> & _). reflexivity. }
  destruct (ClassDoc.students cls) as [|id rest] eqn:Hlist.
  - apply Permutation_nil_r in Hperm.
    destruct students; [exact Hrun|discriminate Hperm].
  - destruct students as [|kv more].
    + simpl in Hperm. apply Permutation_nil_l in Hperm. discriminate Hperm.
    + exists (kv :: more). split; [exact Hrun|]. split; [exact Hperm|exact Hpw].
Qed.

Lemma class_listing_matches_backrefs_witness :
  exists students,
    GET_STUDENT_BY_CLASS_ID sampleEnv "cA" sampleDbSubjects =
      Answered 200 200 [] students
        "Students for class with id cA retrieved successfully" /\
    map fst students ≡ₚ ["s1"].
Proof.
  destruct (class_listing_matches_backrefs sampleEnv sampleDbSubjects "cA"
              (ClassDoc.mk (Some 500) (Some 100) ["s1"]))
    as (students & Hreply & Hperm & _).
  - intros n. reflexivity.
  - exact (proj1 sampleDbSubjects_linked).
  - reflexivity.
  - exists students. split; [exact Hreply|exact Hperm].
Defined.
